(** * Adafruit TSL2561 light sensor driver: a shallow embedding

    The development embeds the two copies of the driver found in the
    repository, [Adafruit_TSL2561.cpp] and [Adafruit_TSL2561_U.cpp], and
    proves properties of the auto-gain acquisition loop ([getLuminosity]),
    of the fixed-point lux conversion ([calculateLux]), of the inverse
    approximation ([calculateRawCH0]) and of the initialisation guard of
    the configuration setters.

    Conventions.
    - C integers are [Z] with the wrap-around of their type written out:
      [uint8_t], [uint16_t], [uint32_t] and [unsigned long] (32 bits on
      every Arduino target) and [unsigned int] (16 bits, as on AVR).
    - The driver object together with the I2C bus it talks to is a record
      [Sensor]; a method is a state transformer [Drv A].
    - The bus is a stream of bytes to be received ([rx]) and a log of what
      the driver did on it ([tx], latest call first).
    - The constants of [Adafruit_TSL2561_U.h] are the fields of a record
      [Header]; every function takes it as an argument.
    - A [float] or [double] is a [spec_float] of the standard library; what
      the target decides about floating point is a record [FloatUnit]. *)

From Stdlib Require Import ZArith List Bool Lia SpecFloat.
From Stdlib Require String.
Import String.StringSyntax.
Import ListNotations.
Local Open Scope Z_scope.

(** ** C integer types *)

Definition wrap (bits x : Z) : Z := x mod 2 ^ bits.

Definition to_uint8 : Z -> Z := wrap 8.
Definition to_uint16 : Z -> Z := wrap 16.
Definition to_uint32 : Z -> Z := wrap 32.
(** [unsigned long] *)
Definition to_ulong : Z -> Z := wrap 32.
(** [unsigned int] *)
Definition to_uint : Z -> Z := wrap 16.

(** ** The header *)

(** [tsl2561IntegrationTime_t] *)
Inductive tsl2561IntegrationTime_t : Set :=
  | INTEGRATIONTIME_13MS
  | INTEGRATIONTIME_101MS
  | INTEGRATIONTIME_402MS.

(** [tsl2561Gain_t] *)
Inductive tsl2561Gain_t : Set :=
  | GAIN_1X
  | GAIN_16X.

(** The package the lux coefficients are chosen for:
    [#ifdef TSL2561_PACKAGE_CS ... #else ... #endif]. *)
Inductive Package : Set :=
  | PACKAGE_CS
  | PACKAGE_T_FN_CL.

(** One table of breakpoints and coefficients, [TSL2561_LUX_K1x] to
    [TSL2561_LUX_M8x] for a package [x]. *)
Record LuxTable : Set := {
  K1 : Z; B1 : Z; M1 : Z;
  K2 : Z; B2 : Z; M2 : Z;
  K3 : Z; B3 : Z; M3 : Z;
  K4 : Z; B4 : Z; M4 : Z;
  K5 : Z; B5 : Z; M5 : Z;
  K6 : Z; B6 : Z; M6 : Z;
  K7 : Z; B7 : Z; M7 : Z;
  K8 : Z; B8 : Z; M8 : Z
}.

(** The constants the two source files take from the header. *)
Record Header : Set := {
  TSL2561_COMMAND_BIT : Z;
  TSL2561_WORD_BIT : Z;
  TSL2561_REGISTER_CONTROL : Z;
  TSL2561_REGISTER_TIMING : Z;
  TSL2561_REGISTER_ID : Z;
  TSL2561_REGISTER_CHAN0_LOW : Z;
  TSL2561_REGISTER_CHAN1_LOW : Z;
  TSL2561_CONTROL_POWERON : Z;
  TSL2561_CONTROL_POWEROFF : Z;
  TSL2561_INTEGRATIONTIME_13MS : Z;
  TSL2561_INTEGRATIONTIME_101MS : Z;
  TSL2561_INTEGRATIONTIME_402MS : Z;
  TSL2561_GAIN_1X : Z;
  TSL2561_GAIN_16X : Z;
  TSL2561_DELAY_INTTIME_13MS : Z;
  TSL2561_DELAY_INTTIME_101MS : Z;
  TSL2561_DELAY_INTTIME_402MS : Z;
  TSL2561_AGC_THI_13MS : Z;
  TSL2561_AGC_TLO_13MS : Z;
  TSL2561_AGC_THI_101MS : Z;
  TSL2561_AGC_TLO_101MS : Z;
  TSL2561_AGC_THI_402MS : Z;
  TSL2561_AGC_TLO_402MS : Z;
  TSL2561_CLIPPING_13MS : Z;
  TSL2561_CLIPPING_101MS : Z;
  TSL2561_CLIPPING_402MS : Z;
  TSL2561_LUX_LUXSCALE : Z;
  TSL2561_LUX_RATIOSCALE : Z;
  TSL2561_LUX_CHSCALE : Z;
  TSL2561_LUX_CHSCALE_TINT0 : Z;
  TSL2561_LUX_CHSCALE_TINT1 : Z;
  TSL2561_LUX_CS : LuxTable;
  TSL2561_LUX_T : LuxTable
}.

(** The value of an enumerator as an integer, for [time | gain] and
    [!_tsl2561Gain]. *)
Definition time_code (h : Header) (t : tsl2561IntegrationTime_t) : Z :=
  match t with
  | INTEGRATIONTIME_13MS => TSL2561_INTEGRATIONTIME_13MS h
  | INTEGRATIONTIME_101MS => TSL2561_INTEGRATIONTIME_101MS h
  | INTEGRATIONTIME_402MS => TSL2561_INTEGRATIONTIME_402MS h
  end.

Definition gain_code (h : Header) (g : tsl2561Gain_t) : Z :=
  match g with
  | GAIN_1X => TSL2561_GAIN_1X h
  | GAIN_16X => TSL2561_GAIN_16X h
  end.

Definition gain_eqb (a b : tsl2561Gain_t) : bool :=
  match a, b with
  | GAIN_1X, GAIN_1X | GAIN_16X, GAIN_16X => true
  | _, _ => false
  end.

Definition lux_table (h : Header) (p : Package) : LuxTable :=
  match p with
  | PACKAGE_CS => TSL2561_LUX_CS h
  | PACKAGE_T_FN_CL => TSL2561_LUX_T h
  end.

(** Modelled from the spec: [Adafruit_TSL2561_U.h] is not among the source
    files, and the spec names its constants without their values ("use the
    package's published constants").  These are the values the sensor's data
    sheet and the upstream header publish; the delays are the [#define]s at
    the head of [Adafruit_TSL2561.cpp].  The general theorems below hold for
    every header; this one serves where a statement needs numbers. *)
Definition published_T : LuxTable := {|
  K1 := 0x0040; B1 := 0x01f2; M1 := 0x01be;
  K2 := 0x0080; B2 := 0x0214; M2 := 0x02d1;
  K3 := 0x00c0; B3 := 0x023f; M3 := 0x037b;
  K4 := 0x0100; B4 := 0x0270; M4 := 0x03fe;
  K5 := 0x0138; B5 := 0x016f; M5 := 0x01fc;
  K6 := 0x019a; B6 := 0x00d2; M6 := 0x00fb;
  K7 := 0x029a; B7 := 0x0018; M7 := 0x0012;
  K8 := 0x029a; B8 := 0x0000; M8 := 0x0000
|}.

(** Modelled from the spec: the missing header's coefficients for the CS
    package, as published. *)
Definition published_CS : LuxTable := {|
  K1 := 0x0043; B1 := 0x0204; M1 := 0x01ad;
  K2 := 0x0085; B2 := 0x0228; M2 := 0x02c1;
  K3 := 0x00c8; B3 := 0x0253; M3 := 0x0363;
  K4 := 0x010a; B4 := 0x0282; M4 := 0x03df;
  K5 := 0x014d; B5 := 0x0177; M5 := 0x01dd;
  K6 := 0x019a; B6 := 0x0101; M6 := 0x0127;
  K7 := 0x029a; B7 := 0x0037; M7 := 0x002b;
  K8 := 0x029a; B8 := 0x0000; M8 := 0x0000
|}.

(** Modelled from the spec: the missing header's register map, enumerator
    values, thresholds and scales, as published. *)
Definition published_header : Header := {|
  TSL2561_COMMAND_BIT := 0x80;
  TSL2561_WORD_BIT := 0x20;
  TSL2561_REGISTER_CONTROL := 0x00;
  TSL2561_REGISTER_TIMING := 0x01;
  TSL2561_REGISTER_ID := 0x0A;
  TSL2561_REGISTER_CHAN0_LOW := 0x0C;
  TSL2561_REGISTER_CHAN1_LOW := 0x0E;
  TSL2561_CONTROL_POWERON := 0x03;
  TSL2561_CONTROL_POWEROFF := 0x00;
  TSL2561_INTEGRATIONTIME_13MS := 0x00;
  TSL2561_INTEGRATIONTIME_101MS := 0x01;
  TSL2561_INTEGRATIONTIME_402MS := 0x02;
  TSL2561_GAIN_1X := 0x00;
  TSL2561_GAIN_16X := 0x10;
  TSL2561_DELAY_INTTIME_13MS := 15;
  TSL2561_DELAY_INTTIME_101MS := 120;
  TSL2561_DELAY_INTTIME_402MS := 450;
  TSL2561_AGC_THI_13MS := 4850;
  TSL2561_AGC_TLO_13MS := 100;
  TSL2561_AGC_THI_101MS := 36000;
  TSL2561_AGC_TLO_101MS := 200;
  TSL2561_AGC_THI_402MS := 63000;
  TSL2561_AGC_TLO_402MS := 500;
  TSL2561_CLIPPING_13MS := 4900;
  TSL2561_CLIPPING_101MS := 37000;
  TSL2561_CLIPPING_402MS := 65000;
  TSL2561_LUX_LUXSCALE := 14;
  TSL2561_LUX_RATIOSCALE := 9;
  TSL2561_LUX_CHSCALE := 10;
  TSL2561_LUX_CHSCALE_TINT0 := 0x7517;
  TSL2561_LUX_CHSCALE_TINT1 := 0x0FE7;
  TSL2561_LUX_CS := published_CS;
  TSL2561_LUX_T := published_T
|}.

(** ** The bus and the driver object *)

(** What the driver does on the [TwoWire] object and the clock. *)
Inductive WireEvent : Set :=
  | WireBegin
  | BeginTransmission (addr : Z)
  | WireWrite (byte : Z)
  | EndTransmission
  | RequestFrom (addr quantity : Z)
  | Delay (ms : Z).

(** The [TwoWire] object: [rx n] is what the [n]-th call of [read()]
    returns, [rx_pos] counts the calls made so far, [tx] is the log of the
    other calls, latest first. *)
Record TwoWire : Type := {
  rx : nat -> Z;
  rx_pos : nat;
  tx : list WireEvent
}.

(** The fields of [Adafruit_TSL2561_Unified] and the bus [_i2c] points to. *)
Record Sensor : Type := {
  _addr : Z;
  _tsl2561Initialised : bool;
  _tsl2561AutoGain : bool;
  _tsl2561IntegrationTime : tsl2561IntegrationTime_t;
  _tsl2561Gain : tsl2561Gain_t;
  _tsl2561SensorID : Z;
  _allowSleep : bool;
  _i2c : TwoWire
}.

Definition set_i2c (w : TwoWire) (s : Sensor) : Sensor :=
  {| _addr := _addr s; _tsl2561Initialised := _tsl2561Initialised s;
     _tsl2561AutoGain := _tsl2561AutoGain s;
     _tsl2561IntegrationTime := _tsl2561IntegrationTime s;
     _tsl2561Gain := _tsl2561Gain s; _tsl2561SensorID := _tsl2561SensorID s;
     _allowSleep := _allowSleep s; _i2c := w |}.

Definition set_Initialised (b : bool) (s : Sensor) : Sensor :=
  {| _addr := _addr s; _tsl2561Initialised := b;
     _tsl2561AutoGain := _tsl2561AutoGain s;
     _tsl2561IntegrationTime := _tsl2561IntegrationTime s;
     _tsl2561Gain := _tsl2561Gain s; _tsl2561SensorID := _tsl2561SensorID s;
     _allowSleep := _allowSleep s; _i2c := _i2c s |}.

Definition set_AutoGain (b : bool) (s : Sensor) : Sensor :=
  {| _addr := _addr s; _tsl2561Initialised := _tsl2561Initialised s;
     _tsl2561AutoGain := b;
     _tsl2561IntegrationTime := _tsl2561IntegrationTime s;
     _tsl2561Gain := _tsl2561Gain s; _tsl2561SensorID := _tsl2561SensorID s;
     _allowSleep := _allowSleep s; _i2c := _i2c s |}.

Definition set_IntegrationTime (t : tsl2561IntegrationTime_t) (s : Sensor)
  : Sensor :=
  {| _addr := _addr s; _tsl2561Initialised := _tsl2561Initialised s;
     _tsl2561AutoGain := _tsl2561AutoGain s;
     _tsl2561IntegrationTime := t;
     _tsl2561Gain := _tsl2561Gain s; _tsl2561SensorID := _tsl2561SensorID s;
     _allowSleep := _allowSleep s; _i2c := _i2c s |}.

Definition set_Gain (g : tsl2561Gain_t) (s : Sensor) : Sensor :=
  {| _addr := _addr s; _tsl2561Initialised := _tsl2561Initialised s;
     _tsl2561AutoGain := _tsl2561AutoGain s;
     _tsl2561IntegrationTime := _tsl2561IntegrationTime s;
     _tsl2561Gain := g; _tsl2561SensorID := _tsl2561SensorID s;
     _allowSleep := _allowSleep s; _i2c := _i2c s |}.

(** ** Methods as state transformers *)

Definition Drv (A : Type) : Type := Sensor -> A * Sensor.

Definition ret {A : Type} (a : A) : Drv A := fun s => (a, s).

Definition bind {A B : Type} (m : Drv A) (k : A -> Drv B) : Drv B :=
  fun s => let (a, s') := m s in k a s'.

Declare Scope drv_scope.
Delimit Scope drv_scope with drv.
Notation "x <- m ;; k" := (bind m (fun x => k))
  (at level 61, m at next level, right associativity) : drv_scope.
Notation "m ;; k" := (bind m (fun _ => k))
  (at level 61, right associativity) : drv_scope.
Local Open Scope drv_scope.

Definition field {A : Type} (f : Sensor -> A) : Drv A := fun s => (f s, s).

Definition assign (f : Sensor -> Sensor) : Drv unit := fun s => (tt, f s).

(** [if (c) m;] *)
Definition when (c : bool) (m : Drv unit) : Drv unit :=
  if c then m else ret tt.

(** A call on the bus that returns nothing: it is added to the log. *)
Definition wire (e : WireEvent) : Drv unit :=
  assign (fun s =>
    set_i2c {| rx := rx (_i2c s); rx_pos := rx_pos (_i2c s);
               tx := e :: tx (_i2c s) |} s).

(** [_i2c->read()] *)
Definition wire_read : Drv Z :=
  fun s =>
    (rx (_i2c s) (rx_pos (_i2c s)),
     set_i2c {| rx := rx (_i2c s); rx_pos := S (rx_pos (_i2c s));
                tx := tx (_i2c s) |} s).

(** [delay(ms)] *)
Definition delay (ms : Z) : Drv unit := wire (Delay ms).

(** The number of waits for the ADC in the log.  [getData] is the only
    method that waits, once per call, so this counts the acquisitions. *)
Definition is_delay (e : WireEvent) : bool :=
  match e with
  | Delay _ => true
  | _ => false
  end.

Definition acquisitions (s : Sensor) : nat :=
  length (filter is_delay (tx (_i2c s))).

(** ** The two source files *)

(** [Adafruit_TSL2561.cpp] and [Adafruit_TSL2561_U.cpp] hold the same
    methods; they differ in the identity probe of [init], in where the
    integration delays come from, and in that only the second has
    [calculateRawCH0].  The serial tracing ([DEBUGOUT]) of the first touches
    neither the object nor the bus and is left out. *)
Inductive SourceFile : Set :=
  | Adafruit_TSL2561_cpp
  | Adafruit_TSL2561_U_cpp.

Section Driver.

Variable h : Header.
Variable src : SourceFile.

(** *** Private functions *)

Definition write8 (reg value : Z) : Drv unit :=
  a <- field _addr ;;
  wire (BeginTransmission a) ;;
  wire (WireWrite (to_uint8 reg)) ;;
  wire (WireWrite (Z.land (to_uint32 value) 0xFF)) ;;
  wire EndTransmission.

Definition read8 (reg : Z) : Drv Z :=
  a <- field _addr ;;
  wire (BeginTransmission a) ;;
  wire (WireWrite (to_uint8 reg)) ;;
  wire EndTransmission ;;
  wire (RequestFrom a 1) ;;
  x <- wire_read ;;
  ret (to_uint8 x).

Definition read16 (reg : Z) : Drv Z :=
  a <- field _addr ;;
  wire (BeginTransmission a) ;;
  wire (WireWrite (to_uint8 reg)) ;;
  wire EndTransmission ;;
  wire (RequestFrom a 2) ;;
  t <- wire_read ;;
  x <- wire_read ;;
  let t := to_uint16 t in
  let x := to_uint16 x in
  let x := to_uint16 (Z.shiftl x 8) in
  let x := Z.lor x t in
  ret x.

Definition enable : Drv unit :=
  write8 (Z.lor (TSL2561_COMMAND_BIT h) (TSL2561_REGISTER_CONTROL h))
         (TSL2561_CONTROL_POWERON h).

Definition disable : Drv unit :=
  write8 (Z.lor (TSL2561_COMMAND_BIT h) (TSL2561_REGISTER_CONTROL h))
         (TSL2561_CONTROL_POWEROFF h).

(** The wait for the ADC: the first file defines the three delays itself,
    the second takes them from the header. *)
Definition integration_delay (t : tsl2561IntegrationTime_t) : Z :=
  match src, t with
  | Adafruit_TSL2561_cpp, INTEGRATIONTIME_13MS => 15
  | Adafruit_TSL2561_cpp, INTEGRATIONTIME_101MS => 120
  | Adafruit_TSL2561_cpp, INTEGRATIONTIME_402MS => 450
  | Adafruit_TSL2561_U_cpp, INTEGRATIONTIME_13MS =>
      TSL2561_DELAY_INTTIME_13MS h
  | Adafruit_TSL2561_U_cpp, INTEGRATIONTIME_101MS =>
      TSL2561_DELAY_INTTIME_101MS h
  | Adafruit_TSL2561_U_cpp, INTEGRATIONTIME_402MS =>
      TSL2561_DELAY_INTTIME_402MS h
  end.

(** [getData(&broadband, &ir)]: the two out-parameters are the result. *)
Definition getData : Drv (Z * Z) :=
  enable ;;
  it <- field _tsl2561IntegrationTime ;;
  delay (integration_delay it) ;;
  broadband <- read16 (Z.lor (Z.lor (TSL2561_COMMAND_BIT h)
                                    (TSL2561_WORD_BIT h))
                             (TSL2561_REGISTER_CHAN0_LOW h)) ;;
  ir <- read16 (Z.lor (Z.lor (TSL2561_COMMAND_BIT h) (TSL2561_WORD_BIT h))
                      (TSL2561_REGISTER_CHAN1_LOW h)) ;;
  sleep <- field _allowSleep ;;
  when sleep disable ;;
  ret (broadband, ir).

(** *** Initialisation and the setters

    [setIntegrationTime] and [setGain] call [begin], which calls [init],
    which calls the two setters again.  Each body is first written with its
    callees as arguments; the knot is tied below, and
    [init_unfold] shows that the closed functions satisfy the equations of
    the source. *)

(** [if (!_tsl2561Initialised) begin();] *)
Definition begin_if_needed (begin : Drv bool) : Drv unit :=
  initialised <- field _tsl2561Initialised ;;
  when (negb initialised) (_ <- begin ;; ret tt).

Definition setIntegrationTime_with (begin : Drv bool)
    (time : tsl2561IntegrationTime_t) : Drv unit :=
  begin_if_needed begin ;;
  enable ;;
  gain <- field _tsl2561Gain ;;
  write8 (Z.lor (TSL2561_COMMAND_BIT h) (TSL2561_REGISTER_TIMING h))
         (Z.lor (time_code h time) (gain_code h gain)) ;;
  assign (set_IntegrationTime time) ;;
  sleep <- field _allowSleep ;;
  when sleep disable.

Definition setGain_with (begin : Drv bool) (gain : tsl2561Gain_t)
  : Drv unit :=
  begin_if_needed begin ;;
  enable ;;
  time <- field _tsl2561IntegrationTime ;;
  write8 (Z.lor (TSL2561_COMMAND_BIT h) (TSL2561_REGISTER_TIMING h))
         (Z.lor (time_code h time) (gain_code h gain)) ;;
  assign (set_Gain gain) ;;
  sleep <- field _allowSleep ;;
  when sleep disable.

(** The identity probe of [init]: [true] when [init] gives up.
    [if (!(x & 0x0A)) return false;] in the first file,
    [if (x & 0x05) return false;] in the second. *)
Definition probe_fails (x : Z) : bool :=
  match src with
  | Adafruit_TSL2561_cpp => Z.land x 0x0A =? 0
  | Adafruit_TSL2561_U_cpp => negb (Z.land x 0x05 =? 0)
  end.

Definition init_with
    (setIntegrationTime : tsl2561IntegrationTime_t -> Drv unit)
    (setGain : tsl2561Gain_t -> Drv unit) : Drv bool :=
  x <- read8 (TSL2561_REGISTER_ID h) ;;
  if probe_fails x then ret false
  else
    assign (set_Initialised true) ;;
    time <- field _tsl2561IntegrationTime ;;
    setIntegrationTime time ;;
    gain <- field _tsl2561Gain ;;
    setGain gain ;;
    sleep <- field _allowSleep ;;
    when sleep disable ;;
    ret true.

(** Inside [init] the object is already marked initialised, so the setters
    it calls never reach their own call of [begin]. *)
Definition begin_not_reached : Drv bool := ret false.

Definition init : Drv bool :=
  init_with (setIntegrationTime_with begin_not_reached)
            (setGain_with begin_not_reached).

(** [begin()]: [_i2c = &Wire; _i2c->begin(); return init();] *)
Definition begin : Drv bool :=
  wire WireBegin ;;
  init.

Definition setIntegrationTime : tsl2561IntegrationTime_t -> Drv unit :=
  setIntegrationTime_with begin.

Definition setGain : tsl2561Gain_t -> Drv unit :=
  setGain_with begin.

Definition enableAutoRange (enable : bool) : Drv unit :=
  assign (set_AutoGain enable).

(** *** The acquisition loop *)

(** [_hi] and [_lo], both [uint16_t]. *)
Definition agc_hi (t : tsl2561IntegrationTime_t) : Z :=
  to_uint16 match t with
            | INTEGRATIONTIME_13MS => TSL2561_AGC_THI_13MS h
            | INTEGRATIONTIME_101MS => TSL2561_AGC_THI_101MS h
            | INTEGRATIONTIME_402MS => TSL2561_AGC_THI_402MS h
            end.

Definition agc_lo (t : tsl2561IntegrationTime_t) : Z :=
  to_uint16 match t with
            | INTEGRATIONTIME_13MS => TSL2561_AGC_TLO_13MS h
            | INTEGRATIONTIME_101MS => TSL2561_AGC_TLO_101MS h
            | INTEGRATIONTIME_402MS => TSL2561_AGC_TLO_402MS h
            end.

(** One pass through the body of the [do ... while (!valid)] loop.  The
    result is the new [_agcCheck] and, when the pass sets [valid], the pair
    written to [*broadband] and [*ir]. *)
Definition agc_pass (_agcCheck : bool) : Drv (bool * option (Z * Z)) :=
  _it <- field _tsl2561IntegrationTime ;;
  let _hi := agc_hi _it in
  let _lo := agc_lo _it in
  reading <- getData ;;
  let _b := fst reading in
  if negb _agcCheck then
    gain <- field _tsl2561Gain ;;
    if (_b <? _lo) && gain_eqb gain GAIN_1X then
      setGain GAIN_16X ;;
      _ <- getData ;;
      ret (true, None)
    else if (_hi <? _b) && gain_eqb gain GAIN_16X then
      setGain GAIN_1X ;;
      _ <- getData ;;
      ret (true, None)
    else
      ret (_agcCheck, Some reading)
  else
    ret (_agcCheck, Some reading).

(** The loop itself; [fuel] bounds the number of passes and [None] means
    it ran out. *)
Fixpoint agc_loop (fuel : nat) (_agcCheck : bool) : Drv (option (Z * Z)) :=
  match fuel with
  | O => ret None
  | S fuel' =>
      p <- agc_pass _agcCheck ;;
      match snd p with
      | Some reading => ret (Some reading)
      | None => agc_loop fuel' (fst p)
      end
  end.

Definition getLuminosity (fuel : nat) : Drv (option (Z * Z)) :=
  begin_if_needed begin ;;
  autogain <- field _tsl2561AutoGain ;;
  if negb autogain then
    reading <- getData ;;
    ret (Some reading)
  else
    agc_loop fuel false.

End Driver.

(** ** The lux conversion *)

Section Lux.

Variable h : Header.
Variable package : Package.

(** [clipThreshold], a [uint16_t]. *)
Definition clipThreshold (t : tsl2561IntegrationTime_t) : Z :=
  to_uint16 match t with
            | INTEGRATIONTIME_13MS => TSL2561_CLIPPING_13MS h
            | INTEGRATIONTIME_101MS => TSL2561_CLIPPING_101MS h
            | INTEGRATIONTIME_402MS => TSL2561_CLIPPING_402MS h
            end.

(** [chScale] after the switch on the integration time and the scaling for
    the gain: [if (!_tsl2561Gain) chScale = chScale << 4;]. *)
Definition chScale (t : tsl2561IntegrationTime_t) (g : tsl2561Gain_t) : Z :=
  let chScale :=
    to_ulong match t with
             | INTEGRATIONTIME_13MS => TSL2561_LUX_CHSCALE_TINT0 h
             | INTEGRATIONTIME_101MS => TSL2561_LUX_CHSCALE_TINT1 h
             | INTEGRATIONTIME_402MS => Z.shiftl 1 (TSL2561_LUX_CHSCALE h)
             end in
  if gain_code h g =? 0 then to_ulong (Z.shiftl chScale 4) else chScale.

(** [(raw * chScale) >> TSL2561_LUX_CHSCALE] *)
Definition scale_channel (chScale raw : Z) : Z :=
  Z.shiftr (to_ulong (raw * chScale)) (TSL2561_LUX_CHSCALE h).

(** [ratio], from [channel0] and [channel1]. *)
Definition lux_ratio (channel0 channel1 : Z) : Z :=
  let ratio1 :=
    if negb (channel0 =? 0)
    then to_ulong (Z.shiftl channel1 (TSL2561_LUX_RATIOSCALE h + 1))
         / channel0
    else 0 in
  Z.shiftr (to_ulong (ratio1 + 1)) 1.

(** The chain of [if ... else if] that assigns [b] and [m]; [None] when no
    branch is taken and both stay unassigned. *)
Definition select_coefficients (t : LuxTable) (ratio : Z) : option (Z * Z) :=
  if (0 <=? ratio) && (ratio <=? to_ulong (K1 t))
  then Some (to_uint (B1 t), to_uint (M1 t))
  else if ratio <=? to_ulong (K2 t)
  then Some (to_uint (B2 t), to_uint (M2 t))
  else if ratio <=? to_ulong (K3 t)
  then Some (to_uint (B3 t), to_uint (M3 t))
  else if ratio <=? to_ulong (K4 t)
  then Some (to_uint (B4 t), to_uint (M4 t))
  else if ratio <=? to_ulong (K5 t)
  then Some (to_uint (B5 t), to_uint (M5 t))
  else if ratio <=? to_ulong (K6 t)
  then Some (to_uint (B6 t), to_uint (M6 t))
  else if ratio <=? to_ulong (K7 t)
  then Some (to_uint (B7 t), to_uint (M7 t))
  else if to_ulong (K8 t) <? ratio
  then Some (to_uint (B8 t), to_uint (M8 t))
  else None.

(** [temp] as first assigned: [(channel0 * b) - (channel1 * m)] in
    [unsigned long]. *)
Definition lux_temp (channel0 channel1 b m : Z) : Z :=
  to_ulong (to_ulong (channel0 * b) - to_ulong (channel1 * m)).

(** From [temp] to the returned value: the test [if (temp < 0) temp = 0;],
    the rounding and the final shift. *)
Definition lux_round (temp : Z) : Z :=
  let temp := if temp <? 0 then 0 else temp in
  let temp := to_ulong (temp + Z.shiftl 1 (TSL2561_LUX_LUXSCALE h - 1)) in
  to_uint32 (Z.shiftr temp (TSL2561_LUX_LUXSCALE h)).

(** [calculateLux(broadband, ir)], for [uint16_t] arguments; [None] when
    [b] and [m] are read unassigned. *)
Definition calculateLux (s : Sensor) (broadband ir : Z) : option Z :=
  let clipThreshold := clipThreshold (_tsl2561IntegrationTime s) in
  if (clipThreshold <? broadband) || (clipThreshold <? ir) then Some 65536
  else
    let chScale := chScale (_tsl2561IntegrationTime s) (_tsl2561Gain s) in
    let channel0 := scale_channel chScale broadband in
    let channel1 := scale_channel chScale ir in
    let ratio := lux_ratio channel0 channel1 in
    match select_coefficients (lux_table h package) ratio with
    | Some (b, m) => Some (lux_round (lux_temp channel0 channel1 b m))
    | None => None
    end.

End Lux.

(** A driver object as the constructor leaves it, on a bus that will
    deliver the bytes [bytes] and then zeros. *)
Definition Adafruit_TSL2561_Unified (addr sensorID : Z) (allowSleep : bool)
    (bytes : list Z) : Sensor :=
  {| _addr := addr;
     _tsl2561Initialised := false;
     _tsl2561AutoGain := false;
     _tsl2561IntegrationTime := INTEGRATIONTIME_13MS;
     _tsl2561Gain := GAIN_1X;
     _tsl2561SensorID := sensorID;
     _allowSleep := allowSleep;
     _i2c := {| rx := fun n => nth n bytes 0; rx_pos := 0%nat; tx := [] |} |}.

(** ** Floating point *)

(** What the compilation target fixes about floating point: the format of
    [double] (binary64, or binary32 as avr-gcc has it), [pow] of the C
    library, and the conversion [(unsigned long)] of a floating value.
    [float] is binary32 throughout. *)
Record FloatUnit : Type := {
  double_prec : Z;
  double_emax : Z;
  c_pow : spec_float -> spec_float -> spec_float;
  c_ftoul : spec_float -> Z
}.

Definition has_binary64_double (fpu : FloatUnit) : Prop :=
  double_prec fpu = 53 /\ double_emax fpu = 1024.

Definition has_binary32_double (fpu : FloatUnit) : Prop :=
  double_prec fpu = 24 /\ double_emax fpu = 128.

(** The value of a finite float divided by [2 ^ k], an integer when [k] is
    at most its exponent. *)
Definition scaled_value (k : Z) (x : spec_float) : Z :=
  match x with
  | S754_finite s m e => (if s then Z.neg m else Z.pos m) * 2 ^ (e - k)
  | _ => 0
  end.

Definition exponent_of (x : spec_float) : Z :=
  match x with
  | S754_finite _ _ e => e
  | _ => 0
  end.

(** Comparison of two floating values of any formats: IEEE 754 compares
    the numbers they stand for, a NaN compares with nothing. *)
Definition fcompare (x y : spec_float) : option comparison :=
  match x, y with
  | S754_nan, _ | _, S754_nan => None
  | S754_infinity sx, S754_infinity sy =>
      Some (if sx then (if sy then Eq else Lt) else (if sy then Gt else Eq))
  | S754_infinity sx, _ => Some (if sx then Lt else Gt)
  | _, S754_infinity sy => Some (if sy then Gt else Lt)
  | _, _ =>
      let k := Z.min (exponent_of x) (exponent_of y) in
      Some (Z.compare (scaled_value k x) (scaled_value k y))
  end.

(** [x > y] *)
Definition fgt (x y : spec_float) : bool :=
  match fcompare x y with
  | Some Gt => true
  | _ => false
  end.

(** Conversion of a floating value to the format [(prec, emax)]. *)
Definition to_format (prec emax : Z) (x : spec_float) : spec_float :=
  match x with
  | S754_finite s m e =>
      binary_normalize prec emax (if s then Z.neg m else Z.pos m) e s
  | _ => x
  end.

Definition to_float : spec_float -> spec_float := to_format 24 128.

(** [(float) n] for an [unsigned long] [n]. *)
Definition float_of_ulong (n : Z) : spec_float :=
  binary_normalize 24 128 n 0 false.

(** ** The inverse approximation *)

Section RawCH0.

Variable h : Header.
Variable package : Package.
Variable fpu : FloatUnit.

Definition to_double : spec_float -> spec_float :=
  to_format (double_prec fpu) (double_emax fpu).

(** The [double] a decimal literal [n / 10 ^ k] denotes: the quotient of
    two integers is rounded once, to nearest. *)
Definition literal (n k : Z) : spec_float :=
  SFdiv (double_prec fpu) (double_emax fpu)
    (binary_normalize (double_prec fpu) (double_emax fpu) n 0 false)
    (binary_normalize (double_prec fpu) (double_emax fpu) (10 ^ k) 0 false).

Definition dmul : spec_float -> spec_float -> spec_float :=
  SFmul (double_prec fpu) (double_emax fpu).

Definition dsub : spec_float -> spec_float -> spec_float :=
  SFsub (double_prec fpu) (double_emax fpu).

(** [a - b * approxChRatio], computed in [double] and stored in the
    [float] [divisor]. *)
Definition linear_divisor (a b approxChRatio : spec_float) : spec_float :=
  to_float (dsub a (dmul b (to_double approxChRatio))).

(** [a - b * pow(approxChRatio, 1.4)], likewise. *)
Definition power_divisor (a b approxChRatio : spec_float) : spec_float :=
  to_float (dsub a (dmul b (c_pow fpu (to_double approxChRatio)
                                      (literal 14 1)))).

(** The scaling back at the end: [return (ch0Scale / chScale);]. *)
Definition scale_back (s : Sensor) (ch0Scale : Z) : Z :=
  to_uint32
    (ch0Scale / chScale h (_tsl2561IntegrationTime s) (_tsl2561Gain s)).

(** [calculateRawCH0(lux, approxChRatio)] of [Adafruit_TSL2561_U.cpp], for
    a [uint16_t] [lux].  In the CS branch [divisor] is computed and not
    used, and [ch0Scale] keeps its initial 0. *)
Definition calculateRawCH0 (s : Sensor) (lux : Z)
    (approxChRatio : spec_float) : Z :=
  let luxScale := to_ulong (to_uint (Z.shiftl lux (TSL2561_LUX_CHSCALE h))) in
  match package with
  | PACKAGE_CS =>
      if fgt approxChRatio (literal 130 2) then 0xFFFF
      else
        let divisor :=
          if fgt approxChRatio (literal 80 2)
          then linear_divisor (literal 338 5) (literal 260 5) approxChRatio
          else if fgt approxChRatio (literal 65 2)
          then linear_divisor (literal 157 4) (literal 180 4) approxChRatio
          else if fgt approxChRatio (literal 52 2)
          then linear_divisor (literal 229 4) (literal 291 4) approxChRatio
          else power_divisor (literal 315 4) (literal 593 4) approxChRatio in
        scale_back s 0
  | PACKAGE_T_FN_CL =>
      if fgt approxChRatio (literal 130 2) then 0xFFFF
      else
        let divisor :=
          if fgt approxChRatio (literal 80 2)
          then linear_divisor (literal 146 5) (literal 112 5) approxChRatio
          else if fgt approxChRatio (literal 61 2)
          then linear_divisor (literal 128 4) (literal 153 4) approxChRatio
          else if fgt approxChRatio (literal 50 2)
          then linear_divisor (literal 224 4) (literal 31 3) approxChRatio
          else power_divisor (literal 304 4) (literal 62 3) approxChRatio in
        if fgt divisor (S754_zero false)
        then scale_back s (to_ulong (c_ftoul fpu
               (SFdiv 24 128 (float_of_ulong luxScale) divisor)))
        else 0xFFFF
  end.

End RawCH0.

(** A target with a binary64 [double]; [pow] and the conversion are
    stand-ins, not reached on a ratio above 1.30. *)
Definition sample_fpu : FloatUnit :=
  {| double_prec := 53; double_emax := 1024;
     c_pow := fun x _ => x;
     c_ftoul := fun _ => 0 |}.

(** 1.5 as a [float]. *)
Definition ratio_one_and_a_half : spec_float :=
  S754_finite false 12582912 (-23).

(** A [float] stands for a number above [n / d] ([d] positive); the
    positive infinity does. *)
Definition exceeds (x : spec_float) (n d : Z) : Prop :=
  match x with
  | S754_infinity false => True
  | S754_finite false m e =>
      if 0 <=? e then n < d * (Z.pos m * 2 ^ e)
      else n * 2 ^ (- e) < d * Z.pos m
  | _ => False
  end.

(** ** The brackets of the coefficient table, as the spec words them *)

Definition breakpoint (t : LuxTable) (i : nat) : Z :=
  nth (pred i) [K1 t; K2 t; K3 t; K4 t; K5 t; K6 t; K7 t; K8 t] 0.

Definition coefficients (t : LuxTable) (i : nat) : Z * Z :=
  nth (pred i)
      [(B1 t, M1 t); (B2 t, M2 t); (B3 t, M3 t); (B4 t, M4 t);
       (B5 t, M5 t); (B6 t, M6 t); (B7 t, M7 t); (B8 t, M8 t)] (0, 0).

(** Bracket 1 is [[0, K1]], bracket [i] is [(K(i-1), Ki]] for [i] from 2
    to 7, bracket 8 is the catch-all above [K8]. *)
Definition in_bracket (t : LuxTable) (i : nat) (ratio : Z) : Prop :=
  match i with
  | 1%nat => 0 <= ratio <= breakpoint t 1
  | 8%nat => breakpoint t 8 < ratio
  | _ => (2 <= i <= 7)%nat /\
         breakpoint t (pred i) < ratio <= breakpoint t i
  end.

(** The breakpoints ascend, the last two coincide, and every entry fits
    the C type it is read into. *)
Definition table_ok (t : LuxTable) : bool :=
  (0 <=? K1 t) && (K1 t <=? K2 t) && (K2 t <=? K3 t) && (K3 t <=? K4 t) &&
  (K4 t <=? K5 t) && (K5 t <=? K6 t) && (K6 t <=? K7 t) && (K7 t =? K8 t) &&
  (K8 t <? 2 ^ 32) &&
  forallb (fun c => (0 <=? c) && (c <? 2 ^ 16))
          [B1 t; M1 t; B2 t; M2 t; B3 t; M3 t; B4 t; M4 t;
           B5 t; M5 t; B6 t; M6 t; B7 t; M7 t; B8 t; M8 t].

(** A driver object whose bus delivers the byte [x] at every read. *)
Definition answering (x : Z) (s : Sensor) : Sensor :=
  set_i2c {| rx := fun _ => x; rx_pos := rx_pos (_i2c s);
             tx := tx (_i2c s) |} s.

(** The first thing a call does on the bus is [begin()]: the log grows by
    [WireBegin] and then by whatever came later. *)
Definition begins_first {A : Type} (m : Drv A) (s : Sensor) : Prop :=
  exists later : list WireEvent,
    tx (_i2c (snd (m s))) = later ++ WireBegin :: tx (_i2c s).

(** The byte the timing register is written with. *)
Definition timing_byte (h : Header) (time : tsl2561IntegrationTime_t)
    (gain : tsl2561Gain_t) : Z :=
  Z.land (to_uint32 (Z.lor (time_code h time) (gain_code h gain))) 0xFF.

(** The fields of the object other than the bus. *)
Definition config (s : Sensor) :=
  (_addr s, _tsl2561Initialised s, _tsl2561AutoGain s,
   _tsl2561IntegrationTime s, _tsl2561Gain s, _tsl2561SensorID s,
   _allowSleep s).

(** A method that touches nothing but the bus. *)
Definition bus_only {A : Type} (m : Drv A) : Prop :=
  forall s, config (snd (m s)) = config s.

(** What a reading must leave alone: the configuration the next reading
    and the conversion depend on. *)
Definition settings (s : Sensor) :=
  (_tsl2561AutoGain s, _tsl2561IntegrationTime s, _tsl2561Gain s,
   _allowSleep s, _addr s).

(** The object once the guard [if (!_tsl2561Initialised) begin();] has
    run. *)
Definition ready (h : Header) (src : SourceFile) (s : Sensor) : Sensor :=
  snd (begin_if_needed (begin h src) s).

(** A sensor in a dim room, with auto-gain switched on: the bus answers
    the identity probe with 0x50, then delivers a reading of 16 on channel
    0, a second reading of 800, and a third of 4660. *)
Definition dim_room : Sensor :=
  snd (enableAutoRange true
         (Adafruit_TSL2561_Unified 0x39 12345 true
            [0x50; 0x10; 0x00; 0x05; 0x00; 0x20; 0x03; 0x40; 0x00;
             0x34; 0x12; 0x78; 0x05])).

(** A sensor set to 402 ms and gain 16x, where no scaling applies. *)
Definition unscaled : Sensor :=
  set_Gain GAIN_16X
    (set_IntegrationTime INTEGRATIONTIME_402MS
       (Adafruit_TSL2561_Unified 0x39 12345 true [])).

(** [getLuminosity] hands a reading to its caller. *)
Definition accept (r : (Z * Z) * Sensor) : option (Z * Z) * Sensor :=
  (Some (fst r), snd r).

(** The reading that follows a change of the gain to [g]: the gain is
    set, one reading is taken and dropped, and the next one is the result. *)
Definition reading_after_adjustment (h : Header) (src : SourceFile)
    (g : tsl2561Gain_t) (s : Sensor) : (Z * Z) * Sensor :=
  let dropped := getData h src (snd (setGain h src g s)) in
  getData h src (snd dropped).

(** ** The rest of the driver: 16-bit writes, interrupts, events *)

(** The constants of the header that only the interrupt methods use. *)
Record InterruptHeader : Set := {
  TSL2561_CLEAR_BIT : Z;
  TSL2561_REGISTER_THRESHHOLDL_LOW : Z;
  TSL2561_REGISTER_THRESHHOLDH_LOW : Z;
  TSL2561_REGISTER_INTERRUPT : Z
}.

(** Modelled from the spec: the missing header's interrupt registers and
    clear bit, as published. *)
Definition published_interrupt_header : InterruptHeader := {|
  TSL2561_CLEAR_BIT := 0x40;
  TSL2561_REGISTER_THRESHHOLDL_LOW := 0x02;
  TSL2561_REGISTER_THRESHHOLDH_LOW := 0x04;
  TSL2561_REGISTER_INTERRUPT := 0x06
|}.

(** What [getEvent] takes from the Adafruit_Sensor library:
    [sizeof(sensors_event_t)] and [SENSOR_TYPE_LIGHT]. *)
Record SensorLibrary : Set := {
  sizeof_sensors_event_t : Z;
  SENSOR_TYPE_LIGHT : Z
}.

(** The fields of [sensors_event_t] that [getEvent] assigns; [memset]
    leaves every other one at 0. *)
Record sensors_event_t : Set := {
  version : Z;
  sensor_id : Z;
  type : Z;
  timestamp : Z;
  light : spec_float
}.

(** [int32_t] *)
Definition to_int32 (x : Z) : Z := (x + 2 ^ 31) mod 2 ^ 32 - 2 ^ 31.

(** Arduino's [lowByte(w)] and [highByte(w)]. *)
Definition lowByte (w : Z) : Z := to_uint8 (Z.land w 0xFF).

Definition highByte (w : Z) : Z := to_uint8 (Z.shiftr w 8).

(** [x == y] on floating values. *)
Definition feq (x y : spec_float) : bool :=
  match fcompare x y with
  | Some Eq => true
  | _ => false
  end.

(** A floating value taken as a condition: anything but a zero. *)
Definition is_nonzero (x : spec_float) : bool :=
  match x with
  | S754_zero _ => false
  | _ => true
  end.

(** The object itself, [*this]. *)
Definition this : Drv Sensor := fun s => (s, s).

Section Interrupts.

Variable h : Header.
Variable src : SourceFile.
Variable ih : InterruptHeader.

Definition writereg8 (reg : Z) : Drv unit :=
  a <- field _addr ;;
  wire (BeginTransmission a) ;;
  wire (WireWrite (to_uint8 reg)) ;;
  wire EndTransmission.

(** [write16(reg, value)], with its guard on the low nibble of [reg]. *)
Definition write16 (reg value : Z) : Drv unit :=
  let reg := to_uint8 reg in
  let value := to_uint32 value in
  if Z.land reg 0x0F <? 0x0F then
    write8 reg (lowByte value) ;;
    write8 (reg + 1) (highByte value)
  else ret tt.

(** The byte [setInterruptControl] writes. *)
Definition interrupt_data (intcontrol intpersist : Z) : Z :=
  to_uint8 (Z.lor (Z.shiftl (Z.land intcontrol 3) 4)
                  (Z.land (to_uint8 intpersist) 15)).

Definition setInterruptControl_with (begin : Drv bool)
    (intcontrol intpersist : Z) : Drv unit :=
  begin_if_needed begin ;;
  enable h ;;
  let cmd := to_uint8 (Z.lor (TSL2561_COMMAND_BIT h)
                             (TSL2561_REGISTER_INTERRUPT ih)) in
  let data := interrupt_data intcontrol intpersist in
  write8 cmd data ;;
  sleep <- field _allowSleep ;;
  when sleep (disable h).

Definition setInterruptControl : Z -> Z -> Drv unit :=
  setInterruptControl_with (begin h src).

Definition setInterruptThreshold (lowThreshold highThreshold : Z)
  : Drv unit :=
  write16 (Z.lor (TSL2561_COMMAND_BIT h)
                 (TSL2561_REGISTER_THRESHHOLDL_LOW ih))
          (to_uint16 lowThreshold) ;;
  write16 (Z.lor (TSL2561_COMMAND_BIT h)
                 (TSL2561_REGISTER_THRESHHOLDH_LOW ih))
          (to_uint16 highThreshold).

Definition clearLevelInterrupt : Drv unit :=
  writereg8 (Z.lor (TSL2561_COMMAND_BIT h) (TSL2561_CLEAR_BIT ih)).

Variable package : Package.
Variable lib : SensorLibrary.

(** [getEvent(&event)] at the time [now] that [millis()] returns.  The
    result is the returned flag and the event; [None] when the loop of
    [getLuminosity] runs out of fuel or [calculateLux] reads [b] and [m]
    unassigned. *)
Definition getEvent (fuel : nat) (now : Z)
  : Drv (option (bool * sensors_event_t)) :=
  id <- field _tsl2561SensorID ;;
  reading <- getLuminosity h src fuel ;;
  s <- this ;;
  match reading with
  | None => ret None
  | Some (broadband, ir) =>
      match calculateLux h package s broadband ir with
      | None => ret None
      | Some lux =>
          let event :=
            {| version := to_int32 (sizeof_sensors_event_t lib);
               sensor_id := to_int32 id;
               type := to_int32 (SENSOR_TYPE_LIGHT lib);
               timestamp := to_int32 now;
               light := float_of_ulong lux |} in
          ret (Some (negb (feq (light event) (float_of_ulong 65536)),
                     event))
      end
  end.

End Interrupts.

(** ** The example sketch *)

Delimit Scope string_scope with string.

(** What the sketch sends to [Serial]. *)
Inductive SerialEvent : Set :=
  | Print (text : String.string)
  | Println (text : String.string)
  | PrintFloat (x : spec_float).

(** [loop()] of [interrupts.ino], given the level read on the interrupt
    pin and the time; the result is what it printed, in order, and the
    object afterwards. *)
Definition loop (h : Header) (src : SourceFile) (ih : InterruptHeader)
    (package : Package) (lib : SensorLibrary) (fuel : nat)
    (pin_is_low : bool) (now : Z) (tsl : Sensor)
  : option (list SerialEvent * Sensor) :=
  let interrupt :=
    if pin_is_low
    then ([Println "TSL2561 reported interrupt thresholds exceeded!"%string],
          snd (clearLevelInterrupt h ih tsl))
    else ([], tsl) in
  match getEvent h src package lib fuel now (snd interrupt) with
  | (None, _) => None
  | (Some (_, event), tsl') =>
      let report :=
        if is_nonzero (light event)
        then [PrintFloat (light event); Println " lux"%string]
        else [Println "Sensor overload"%string] in
      Some (fst interrupt ++ report, snd (delay 250 tsl'))
  end.

(** ** The protocol on the bus *)

(** The state of the bus after a log: [Some None] when no transmission is
    open, [Some (Some n)] inside a transmission that has [n] bytes so far,
    [None] once the log has broken the protocol: a transmission opened
    inside another, a byte written or a transmission closed outside one, a
    transmission closed with no byte or more than two, a request for bytes
    or a wait while a transmission is open. *)
Definition bus_step (state : option nat) (e : WireEvent)
  : option (option nat) :=
  match state, e with
  | None, BeginTransmission _ => Some (Some 0%nat)
  | None, (WireBegin | RequestFrom _ _ | Delay _) => Some None
  | None, (WireWrite _ | EndTransmission) => None
  | Some n, WireWrite _ => Some (Some (S n))
  | Some n, EndTransmission =>
      if ((1 <=? n) && (n <=? 2))%nat then Some None else None
  | Some _, (WireBegin | BeginTransmission _ | RequestFrom _ _ | Delay _) =>
      None
  end.

Fixpoint bus_state (log : list WireEvent) : option (option nat) :=
  match log with
  | [] => Some None
  | e :: earlier =>
      match bus_state earlier with
      | Some state => bus_step state e
      | None => None
      end
  end.

(** The number of bytes the log has requested from the device. *)
Fixpoint requested (log : list WireEvent) : nat :=
  match log with
  | [] => 0%nat
  | RequestFrom _ n :: earlier => (Z.to_nat n + requested earlier)%nat
  | _ :: earlier => requested earlier
  end.

(** The protocol is kept and the driver has read exactly the bytes it asked
    for, [offset] apart. *)
Definition protocol_kept (offset : nat) (s : Sensor) : Prop :=
  bus_state (tx (_i2c s)) = Some None /\
  (rx_pos (_i2c s) + offset = requested (tx (_i2c s)))%nat.

(** The calls of [begin()] in the log. *)
Definition is_begin (e : WireEvent) : bool :=
  match e with
  | WireBegin => true
  | _ => false
  end.

Definition begins (s : Sensor) : nat :=
  length (filter is_begin (tx (_i2c s))).

(** The four calls on the bus that [write8(reg, value)] makes, latest
    first. *)
Definition write8_events (addr reg value : Z) : list WireEvent :=
  [EndTransmission; WireWrite (Z.land (to_uint32 value) 0xFF);
   WireWrite (to_uint8 reg); BeginTransmission addr].

(** The calls of [disable()]. *)
Definition disable_events (h : Header) (addr : Z) : list WireEvent :=
  write8_events addr
    (Z.lor (TSL2561_COMMAND_BIT h) (TSL2561_REGISTER_CONTROL h))
    (TSL2561_CONTROL_POWEROFF h).

(** ** When the subtraction of the lux formula cannot go negative *)

(** For each of the first seven brackets, the slope and the intercept
    cross at or beyond the upper end of the bracket:
    [(2 * K + 1) * M <= 2 ^ (RATIOSCALE + 1) * B]. *)
Definition slopes_ok (ratioscale : Z) (t : LuxTable) : bool :=
  forallb (fun kbm : Z * Z * Z =>
             let '(k, b, m) := kbm in
             (2 * k + 1) * m <=? 2 ^ (ratioscale + 1) * b)
          [(K1 t, B1 t, M1 t); (K2 t, B2 t, M2 t); (K3 t, B3 t, M3 t);
           (K4 t, B4 t, M4 t); (K5 t, B5 t, M5 t); (K6 t, B6 t, M6 t);
           (K7 t, B7 t, M7 t)]
  && (M8 t =? 0).


(** The object is initialised and [begin] has been called [n] times. *)
Definition initialised_after (n : nat) (s : Sensor) : Prop :=
  _tsl2561Initialised s = true /\ begins s = n.

(** The sensor of the dim room once [begin] has been called. *)
Definition started : Sensor :=
  snd (begin published_header Adafruit_TSL2561_U_cpp dim_room).

(** An object on a bus where another device answers the identity probe,
    with 0x05. *)
Definition wrong_device : Sensor :=
  Adafruit_TSL2561_Unified 0x39 12345 true [0x05].

(** A sensor library for the examples, with the size of an event and the
    type code of Adafruit_Sensor.h. *)
Definition sample_library : SensorLibrary :=
  {| sizeof_sensors_event_t := 36; SENSOR_TYPE_LIGHT := 5 |}.

(** A sensor in full light, at 13 ms and gain 1x: the bus answers the
    identity probe with 0x50, then delivers 5000 on channel 0 and 1000 on
    channel 1. *)
Definition bright_room : Sensor :=
  Adafruit_TSL2561_Unified 0x39 12345 true [0x50; 0x88; 0x13; 0xE8; 0x03].

(** ** The registers of the device, as the log leaves them *)

(** The byte last written to the register [reg] by [write8], in a log
    that has the latest event first. *)
Fixpoint last_written (reg : Z) (log : list WireEvent) : option Z :=
  match log with
  | [] => None
  | EndTransmission :: rest =>
      match rest with
      | WireWrite value :: WireWrite r :: BeginTransmission _ :: _ =>
          if r =? reg then Some value else last_written reg rest
      | _ => last_written reg rest
      end
  | _ :: rest => last_written reg rest
  end.

Definition timing_register (h : Header) : Z :=
  to_uint8 (Z.lor (TSL2561_COMMAND_BIT h) (TSL2561_REGISTER_TIMING h)).

Definition control_register (h : Header) : Z :=
  to_uint8 (Z.lor (TSL2561_COMMAND_BIT h) (TSL2561_REGISTER_CONTROL h)).

(** The device is in step with the object: its timing register was last
    written with the integration time and the gain the object holds, and,
    when the object may sleep, its control register with the power-off
    code. *)
Definition in_step (h : Header) (s : Sensor) : Prop :=
  last_written (timing_register h) (tx (_i2c s))
  = Some (timing_byte h (_tsl2561IntegrationTime s) (_tsl2561Gain s)) /\
  (_allowSleep s = true ->
   last_written (control_register h) (tx (_i2c s))
   = Some (Z.land (to_uint32 (TSL2561_CONTROL_POWEROFF h)) 0xFF)).

(** The registers the driver writes besides the timing and the control
    registers -- the interrupt register and the four bytes of the two
    thresholds -- are other registers than these two, and these two
    differ. *)
Definition registers_apart (h : Header) (ih : InterruptHeader) : bool :=
  let command reg := to_uint8 (Z.lor (TSL2561_COMMAND_BIT h) reg) in
  negb (timing_register h =? control_register h) &&
  forallb (fun reg => negb (reg =? timing_register h)
                      && negb (reg =? control_register h))
          [command (TSL2561_REGISTER_INTERRUPT ih);
           command (TSL2561_REGISTER_THRESHHOLDL_LOW ih);
           to_uint8 (command (TSL2561_REGISTER_THRESHHOLDL_LOW ih) + 1);
           command (TSL2561_REGISTER_THRESHHOLDH_LOW ih);
           to_uint8 (command (TSL2561_REGISTER_THRESHHOLDH_LOW ih) + 1)].

(** * Properties *)

(** ** Running a method *)

Lemma run_bind {A B : Type} (m : Drv A) (k : A -> Drv B) (s : Sensor) :
  bind m k s = k (fst (m s)) (snd (m s)).
Proof. unfold bind. destruct (m s); reflexivity. Qed.

(** ** Methods that touch nothing but the bus *)

Section Frames.

Context {A B : Type}.

Lemma bus_only_ret (a : A) : bus_only (ret a).
Proof. intro s; reflexivity. Qed.

Lemma bus_only_field (f : Sensor -> A) : bus_only (field f).
Proof. intro s; reflexivity. Qed.

Lemma bus_only_bind (m : Drv A) (k : A -> Drv B) :
  bus_only m -> (forall a, bus_only (k a)) -> bus_only (bind m k).
Proof.
  intros Hm Hk s. rewrite run_bind, Hk. apply Hm.
Qed.

End Frames.

Lemma bus_only_wire (e : WireEvent) : bus_only (wire e).
Proof. intro s; reflexivity. Qed.

Lemma bus_only_wire_read : bus_only wire_read.
Proof. intro s; reflexivity. Qed.

Lemma bus_only_when (c : bool) (m : Drv unit) :
  bus_only m -> bus_only (when c m).
Proof. destruct c; [trivial | intros _ s; reflexivity]. Qed.

Create HintDb drv.

(** Splits a method along its binds and closes the leaves; the methods
    already dealt with are found in the hints. *)
Ltac frame_step :=
  match goal with
  | |- bus_only (bind _ _) => apply bus_only_bind; [ | intro ]
  | |- bus_only (ret _) => apply bus_only_ret
  | |- bus_only (field _) => apply bus_only_field
  | |- bus_only (wire _) => apply bus_only_wire
  | |- bus_only wire_read => apply bus_only_wire_read
  | |- bus_only (when _ _) => apply bus_only_when
  end.

Ltac frame := repeat frame_step; auto with drv nocore.

Section DriverFacts.

Variable h : Header.
Variable src : SourceFile.

Lemma bus_only_write8 reg value : bus_only (write8 reg value).
Proof. unfold write8. frame. Qed.

Lemma bus_only_read8 reg : bus_only (read8 reg).
Proof. unfold read8. frame. Qed.

Lemma bus_only_read16 reg : bus_only (read16 reg).
Proof. unfold read16. frame. Qed.

Lemma bus_only_enable : bus_only (enable h).
Proof. unfold enable. apply bus_only_write8. Qed.

Lemma bus_only_disable : bus_only (disable h).
Proof. unfold disable. apply bus_only_write8. Qed.

Hint Resolve bus_only_write8 bus_only_read8 bus_only_read16
  bus_only_enable bus_only_disable : drv.
Hint Constants Opaque : drv.

Lemma bus_only_getData : bus_only (getData h src).
Proof. unfold getData, delay. frame. Qed.

End DriverFacts.

(** ** Symbolic execution *)

(** Unfolds the methods and the record operations, and nothing of the
    arithmetic. *)
Ltac run :=
  cbv [getLuminosity agc_loop agc_pass getData delay read16
       setGain setIntegrationTime enableAutoRange begin init init_with
       setIntegrationTime_with setGain_with begin_if_needed
       begin_not_reached read8 enable disable write8 wire wire_read assign
       field when ret bind settings config acquisitions answering
       set_i2c set_Initialised set_AutoGain set_IntegrationTime set_Gain
       _addr _tsl2561Initialised _tsl2561AutoGain _tsl2561IntegrationTime
       _tsl2561Gain _tsl2561SensorID _allowSleep _i2c rx rx_pos tx
       fst snd negb filter is_delay length].

Ltac destruct_sensor s :=
  let addr := fresh "addr" in
  let initialised := fresh "initialised" in
  let autogain := fresh "autogain" in
  let time := fresh "time" in
  let gain := fresh "gain" in
  let id := fresh "id" in
  let sleep := fresh "sleep" in
  let rx := fresh "rx" in
  let pos := fresh "pos" in
  let tx := fresh "tx" in
  destruct s as [addr initialised autogain time gain id sleep [rx pos tx]].

Section Acquisition.

Variable h : Header.
Variable src : SourceFile.

Lemma getData_acquisitions (s : Sensor) :
  acquisitions (snd (getData h src s)) = S (acquisitions s).
Proof.
  destruct_sensor s. destruct sleep; run; reflexivity.
Qed.

Lemma getData_settings (s : Sensor) :
  settings (snd (getData h src s)) = settings s.
Proof.
  pose proof (bus_only_getData h src s) as H.
  unfold config in H. unfold settings. congruence.
Qed.

Lemma begin_if_needed_spec (s : Sensor) :
  settings (snd (begin_if_needed (begin h src) s)) = settings s /\
  acquisitions (snd (begin_if_needed (begin h src) s)) = acquisitions s.
Proof.
  destruct_sensor s.
  destruct initialised, sleep; run;
    try destruct (probe_fails src _); split; reflexivity.
Qed.

Lemma setGain_spec (g : tsl2561Gain_t) (s : Sensor) :
  settings (snd (setGain h src g s)) =
    (_tsl2561AutoGain s, _tsl2561IntegrationTime s, g, _allowSleep s,
     _addr s) /\
  acquisitions (snd (setGain h src g s)) = acquisitions s.
Proof.
  destruct_sensor s.
  destruct initialised, sleep; run;
    try destruct (probe_fails src _); split; reflexivity.
Qed.

(** The equations of the source: [init] calls the setters themselves. *)
Lemma init_unfold (s : Sensor) :
  init h src s =
  init_with h src (setIntegrationTime h src) (setGain h src) s.
Proof.
  destruct_sensor s.
  unfold init, init_with, setIntegrationTime, setGain.
  run. destruct (probe_fails src _); [reflexivity | ].
  destruct sleep; reflexivity.
Qed.

Lemma begin_unfold (s : Sensor) :
  begin h src s =
  (wire WireBegin ;;
   init_with h src (setIntegrationTime h src) (setGain h src)) s.
Proof.
  unfold begin. rewrite !run_bind. apply init_unfold.
Qed.

End Acquisition.

(** ** The passes of the acquisition loop *)

(** One step of a method: the bind is run and the pair it yields is taken
    apart.  The methods under study are abstracted first, so that these
    steps stay small. *)
Ltac step := rewrite run_bind; cbv beta; unfold field, ret; cbn [fst snd].

Section Loop.

Variable h : Header.
Variable src : SourceFile.

Lemma getData_gain (s : Sensor) :
  _tsl2561Gain (snd (getData h src s)) = _tsl2561Gain s.
Proof.
  pose proof (getData_settings h src s) as H. unfold settings in H.
  congruence.
Qed.

Lemma ready_settings (s : Sensor) : settings (ready h src s) = settings s.
Proof. apply begin_if_needed_spec. Qed.

Lemma ready_acquisitions (s : Sensor) :
  acquisitions (ready h src s) = acquisitions s.
Proof. apply begin_if_needed_spec. Qed.

(** After an adjustment the next reading is taken as it comes. *)
Lemma agc_pass_second (s : Sensor) :
  agc_pass h src true s =
  ((true, Some (fst (getData h src s))), snd (getData h src s)).
Proof.
  unfold agc_pass. generalize (getData h src) (setGain h src).
  intros getData setGain. step. step. reflexivity.
Qed.

Lemma agc_pass_raise (s : Sensor) :
  (fst (fst (getData h src s)) <? agc_lo h (_tsl2561IntegrationTime s))
    && gain_eqb (_tsl2561Gain s) GAIN_1X = true ->
  agc_pass h src false s =
  ((true, None),
   snd (getData h src (snd (setGain h src GAIN_16X
                                    (snd (getData h src s)))))).
Proof.
  pose proof (getData_gain s) as Hg. revert Hg.
  unfold agc_pass. generalize (getData h src) (setGain h src).
  intros getData setGain Hg Hc.
  step. step. cbn [negb]. step. rewrite Hg, Hc. step. step. reflexivity.
Qed.

Lemma agc_pass_lower (s : Sensor) :
  (fst (fst (getData h src s)) <? agc_lo h (_tsl2561IntegrationTime s))
    && gain_eqb (_tsl2561Gain s) GAIN_1X = false ->
  (agc_hi h (_tsl2561IntegrationTime s) <? fst (fst (getData h src s)))
    && gain_eqb (_tsl2561Gain s) GAIN_16X = true ->
  agc_pass h src false s =
  ((true, None),
   snd (getData h src (snd (setGain h src GAIN_1X
                                    (snd (getData h src s)))))).
Proof.
  pose proof (getData_gain s) as Hg. revert Hg.
  unfold agc_pass. generalize (getData h src) (setGain h src).
  intros getData setGain Hg Hc Hc'.
  step. step. cbn [negb]. step. rewrite Hg, Hc, Hc'. step. step.
  reflexivity.
Qed.

Lemma agc_pass_keep (s : Sensor) :
  (fst (fst (getData h src s)) <? agc_lo h (_tsl2561IntegrationTime s))
    && gain_eqb (_tsl2561Gain s) GAIN_1X = false ->
  (agc_hi h (_tsl2561IntegrationTime s) <? fst (fst (getData h src s)))
    && gain_eqb (_tsl2561Gain s) GAIN_16X = false ->
  agc_pass h src false s =
  ((false, Some (fst (getData h src s))), snd (getData h src s)).
Proof.
  pose proof (getData_gain s) as Hg. revert Hg.
  unfold agc_pass. generalize (getData h src) (setGain h src).
  intros getData setGain Hg Hc Hc'.
  step. step. cbn [negb]. step. rewrite Hg, Hc, Hc'. reflexivity.
Qed.

Lemma agc_loop_stop (fuel : nat) (c c' : bool) (reading : Z * Z)
    (s s' : Sensor) :
  agc_pass h src c s = ((c', Some reading), s') ->
  agc_loop h src (S fuel) c s = (Some reading, s').
Proof.
  cbn [agc_loop]. generalize (agc_pass h src c) (agc_loop h src fuel).
  intros pass loop Hp. step. rewrite Hp. reflexivity.
Qed.

Lemma agc_loop_again (fuel : nat) (c c' : bool) (s s' : Sensor) :
  agc_pass h src c s = ((c', None), s') ->
  agc_loop h src (S fuel) c s = agc_loop h src fuel c' s'.
Proof.
  cbn [agc_loop]. generalize (agc_pass h src c) (agc_loop h src fuel).
  intros pass loop Hp. step. rewrite Hp. reflexivity.
Qed.

Lemma getLuminosity_off (fuel : nat) (s : Sensor) :
  _tsl2561AutoGain s = false ->
  getLuminosity h src fuel s =
  (Some (fst (getData h src (ready h src s))),
   snd (getData h src (ready h src s))).
Proof.
  pose proof (ready_settings s) as Hs. unfold settings, ready in Hs.
  injection Hs as Ha _ _ _ _. revert Ha.
  unfold getLuminosity, ready.
  generalize (begin_if_needed (begin h src)) (getData h src)
             (agc_loop h src fuel false).
  intros b getData loop Ha Hoff.
  step. step. rewrite Ha, Hoff. cbn [negb]. step. reflexivity.
Qed.

Lemma getLuminosity_on (fuel : nat) (s : Sensor) :
  _tsl2561AutoGain s = true ->
  getLuminosity h src fuel s = agc_loop h src fuel false (ready h src s).
Proof.
  pose proof (ready_settings s) as Hs. unfold settings, ready in Hs.
  injection Hs as Ha _ _ _ _. revert Ha.
  unfold getLuminosity, ready.
  generalize (begin_if_needed (begin h src)) (getData h src)
             (agc_loop h src fuel false).
  intros b getData loop Ha Hon.
  step. step. rewrite Ha, Hon. reflexivity.
Qed.

End Loop.

(** ** The acquisition loop as a whole *)

Lemma gain_eqb_eq (a b : tsl2561Gain_t) : gain_eqb a b = true <-> a = b.
Proof. destruct a, b; cbn; split; congruence. Qed.

Section LoopRuns.

Variable h : Header.
Variable src : SourceFile.

Lemma ready_time (s : Sensor) :
  _tsl2561IntegrationTime (ready h src s) = _tsl2561IntegrationTime s.
Proof.
  pose proof (ready_settings h src s) as H. unfold settings in H. congruence.
Qed.

Lemma ready_gain (s : Sensor) :
  _tsl2561Gain (ready h src s) = _tsl2561Gain s.
Proof.
  pose proof (ready_settings h src s) as H. unfold settings in H. congruence.
Qed.

Lemma setGain_gain (g : tsl2561Gain_t) (s : Sensor) :
  _tsl2561Gain (snd (setGain h src g s)) = g.
Proof.
  destruct (setGain_spec h src g s) as [H _]. unfold settings in H.
  congruence.
Qed.

Lemma setGain_acquisitions (g : tsl2561Gain_t) (s : Sensor) :
  acquisitions (snd (setGain h src g s)) = acquisitions s.
Proof. apply setGain_spec. Qed.

(** The three ways through [getLuminosity] with auto-gain on, and the one
    with auto-gain off; two passes of the loop always suffice. *)

Lemma getLuminosity_keep (fuel : nat) (s : Sensor) :
  _tsl2561AutoGain s = true ->
  (fst (fst (getData h src (ready h src s)))
     <? agc_lo h (_tsl2561IntegrationTime s))
    && gain_eqb (_tsl2561Gain s) GAIN_1X = false ->
  (agc_hi h (_tsl2561IntegrationTime s)
     <? fst (fst (getData h src (ready h src s))))
    && gain_eqb (_tsl2561Gain s) GAIN_16X = false ->
  getLuminosity h src (S fuel) s = accept (getData h src (ready h src s)).
Proof.
  intros Hon Hlo Hhi. rewrite getLuminosity_on by exact Hon.
  apply agc_loop_stop with (c' := false). apply agc_pass_keep.
  - now rewrite ready_time, ready_gain.
  - now rewrite ready_time, ready_gain.
Qed.

Lemma getLuminosity_raise (fuel : nat) (s : Sensor) :
  _tsl2561AutoGain s = true ->
  (fst (fst (getData h src (ready h src s)))
     <? agc_lo h (_tsl2561IntegrationTime s))
    && gain_eqb (_tsl2561Gain s) GAIN_1X = true ->
  getLuminosity h src (S (S fuel)) s =
  accept (reading_after_adjustment h src GAIN_16X
            (snd (getData h src (ready h src s)))).
Proof.
  intros Hon Hlo. rewrite getLuminosity_on by exact Hon.
  rewrite agc_loop_again with (c' := true)
    (s' := snd (getData h src (snd (setGain h src GAIN_16X
                  (snd (getData h src (ready h src s))))))).
  - apply agc_loop_stop with (c' := true). apply agc_pass_second.
  - apply agc_pass_raise. now rewrite ready_time, ready_gain.
Qed.

Lemma getLuminosity_lower (fuel : nat) (s : Sensor) :
  _tsl2561AutoGain s = true ->
  (fst (fst (getData h src (ready h src s)))
     <? agc_lo h (_tsl2561IntegrationTime s))
    && gain_eqb (_tsl2561Gain s) GAIN_1X = false ->
  (agc_hi h (_tsl2561IntegrationTime s)
     <? fst (fst (getData h src (ready h src s))))
    && gain_eqb (_tsl2561Gain s) GAIN_16X = true ->
  getLuminosity h src (S (S fuel)) s =
  accept (reading_after_adjustment h src GAIN_1X
            (snd (getData h src (ready h src s)))).
Proof.
  intros Hon Hlo Hhi. rewrite getLuminosity_on by exact Hon.
  rewrite agc_loop_again with (c' := true)
    (s' := snd (getData h src (snd (setGain h src GAIN_1X
                  (snd (getData h src (ready h src s))))))).
  - apply agc_loop_stop with (c' := true). apply agc_pass_second.
  - apply agc_pass_lower; now rewrite ready_time, ready_gain.
Qed.

Lemma accept_off (fuel : nat) (s : Sensor) :
  _tsl2561AutoGain s = false ->
  getLuminosity h src fuel s = accept (getData h src (ready h src s)).
Proof. apply getLuminosity_off. Qed.

(** What a reading and an adjustment do to the gain and to the count of
    acquisitions. *)

Lemma snd_accept (r : (Z * Z) * Sensor) : snd (accept r) = snd r.
Proof. reflexivity. Qed.

Lemma accept_reading_after_adjustment (g : tsl2561Gain_t) (s : Sensor) :
  accept (reading_after_adjustment h src g s) =
  (Some (fst (getData h src
                (snd (getData h src (snd (setGain h src g s)))))),
   snd (getData h src (snd (getData h src (snd (setGain h src g s)))))).
Proof.
  unfold accept, reading_after_adjustment.
  generalize (getData h src) (setGain h src). reflexivity.
Qed.

Lemma reading_after_adjustment_gain (g : tsl2561Gain_t) (s : Sensor) :
  _tsl2561Gain (snd (reading_after_adjustment h src g s)) = g.
Proof.
  unfold reading_after_adjustment. cbv zeta.
  now rewrite !getData_gain, setGain_gain.
Qed.

Lemma reading_after_adjustment_acquisitions (g : tsl2561Gain_t)
    (s : Sensor) :
  acquisitions (snd (reading_after_adjustment h src g s))
  = S (S (acquisitions s)).
Proof.
  unfold reading_after_adjustment. cbv zeta.
  now rewrite !getData_acquisitions, setGain_acquisitions.
Qed.

End LoopRuns.

(** ** Claims about the acquisition loop *)

Section LoopClaims.

Variable h : Header.
Variable src : SourceFile.

(** The cases the first pass distinguishes, as booleans. *)
Lemma below_low_at_1x (s : Sensor) (b : Z) :
  (b <? agc_lo h (_tsl2561IntegrationTime s))
    && gain_eqb (_tsl2561Gain s) GAIN_1X = true <->
  b < agc_lo h (_tsl2561IntegrationTime s) /\ _tsl2561Gain s = GAIN_1X.
Proof.
  rewrite andb_true_iff, Z.ltb_lt, gain_eqb_eq. reflexivity.
Qed.

Lemma above_high_at_16x (s : Sensor) (b : Z) :
  (agc_hi h (_tsl2561IntegrationTime s) <? b)
    && gain_eqb (_tsl2561Gain s) GAIN_16X = true <->
  agc_hi h (_tsl2561IntegrationTime s) < b /\ _tsl2561Gain s = GAIN_16X.
Proof.
  rewrite andb_true_iff, Z.ltb_lt, gain_eqb_eq. reflexivity.
Qed.

(** C3.  Whatever the bus delivers, [getLuminosity] returns once the loop
    is given two passes, and by then it has made at most three
    acquisitions: one when auto-gain is off, one when the gain is left as it
    was, three when the gain has been changed. *)
Theorem getLuminosity_at_most_three_acquisitions (fuel : nat) (s : Sensor) :
  (2 <= fuel)%nat ->
  exists (reading : Z * Z) (s' : Sensor),
    getLuminosity h src fuel s = (Some reading, s') /\
    (acquisitions s' <= acquisitions s + 3)%nat /\
    (_tsl2561AutoGain s = false ->
     acquisitions s' = (acquisitions s + 1)%nat) /\
    (_tsl2561Gain s' = _tsl2561Gain s ->
     acquisitions s' = (acquisitions s + 1)%nat) /\
    (_tsl2561Gain s' <> _tsl2561Gain s ->
     acquisitions s' = (acquisitions s + 3)%nat).
Proof.
  intros Hfuel. destruct fuel as [|[|fuel]]; try lia. clear Hfuel.
  set (first := getData h src (ready h src s)).
  assert (Hacq1 : acquisitions (snd first) = (acquisitions s + 1)%nat).
  { unfold first. rewrite getData_acquisitions, ready_acquisitions. lia. }
  assert (Hgain1 : _tsl2561Gain (snd first) = _tsl2561Gain s).
  { unfold first. now rewrite getData_gain, ready_gain. }
  assert (Hone : exists (reading : Z * Z) (s' : Sensor),
             accept first = (Some reading, s') /\
             (acquisitions s' <= acquisitions s + 3)%nat /\
             (_tsl2561AutoGain s = false ->
              acquisitions s' = (acquisitions s + 1)%nat) /\
             (_tsl2561Gain s' = _tsl2561Gain s ->
              acquisitions s' = (acquisitions s + 1)%nat) /\
             (_tsl2561Gain s' <> _tsl2561Gain s ->
              acquisitions s' = (acquisitions s + 3)%nat)).
  { exists (fst first), (snd first). split; [reflexivity | ].
    repeat split; intros; try lia. congruence. }
  destruct (_tsl2561AutoGain s) eqn:Hon.
  2: { rewrite accept_off by exact Hon. exact Hone. }
  destruct ((fst (fst first) <? agc_lo h (_tsl2561IntegrationTime s))
            && gain_eqb (_tsl2561Gain s) GAIN_1X) eqn:Hlo.
  { rewrite getLuminosity_raise by assumption. fold first.
    apply below_low_at_1x in Hlo. destruct Hlo as [_ Hg].
    eexists _, _. split; [reflexivity | ].
    rewrite reading_after_adjustment_gain,
      reading_after_adjustment_acquisitions, Hacq1, Hg.
    repeat split; intros; try lia; congruence. }
  destruct ((agc_hi h (_tsl2561IntegrationTime s) <? fst (fst first))
            && gain_eqb (_tsl2561Gain s) GAIN_16X) eqn:Hhi.
  { rewrite getLuminosity_lower by assumption. fold first.
    apply above_high_at_16x in Hhi. destruct Hhi as [_ Hg].
    eexists _, _. split; [reflexivity | ].
    rewrite reading_after_adjustment_gain,
      reading_after_adjustment_acquisitions, Hacq1, Hg.
    repeat split; intros; try lia; congruence. }
  rewrite getLuminosity_keep by assumption. exact Hone.
Qed.

(** C4.  With auto-gain on, the first reading decides: below the low
    threshold at gain 1x the gain becomes 16x, above the high threshold at
    gain 16x it becomes 1x, and in every other case the first reading is
    what [getLuminosity] returns, with nothing done after it. *)
Theorem auto_gain_first_pass (fuel : nat) (s : Sensor) :
  (2 <= fuel)%nat ->
  _tsl2561AutoGain s = true ->
  let first := getData h src (ready h src s) in
  let b := fst (fst first) in
  let lo := agc_lo h (_tsl2561IntegrationTime s) in
  let hi := agc_hi h (_tsl2561IntegrationTime s) in
  let out := getLuminosity h src fuel s in
  (b < lo /\ _tsl2561Gain s = GAIN_1X ->
   _tsl2561Gain (snd out) = GAIN_16X) /\
  (hi < b /\ _tsl2561Gain s = GAIN_16X ->
   _tsl2561Gain (snd out) = GAIN_1X) /\
  (~ (b < lo /\ _tsl2561Gain s = GAIN_1X) ->
   ~ (hi < b /\ _tsl2561Gain s = GAIN_16X) ->
   out = accept first).
Proof.
  intros Hfuel Hon. cbv zeta.
  destruct fuel as [|[|fuel]]; try lia. clear Hfuel.
  split; [ | split ].
  - intros Hlo. apply below_low_at_1x in Hlo.
    rewrite getLuminosity_raise by assumption.
    rewrite snd_accept. apply reading_after_adjustment_gain.
  - intros Hhi. pose proof Hhi as [_ Hg]. apply above_high_at_16x in Hhi.
    rewrite getLuminosity_lower; try assumption.
    + rewrite snd_accept. apply reading_after_adjustment_gain.
    + rewrite Hg. apply andb_false_r.
  - intros Hlo Hhi. apply getLuminosity_keep; try assumption.
    + apply not_true_is_false. now rewrite below_low_at_1x.
    + apply not_true_is_false. now rewrite above_high_at_16x.
Qed.

(** C10.  With auto-gain on, when the first reading makes the gain change
    to [g], the reading taken right after the gain is written is dropped,
    and [getLuminosity] returns the one after it, the third, whatever it
    is. *)
Theorem adjusted_reading_is_the_third (fuel : nat) (s : Sensor)
    (g : tsl2561Gain_t) :
  (2 <= fuel)%nat ->
  _tsl2561AutoGain s = true ->
  let first := getData h src (ready h src s) in
  let b := fst (fst first) in
  (b < agc_lo h (_tsl2561IntegrationTime s)
   /\ _tsl2561Gain s = GAIN_1X /\ g = GAIN_16X) \/
  (agc_hi h (_tsl2561IntegrationTime s) < b
   /\ _tsl2561Gain s = GAIN_16X /\ g = GAIN_1X) ->
  let second := getData h src (snd (setGain h src g (snd first))) in
  let third := getData h src (snd second) in
  getLuminosity h src fuel s = (Some (fst third), snd third) /\
  acquisitions (snd third) = (acquisitions s + 3)%nat.
Proof.
  intros Hfuel Hon. cbv zeta. intros Hcase.
  destruct fuel as [|[|fuel]]; try lia. clear Hfuel.
  split.
  2: { rewrite 2 getData_acquisitions, setGain_acquisitions,
         getData_acquisitions, ready_acquisitions. lia. }
  destruct Hcase as [(Hlo & Hg & ->) | (Hhi & Hg & ->)].
  - rewrite getLuminosity_raise; try assumption.
    + apply accept_reading_after_adjustment.
    + apply below_low_at_1x. now split.
  - rewrite getLuminosity_lower; try assumption.
    + apply accept_reading_after_adjustment.
    + rewrite Hg. apply andb_false_r.
    + apply above_high_at_16x. now split.
Qed.

End LoopClaims.

Lemma getLuminosity_at_most_three_acquisitions_witness :
  (2 <= 2)%nat /\
  exists (reading : Z * Z) (s' : Sensor),
    getLuminosity published_header Adafruit_TSL2561_U_cpp 2 dim_room
    = (Some reading, s') /\
    (acquisitions s' <= acquisitions dim_room + 3)%nat.
Proof.
  split; [lia | ].
  destruct (getLuminosity_at_most_three_acquisitions
              published_header Adafruit_TSL2561_U_cpp 2 dim_room (le_n 2))
    as (reading & s' & Hrun & Hle & _).
  exists reading, s'. split; assumption.
Defined.

Lemma auto_gain_first_pass_witness :
  (2 <= 2)%nat /\ _tsl2561AutoGain dim_room = true /\
  _tsl2561Gain (snd (getLuminosity published_header Adafruit_TSL2561_U_cpp
                                   2 dim_room)) = GAIN_16X.
Proof.
  split; [lia | split; [reflexivity | ]].
  pose proof (auto_gain_first_pass published_header Adafruit_TSL2561_U_cpp
                2 dim_room (le_n 2) eq_refl) as H.
  cbv zeta in H. destruct H as [Hraise _]. apply Hraise.
  split; vm_compute; reflexivity.
Defined.

Lemma adjusted_reading_is_the_third_witness :
  (2 <= 2)%nat /\ _tsl2561AutoGain dim_room = true /\
  fst (getLuminosity published_header Adafruit_TSL2561_U_cpp 2 dim_room)
  = Some (4660, 1400).
Proof.
  split; [lia | split; [reflexivity | ]].
  pose proof (adjusted_reading_is_the_third published_header
                Adafruit_TSL2561_U_cpp 2 dim_room GAIN_16X (le_n 2) eq_refl)
    as H.
  cbv zeta in H. destruct H as [Hrun _].
  - left. repeat split; vm_compute; reflexivity.
  - rewrite Hrun. vm_compute. reflexivity.
Defined.

(** ** Initialisation *)

(** Decides the identity probe on a known byte. *)
Ltac decide_probe :=
  repeat match goal with
         | |- context [probe_fails ?f (to_uint8 ?x)] =>
             let b := eval vm_compute in (probe_fails f (to_uint8 x)) in
             change (probe_fails f (to_uint8 x)) with b
         end.

(** C5.  The two copies of [init] disagree: there is an identity byte,
    0x00, on which the first reports failure and the second success,
    whatever else the object holds. *)
Theorem init_variants_disagree (h : Header) :
  exists x : Z, 0 <= x < 256 /\
    forall s : Sensor,
      fst (init h Adafruit_TSL2561_cpp (answering x s)) = false /\
      fst (init h Adafruit_TSL2561_U_cpp (answering x s)) = true.
Proof.
  exists 0. split; [lia | ]. intros s. destruct_sensor s.
  destruct sleep; split; unfold init, init_with; run; decide_probe;
    reflexivity.
Qed.

(** The disagreement goes both ways: on 0x0F the first copy succeeds and
    the second fails. *)
Lemma init_variants_disagree_conversely (h : Header) (s : Sensor) :
  fst (init h Adafruit_TSL2561_cpp (answering 0x0F s)) = true /\
  fst (init h Adafruit_TSL2561_U_cpp (answering 0x0F s)) = false.
Proof.
  destruct_sensor s.
  destruct sleep; split; unfold init, init_with; run; decide_probe;
    reflexivity.
Qed.

(** The events a call added to the log, found by peeling the log of the
    result down to the log it started from. *)
Ltac added_events new old :=
  lazymatch new with
  | old => constr:(@nil WireEvent)
  | ?e :: ?rest => let l := added_events rest old in constr:(e :: l)
  end.

Ltac split_log :=
  lazymatch goal with
  | |- exists later : list WireEvent, ?new = later ++ ?mark :: ?old /\ _ =>
      let l := added_events new (mark :: old) in exists l
  end.

(** C6, as the code has it.  On an object that is not initialised,
    [setIntegrationTime] and [setGain] call [begin] before anything else,
    and only later write the timing register with the new value and store
    it.  [enableAutoRange] stores the flag and does nothing else: no
    [begin], nothing on the bus, and the object stays uninitialised. *)
Theorem setters_begin_first (h : Header) (src : SourceFile) (s : Sensor) :
  _tsl2561Initialised s = false ->
  (forall time : tsl2561IntegrationTime_t,
     exists later : list WireEvent,
       tx (_i2c (snd (setIntegrationTime h src time s)))
       = later ++ WireBegin :: tx (_i2c s) /\
       In (WireWrite (timing_byte h time (_tsl2561Gain s))) later /\
       _tsl2561IntegrationTime (snd (setIntegrationTime h src time s))
       = time) /\
  (forall gain : tsl2561Gain_t,
     exists later : list WireEvent,
       tx (_i2c (snd (setGain h src gain s)))
       = later ++ WireBegin :: tx (_i2c s) /\
       In (WireWrite (timing_byte h (_tsl2561IntegrationTime s) gain))
          later /\
       _tsl2561Gain (snd (setGain h src gain s)) = gain) /\
  (forall enable : bool,
     _i2c (snd (enableAutoRange enable s)) = _i2c s /\
     _tsl2561Initialised (snd (enableAutoRange enable s)) = false /\
     _tsl2561AutoGain (snd (enableAutoRange enable s)) = enable).
Proof.
  intros Hinit. destruct_sensor s. cbn in Hinit. subst initialised.
  split; [ | split ].
  - intros time'. unfold timing_byte. destruct sleep; run;
      destruct (probe_fails src _); split_log;
      (split; [reflexivity | split; [cbn; tauto | reflexivity]]).
  - intros gain'. unfold timing_byte. destruct sleep; run;
      destruct (probe_fails src _); split_log;
      (split; [reflexivity | split; [cbn; tauto | reflexivity]]).
  - intros enable. run. repeat split.
Qed.

Lemma setters_begin_first_witness :
  _tsl2561Initialised (Adafruit_TSL2561_Unified 0x39 12345 true [0x50])
  = false /\
  begins_first
    (setGain published_header Adafruit_TSL2561_U_cpp GAIN_16X)
    (Adafruit_TSL2561_Unified 0x39 12345 true [0x50]).
Proof.
  split; [reflexivity | ].
  destruct (setters_begin_first published_header Adafruit_TSL2561_U_cpp
              (Adafruit_TSL2561_Unified 0x39 12345 true [0x50]) eq_refl)
    as (_ & Hgain & _).
  destruct (Hgain GAIN_16X) as (later & Hlog & _).
  exists later. exact Hlog.
Defined.

(** C6, as the claim has it, fails for [enableAutoRange]: on a fresh
    object it does not call [begin]. *)
Lemma enableAutoRange_does_not_begin :
  _tsl2561Initialised (Adafruit_TSL2561_Unified 0x39 12345 true [0x50])
  = false /\
  ~ begins_first (enableAutoRange true)
      (Adafruit_TSL2561_Unified 0x39 12345 true [0x50]).
Proof.
  split; [reflexivity | ].
  intros [later Hlog]. cbn in Hlog.
  symmetry in Hlog. apply app_eq_nil in Hlog. destruct Hlog as [_ Hlog].
  discriminate Hlog.
Qed.

(** ** The lux conversion *)

Section LuxClaims.

Variable h : Header.
Variable package : Package.

(** C2.  When either channel is above the clipping threshold of the
    integration time in force, [calculateLux] returns 65536, which is not
    the 0 of a dark reading. *)
Theorem saturated_gives_65536 (s : Sensor) (broadband ir : Z) :
  clipThreshold h (_tsl2561IntegrationTime s) < broadband \/
  clipThreshold h (_tsl2561IntegrationTime s) < ir ->
  calculateLux h package s broadband ir = Some 65536 /\
  calculateLux h package s broadband ir <> Some 0.
Proof.
  intros Hsat.
  assert (Hrun : calculateLux h package s broadband ir = Some 65536).
  { unfold calculateLux.
    replace ((clipThreshold h (_tsl2561IntegrationTime s) <? broadband)
             || (clipThreshold h (_tsl2561IntegrationTime s) <? ir))
      with true; [reflexivity | ].
    symmetry. apply orb_true_iff. rewrite !Z.ltb_lt. exact Hsat. }
  split; [exact Hrun | ]. rewrite Hrun. discriminate.
Qed.

End LuxClaims.

Lemma saturated_gives_65536_witness :
  (clipThreshold published_header (_tsl2561IntegrationTime unscaled) < 65001
   \/ clipThreshold published_header (_tsl2561IntegrationTime unscaled) < 0)
  /\ calculateLux published_header PACKAGE_T_FN_CL unscaled 65001 0
     = Some 65536.
Proof.
  assert (H : clipThreshold published_header
                (_tsl2561IntegrationTime unscaled) < 65001
              \/ clipThreshold published_header
                   (_tsl2561IntegrationTime unscaled) < 0)
    by (left; vm_compute; reflexivity).
  split; [exact H | ].
  apply (saturated_gives_65536 published_header PACKAGE_T_FN_CL unscaled
           65001 0 H).
Defined.

(** *** The clamp and the rounding *)

(** An [unsigned long] is never negative, so the test of the clamp,
    [if (temp < 0) temp = 0;], never succeeds: [temp] goes on to the
    rounding as the subtraction left it. *)
Lemma clamp_is_dead (h : Header) (channel0 channel1 b m : Z) :
  lux_round h (lux_temp channel0 channel1 b m) =
  to_uint32
    (Z.shiftr (to_ulong (lux_temp channel0 channel1 b m
                         + Z.shiftl 1 (TSL2561_LUX_LUXSCALE h - 1)))
              (TSL2561_LUX_LUXSCALE h)).
Proof.
  unfold lux_round.
  replace (lux_temp channel0 channel1 b m <? 0) with false; [reflexivity | ].
  symmetry. apply Z.ltb_ge. unfold lux_temp, to_ulong, wrap.
  apply Z.mod_pos_bound. reflexivity.
Qed.

(** The wrap-around does not hang on the values of the constants.  For
    every header, a reading with broadband 0 that is not saturated selects
    the first bracket, and where [channel1 * m] exceeds the rounding bias
    the value returned is positive, not 0. *)
Lemma dark_broadband_is_not_clamped (h : Header) (package : Package)
    (s : Sensor) (ir : Z) :
  let channel1 :=
    scale_channel h
      (chScale h (_tsl2561IntegrationTime s) (_tsl2561Gain s)) ir in
  let product :=
    to_ulong (channel1 * to_uint (M1 (lux_table h package))) in
  0 <= clipThreshold h (_tsl2561IntegrationTime s) ->
  ir <= clipThreshold h (_tsl2561IntegrationTime s) ->
  1 <= TSL2561_LUX_LUXSCALE h ->
  2 ^ (TSL2561_LUX_LUXSCALE h - 1) < product
    <= 2 ^ 32 - 2 ^ (TSL2561_LUX_LUXSCALE h - 1) ->
  exists lux : Z, calculateLux h package s 0 ir = Some lux /\ 0 < lux.
Proof.
  intros channel1 product Hclip0 Hclip1 Hscale Hproduct.
  unfold calculateLux.
  replace ((clipThreshold h (_tsl2561IntegrationTime s) <? 0)
           || (clipThreshold h (_tsl2561IntegrationTime s) <? ir))
    with false
    by (symmetry; apply orb_false_iff; split; apply Z.ltb_ge; assumption).
  cbv zeta. fold channel1.
  assert (Hzero : scale_channel h
            (chScale h (_tsl2561IntegrationTime s) (_tsl2561Gain s)) 0 = 0).
  { unfold scale_channel. rewrite Z.mul_0_l. apply Z.shiftr_0_l. }
  rewrite Hzero.
  assert (Hratio : lux_ratio h 0 channel1 = 0) by reflexivity.
  rewrite Hratio.
  assert (Hk : 0 <= to_ulong (K1 (lux_table h package)))
    by (apply Z.mod_pos_bound; reflexivity).
  unfold select_coefficients.
  replace (0 <=? to_ulong (K1 (lux_table h package))) with true
    by (symmetry; apply Z.leb_le; exact Hk).
  cbn [Z.leb Z.compare andb].
  eexists. split; [reflexivity | ].
  rewrite clamp_is_dead.
  set (n := TSL2561_LUX_LUXSCALE h) in *.
  assert (Hpow : 2 ^ n = 2 * 2 ^ (n - 1)).
  { replace n with (Z.succ (n - 1)) at 1 by lia.
    apply Z.pow_succ_r. lia. }
  assert (Hhalf : 0 < 2 ^ (n - 1)) by (apply Z.pow_pos_nonneg; lia).
  assert (Htemp : lux_temp 0 channel1
                    (to_uint (B1 (lux_table h package)))
                    (to_uint (M1 (lux_table h package)))
                  = 2 ^ 32 - product).
  { unfold lux_temp. fold product. rewrite Z.mul_0_l.
    change (to_ulong 0) with 0. unfold to_ulong, wrap.
    replace (0 - product) with (2 ^ 32 - product + (-1) * 2 ^ 32) by lia.
    rewrite Z.mod_add by lia. apply Z.mod_small. lia. }
  rewrite Htemp, Z.shiftl_1_l, Z.shiftr_div_pow2 by lia.
  unfold to_uint32, to_ulong, wrap.
  rewrite (Z.mod_small (2 ^ 32 - product + 2 ^ (n - 1))) by lia.
  assert (Hq : 1 <= (2 ^ 32 - product + 2 ^ (n - 1)) / 2 ^ n).
  { apply Z.div_le_lower_bound; lia. }
  assert (Hq' : (2 ^ 32 - product + 2 ^ (n - 1)) / 2 ^ n < 2 ^ 32).
  { apply Z.div_lt_upper_bound; nia. }
  rewrite Z.mod_small by lia. lia.
Qed.

(** C1, on the code.  Take the object as the constructor leaves it,
    13 ms and gain 1x, the published constants, and a reading in the
    dark: broadband 0, ir 1.  It is not saturated, it selects b = 498 and
    m = 446 (429 for the CS package), and channel1 * m is above
    channel0 * b.  The value returned is not 0: the subtraction wraps
    around, and what comes back is 262131 (262132 for the CS package). *)
Theorem negative_intermediate_wraps :
  let s := Adafruit_TSL2561_Unified 0x39 12345 true [] in
  let scale :=
    chScale published_header (_tsl2561IntegrationTime s) (_tsl2561Gain s) in
  let channel0 := scale_channel published_header scale 0 in
  let channel1 := scale_channel published_header scale 1 in
  0 <= clipThreshold published_header (_tsl2561IntegrationTime s) /\
  1 <= clipThreshold published_header (_tsl2561IntegrationTime s) /\
  select_coefficients (lux_table published_header PACKAGE_T_FN_CL)
    (lux_ratio published_header channel0 channel1) = Some (498, 446) /\
  channel0 * 498 < channel1 * 446 /\
  calculateLux published_header PACKAGE_T_FN_CL s 0 1 = Some 262131 /\
  calculateLux published_header PACKAGE_CS s 0 1 = Some 262132.
Proof.
  vm_compute. repeat split; discriminate.
Qed.

(** The spec's known-value scenario: broadband 100, ir 30 at 402 ms and
    gain 16x give 2 lux with the T/FN/CL table. *)
Example known_value :
  calculateLux published_header PACKAGE_T_FN_CL unscaled 100 30 = Some 2.
Proof. reflexivity. Qed.

(** *** The coefficient table *)

Ltac bool_facts :=
  repeat match goal with
         | H : _ && _ = true |- _ => apply andb_prop in H; destruct H
         | H : (_ <=? _) = true |- _ => apply Z.leb_le in H
         | H : (_ <? _) = true |- _ => apply Z.ltb_lt in H
         | H : (_ =? _) = true |- _ => apply Z.eqb_eq in H
         end.

(** Closes the goal about the scan once its comparisons are known and [i]
    is the bracket they lead to. *)
Ltac bracket i :=
  exists i; split; [lia | ]; split; [cbn; lia | ];
  split; [ | split; [reflexivity | ] ];
  intros j Hj;
  destruct j as [|[|[|[|[|[|[|[|[|j]]]]]]]]]; cbn in Hj |- *; lia.

(** C8.  On a table whose breakpoints ascend and whose last two coincide,
    every ratio from 0 upward lies in exactly one bracket, the scan assigns
    [b] and [m], they are the coefficients of that bracket, and no earlier
    test of the scan succeeds. *)
Theorem scan_selects_one_bracket (t : LuxTable) (ratio : Z) :
  table_ok t = true ->
  0 <= ratio ->
  exists i : nat,
    (1 <= i <= 8)%nat /\
    in_bracket t i ratio /\
    (forall j : nat, in_bracket t j ratio -> j = i) /\
    select_coefficients t ratio = Some (coefficients t i) /\
    (forall j : nat, (1 <= j < i)%nat -> breakpoint t j < ratio).
Proof.
  intros Hok Hratio. unfold table_ok in Hok. cbn [forallb] in Hok.
  bool_facts.
  unfold select_coefficients, to_ulong, to_uint, wrap.
  rewrite !Z.mod_small by lia.
  destruct (Z.leb_spec 0 ratio); [ | lia ]. cbn [andb].
  destruct (Z.leb_spec ratio (K1 t)). { bracket 1%nat. }
  destruct (Z.leb_spec ratio (K2 t)). { bracket 2%nat. }
  destruct (Z.leb_spec ratio (K3 t)). { bracket 3%nat. }
  destruct (Z.leb_spec ratio (K4 t)). { bracket 4%nat. }
  destruct (Z.leb_spec ratio (K5 t)). { bracket 5%nat. }
  destruct (Z.leb_spec ratio (K6 t)). { bracket 6%nat. }
  destruct (Z.leb_spec ratio (K7 t)). { bracket 7%nat. }
  destruct (Z.ltb_spec (K8 t) ratio); [ | lia ].
  bracket 8%nat.
Qed.

Lemma scan_selects_one_bracket_witness :
  table_ok published_T = true /\ table_ok published_CS = true /\
  0 <= 154 /\
  select_coefficients published_T 154 = Some (575, 891).
Proof.
  split; [reflexivity | split; [reflexivity | split; [lia | ]]].
  destruct (scan_selects_one_bracket published_T 154 eq_refl)
    as (i & _ & Hin & _ & Hsel & _); [lia | ].
  rewrite Hsel.
  destruct i as [|[|[|[|[|[|[|[|[|i]]]]]]]]];
    cbn in Hin; try lia; reflexivity.
Defined.

(** Where [K8] is above [K7] the scan leaves a gap: a ratio above the
    first seven breakpoints and not above [K8] takes no branch, and [b] and
    [m] stay unassigned. *)
Lemma scan_gap (t : LuxTable) (ratio : Z) :
  Forall (fun k => 0 <= k < ratio)
         [K1 t; K2 t; K3 t; K4 t; K5 t; K6 t; K7 t] ->
  ratio <= K8 t < 2 ^ 32 ->
  select_coefficients t ratio = None.
Proof.
  intros Hk Hk8.
  repeat match goal with
         | H : Forall _ (_ :: _) |- _ => inversion H; subst; clear H
         end.
  unfold select_coefficients, to_ulong, to_uint, wrap.
  repeat match goal with
         | |- context [?k mod 2 ^ 32] =>
             rewrite (Z.mod_small k (2 ^ 32)) by lia
         end.
  repeat match goal with
         | |- context [?a <=? ?b] => destruct (Z.leb_spec a b); try lia
         | |- context [?a <? ?b] => destruct (Z.ltb_spec a b); try lia
         end.
  reflexivity.
Qed.

(** *** The ratio *)

Section Ratio.

Variable h : Header.

(** C9.  Where the shifted [channel1] fits an [unsigned long], the ratio
    is the integer quotient [(channel1 << (RATIOSCALE + 1)) / channel0], or
    0 when [channel0] is 0, with 1 added and then halved, which rounds half
    of that quotient to the nearest integer, halves upward; and equal
    channels other than 0 give [2 ^ RATIOSCALE], the fixed-point 1.0. *)
Theorem ratio_rounds_half_up (channel0 channel1 : Z) :
  0 <= TSL2561_LUX_RATIOSCALE h ->
  0 <= channel0 ->
  0 <= channel1 ->
  channel1 * 2 ^ (TSL2561_LUX_RATIOSCALE h + 1) < 2 ^ 32 ->
  let ratio1 :=
    if channel0 =? 0 then 0
    else channel1 * 2 ^ (TSL2561_LUX_RATIOSCALE h + 1) / channel0 in
  lux_ratio h channel0 channel1 = (ratio1 + 1) / 2 /\
  2 * lux_ratio h channel0 channel1 - 1 <= ratio1
    <= 2 * lux_ratio h channel0 channel1 /\
  (channel0 = channel1 -> channel0 <> 0 ->
   lux_ratio h channel0 channel1 = 2 ^ TSL2561_LUX_RATIOSCALE h).
Proof.
  intros Hscale H0 H1 Hfit ratio1.
  set (n := TSL2561_LUX_RATIOSCALE h) in *.
  assert (Hpow : 2 ^ (n + 1) = 2 * 2 ^ n)
    by (rewrite Z.pow_add_r by lia; lia).
  assert (Hpos : 0 < 2 ^ n) by (apply Z.pow_pos_nonneg; lia).
  assert (Hratio1 : 0 <= ratio1 <= 2 ^ 32 - 2).
  { subst ratio1. destruct (Z.eqb_spec channel0 0); [lia | ].
    split.
    - apply Z.div_pos; nia.
    - transitivity (channel1 * 2 ^ (n + 1)).
      + apply Z.div_le_upper_bound; nia.
      + lia. }
  assert (Hrun : lux_ratio h channel0 channel1 = (ratio1 + 1) / 2).
  { unfold lux_ratio. fold n.
    rewrite Z.shiftr_div_pow2, Z.shiftl_mul_pow2 by lia.
    change (2 ^ 1) with 2. f_equal.
    subst ratio1. unfold to_ulong, wrap.
    destruct (Z.eqb_spec channel0 0); cbn [negb].
    - reflexivity.
    - rewrite (Z.mod_small (channel1 * 2 ^ (n + 1))) by nia.
      apply Z.mod_small. lia. }
  split; [exact Hrun | ]. rewrite Hrun.
  split.
  { generalize ratio1. intros q. Z.div_mod_to_equations. lia. }
  intros Heq Hne. subst ratio1 channel1.
  destruct (Z.eqb_spec channel0 0); [contradiction | ].
  replace (channel0 * 2 ^ (n + 1) / channel0) with (2 ^ (n + 1))
    by (rewrite Z.mul_comm, Z.div_mul by assumption; reflexivity).
  rewrite Hpow. generalize (2 ^ n). intros x.
  Z.div_mod_to_equations. lia.
Qed.

End Ratio.

Lemma ratio_rounds_half_up_witness :
  0 <= TSL2561_LUX_RATIOSCALE published_header /\
  0 <= 1000 /\
  1000 * 2 ^ (TSL2561_LUX_RATIOSCALE published_header + 1) < 2 ^ 32 /\
  lux_ratio published_header 1000 1000 = 512.
Proof.
  assert (Hscale : 0 <= TSL2561_LUX_RATIOSCALE published_header)
    by (vm_compute; discriminate).
  assert (Hfit : 1000 * 2 ^ (TSL2561_LUX_RATIOSCALE published_header + 1)
                 < 2 ^ 32) by (vm_compute; reflexivity).
  split; [exact Hscale | split; [lia | split; [exact Hfit | ]]].
  pose proof (ratio_rounds_half_up published_header 1000 1000 Hscale
                ltac:(lia) ltac:(lia) Hfit) as H.
  cbv zeta in H. destruct H as (_ & _ & Hone).
  rewrite Hone by lia. reflexivity.
Defined.

(** With the published constants the shifted channel fits an
    [unsigned long] on every reading that is not saturated: the scaled
    channels stay below [2 ^ 22], and the shift is by
    [RATIOSCALE + 1] = 10. *)
Lemma published_channels_fit (t : tsl2561IntegrationTime_t)
    (g : tsl2561Gain_t) (raw : Z) :
  0 <= raw <= clipThreshold published_header t ->
  let channel := scale_channel published_header
                   (chScale published_header t g) raw in
  0 <= channel /\
  channel * 2 ^ (TSL2561_LUX_RATIOSCALE published_header + 1) < 2 ^ 32.
Proof.
  intros Hraw. cbv zeta. unfold scale_channel, to_ulong, wrap.
  change (TSL2561_LUX_RATIOSCALE published_header + 1) with 10.
  change (TSL2561_LUX_CHSCALE published_header) with 10.
  rewrite Z.shiftr_div_pow2 by lia.
  destruct t, g;
    match goal with
    | |- context [chScale ?h ?t ?g] =>
        let c := eval vm_compute in (chScale h t g) in
        change (chScale h t g) with c
    end;
    match type of Hraw with
    | context [clipThreshold ?h ?t] =>
        let c := eval vm_compute in (clipThreshold h t) in
        change (clipThreshold h t) with c in Hraw
    end;
    rewrite Z.mod_small by lia;
    change (2 ^ 10) with 1024; change (2 ^ 32) with 4294967296;
    Z.div_mod_to_equations; lia.
Qed.

(** ** The inverse approximation *)

(** A mantissa is below the power of two its number of digits names. *)
Lemma digits2_pos_bound (m : positive) :
  Z.pos m < 2 ^ Z.pos (digits2_pos m).
Proof.
  induction m as [m IH | m IH | ]; cbn [digits2_pos].
  - rewrite Pos2Z.inj_succ, Z.pow_succ_r by lia. lia.
  - rewrite Pos2Z.inj_succ, Z.pow_succ_r by lia. lia.
  - reflexivity.
Qed.

(** What being a binary32 number says of the mantissa and the exponent. *)
Lemma binary32_bounds (m : positive) (e : Z) :
  bounded 24 128 m e = true -> Z.pos m < 2 ^ 24 /\ -149 <= e <= 104.
Proof.
  unfold bounded, canonical_mantissa, fexp, emin. intros H. bool_facts.
  pose proof (digits2_pos_bound m) as Hm.
  assert (Hd : Z.pos (digits2_pos m) <= 24) by lia.
  split; [ | lia ].
  apply Z.lt_le_trans with (1 := Hm).
  apply Z.pow_le_mono_r; lia.
Qed.

(** Evaluates the powers of two with a known exponent. *)
Ltac numeral v :=
  lazymatch v with
  | Z0 => idtac
  | Z.pos _ => idtac
  | Z.neg _ => idtac
  end.

Ltac known_powers :=
  repeat match goal with
         | |- context [Z.min ?a ?b] =>
             let v := eval vm_compute in (Z.min a b) in
             numeral v; change (Z.min a b) with v
         | |- context [2 ^ ?x] =>
             let v := eval vm_compute in (2 ^ x) in
             numeral v; progress change (2 ^ x) with v
         | H : context [2 ^ ?x] |- _ =>
             let v := eval vm_compute in (2 ^ x) in
             numeral v; progress change (2 ^ x) with v in H
         end.

(** Splits on the value of [e] among the integers listed. *)
Ltac one_of e values tac :=
  lazymatch values with
  | nil => exfalso; lia
  | ?v :: ?rest =>
      let He := fresh "He" in
      destruct (Z.eq_dec e v) as [He | He];
      [ subst e; tac | one_of e rest tac ]
  end.

(** 1.5 is above the literal [1.30]; the [float] nearest to 1.3 is below
    it when [double] is binary64, and equal to it when [double] is
    binary32. *)
Example compare_with_1_30 :
  fcompare ratio_one_and_a_half (literal sample_fpu 130 2) = Some Gt /\
  fcompare (S754_finite false 10905190 (-23)) (literal sample_fpu 130 2)
  = Some Lt /\
  fcompare (S754_finite false 10905190 (-23))
           (S754_finite false 10905190 (-23)) = Some Eq.
Proof. repeat split. Qed.

(** No binary32 number lies between 13/10 and the [double] that the
    literal [1.30] denotes, be [double] binary64 or binary32: a [float]
    above 13/10 compares greater than the literal. *)
Lemma float_above_1_30 (r lit : spec_float) :
  lit = S754_finite false 5854679515581645 (-52) \/
  lit = S754_finite false 10905190 (-23) ->
  valid_binary 24 128 r = true ->
  exceeds r 13 10 ->
  fgt r lit = true.
Proof.
  intros Hlit Hvalid Hr.
  destruct r as [sgn | [|] | | [|] m e]; unfold exceeds in Hr;
    try contradiction.
  { destruct Hlit as [-> | ->]; reflexivity. }
  cbn [valid_binary] in Hvalid. apply binary32_bounds in Hvalid.
  destruct Hvalid as [Hm He].
  change (2 ^ 24) with 16777216 in Hm.
  assert (Hgt : forall a b : Z, b < a ->
            match a ?= b with Gt => true | _ => false end = true).
  { intros a b Hab. apply Z.lt_gt in Hab. unfold Z.gt in Hab.
    now rewrite Hab. }
  revert Hr. destruct (Z.leb_spec 0 e) as [Hpos | Hneg]; intros Hr.
  - (* an integer above 13/10 is at least 2 *)
    assert (Hp : 0 < 2 ^ e) by (apply Z.pow_pos_nonneg; lia).
    destruct Hlit as [-> | ->];
      unfold fgt, fcompare, exponent_of, scaled_value; cbv zeta;
      rewrite Z.min_r by lia; apply Hgt.
    + replace (e - -52) with (e + 52) by lia.
      rewrite Z.pow_add_r by lia. known_powers. nia.
    + replace (e - -23) with (e + 23) by lia.
      rewrite Z.pow_add_r by lia. known_powers. nia.
  - assert (Hlow : -23 <= e).
    { destruct (Z.le_gt_cases (-23) e) as [ | Hfar]; [assumption | ].
      exfalso.
      assert (2 ^ 24 <= 2 ^ (- e)) by (apply Z.pow_le_mono_r; lia).
      change (2 ^ 24) with 16777216 in *. lia. }
    destruct Hlit as [-> | ->];
      unfold fgt, fcompare, exponent_of, scaled_value; cbv zeta;
      apply Hgt;
      one_of e [-1; -2; -3; -4; -5; -6; -7; -8; -9; -10; -11; -12; -13;
                -14; -15; -16; -17; -18; -19; -20; -21; -22; -23]
             ltac:(known_powers; lia).
Qed.

(** C7.  For every [float] ratio above 1.30, the positive infinity
    included, [calculateRawCH0] returns 0xFFFF, in both package variants
    and whatever the lux value, the integration time and the gain are. *)
Theorem ratio_above_1_30_gives_sentinel (h : Header) (package : Package)
    (fpu : FloatUnit) (s : Sensor) (lux : Z) (approxChRatio : spec_float) :
  has_binary64_double fpu \/ has_binary32_double fpu ->
  valid_binary 24 128 approxChRatio = true ->
  exceeds approxChRatio 13 10 ->
  calculateRawCH0 h package fpu s lux approxChRatio = 0xFFFF.
Proof.
  intros Hdouble Hvalid Hr.
  assert (Hgt : fgt approxChRatio (literal fpu 130 2) = true).
  { apply float_above_1_30; try assumption.
    destruct Hdouble as [[Hp He] | [Hp He]];
      unfold literal; rewrite Hp, He; [left | right];
      vm_compute; reflexivity. }
  unfold calculateRawCH0. destruct package; rewrite Hgt; reflexivity.
Qed.

Lemma ratio_above_1_30_gives_sentinel_witness :
  (has_binary64_double sample_fpu \/ has_binary32_double sample_fpu) /\
  valid_binary 24 128 ratio_one_and_a_half = true /\
  exceeds ratio_one_and_a_half 13 10 /\
  calculateRawCH0 published_header PACKAGE_CS sample_fpu unscaled 400
    ratio_one_and_a_half = 0xFFFF /\
  calculateRawCH0 published_header PACKAGE_T_FN_CL sample_fpu unscaled 400
    ratio_one_and_a_half = 0xFFFF.
Proof.
  assert (Hd : has_binary64_double sample_fpu
               \/ has_binary32_double sample_fpu)
    by (left; split; reflexivity).
  assert (Hv : valid_binary 24 128 ratio_one_and_a_half = true)
    by reflexivity.
  assert (Hr : exceeds ratio_one_and_a_half 13 10)
    by (vm_compute; reflexivity).
  split; [exact Hd | split; [exact Hv | split; [exact Hr | split]]].
  - apply (ratio_above_1_30_gives_sentinel published_header PACKAGE_CS
             sample_fpu unscaled 400 ratio_one_and_a_half Hd Hv Hr).
  - apply (ratio_above_1_30_gives_sentinel published_header PACKAGE_T_FN_CL
             sample_fpu unscaled 400 ratio_one_and_a_half Hd Hv Hr).
Defined.

(** * The rest of the driver *)

(** ** Bytes and words *)

(** Bits that do not overlap are joined by adding. *)
Lemma lor_shiftl_low (a b n : Z) :
  0 <= n -> 0 <= b < 2 ^ n -> Z.lor (Z.shiftl a n) b = a * 2 ^ n + b.
Proof.
  intros Hn Hb.
  assert (Hland : Z.land (Z.shiftl a n) b = 0).
  { apply Z.bits_inj'. intros i Hi.
    rewrite Z.land_spec, Z.bits_0.
    destruct (Z.lt_ge_cases i n) as [Hlt | Hge].
    - rewrite Z.shiftl_spec_low by assumption. reflexivity.
    - destruct (Z.eq_dec b 0) as [-> | Hb0].
      + rewrite Z.bits_0. apply andb_false_r.
      + rewrite (Z.bits_above_log2 b i).
        * apply andb_false_r.
        * lia.
        * apply Z.lt_le_trans with n; [ | assumption ].
          apply Z.log2_lt_pow2; lia. }
  rewrite <- Z.lxor_lor by exact Hland.
  rewrite <- Z.add_nocarry_lxor by exact Hland.
  now rewrite Z.shiftl_mul_pow2.
Qed.

Lemma land_low_bits (a : Z) : Z.land a 0xFF = a mod 256.
Proof. change 0xFF with (Z.ones 8). now rewrite Z.land_ones. Qed.

Lemma land_nibble (a : Z) : Z.land a 0x0F = a mod 16.
Proof. change 0x0F with (Z.ones 4). now rewrite Z.land_ones. Qed.

(** A word put together from two reads fits 16 bits. *)
Lemma word_range (high low : Z) :
  0 <= Z.lor (to_uint16 (Z.shiftl (to_uint16 high) 8)) (to_uint16 low)
    < 2 ^ 16.
Proof.
  unfold to_uint16, wrap.
  assert (Hmask : forall x, 0 <= x < 2 ^ 16 -> Z.land x (Z.ones 16) = x).
  { intros x Hx. rewrite Z.land_ones by lia. now apply Z.mod_small. }
  rewrite <- (Hmask (low mod 2 ^ 16)) by (apply Z.mod_pos_bound; lia).
  rewrite <- (Hmask (Z.shiftl (high mod 2 ^ 16) 8 mod 2 ^ 16))
    by (apply Z.mod_pos_bound; lia).
  rewrite <- Z.land_lor_distr_l, Z.land_ones by lia.
  apply Z.mod_pos_bound. lia.
Qed.

(** Two bytes make the word that has the first as its low byte. *)
Lemma word_of_bytes (high low : Z) :
  0 <= low < 256 -> 0 <= high < 256 ->
  Z.lor (to_uint16 (Z.shiftl (to_uint16 high) 8)) (to_uint16 low)
  = low + 256 * high.
Proof.
  intros Hlow Hhigh. unfold to_uint16, wrap.
  rewrite Z.shiftl_mul_pow2 by lia.
  rewrite (Z.mod_small high), (Z.mod_small low),
    (Z.mod_small (high * 2 ^ 8)) by lia.
  rewrite <- Z.shiftl_mul_pow2 by lia.
  rewrite lor_shiftl_low by lia. lia.
Qed.

(** What [read16] makes of the next two reads. *)
Lemma read16_value (reg : Z) (s : Sensor) :
  fst (read16 reg s)
  = Z.lor (to_uint16 (Z.shiftl
                        (to_uint16 (rx (_i2c s) (S (rx_pos (_i2c s))))) 8))
          (to_uint16 (rx (_i2c s) (rx_pos (_i2c s)))).
Proof. destruct_sensor s. reflexivity. Qed.

(** X1.  [read16] returns a 16-bit value whatever the bus delivers, and
    when the bus delivers two bytes it is the first byte plus 256 times the
    second: the low byte arrives first. *)
Theorem read16_low_byte_first (reg : Z) (s : Sensor) :
  let low := rx (_i2c s) (rx_pos (_i2c s)) in
  let high := rx (_i2c s) (S (rx_pos (_i2c s))) in
  0 <= fst (read16 reg s) < 2 ^ 16 /\
  (0 <= low < 256 -> 0 <= high < 256 ->
   fst (read16 reg s) = low + 256 * high).
Proof.
  cbv zeta. rewrite read16_value. split.
  - apply word_range.
  - intros Hlow Hhigh. now apply word_of_bytes.
Qed.

Lemma read16_low_byte_first_witness :
  0 <= 0x34 < 256 /\ 0 <= 0x12 < 256 /\
  fst (read16 0xAC (Adafruit_TSL2561_Unified 0x39 1 true [0x34; 0x12]))
  = 0x1234.
Proof.
  split; [lia | split; [lia | ]].
  pose proof (read16_low_byte_first 0xAC
                (Adafruit_TSL2561_Unified 0x39 1 true [0x34; 0x12])) as H.
  cbv zeta in H. destruct H as [_ H].
  rewrite H; [reflexivity | cbn; lia | cbn; lia].
Defined.

(** X2.  [write16] sends nothing when the low nibble of the register is
    0x0F.  Otherwise it sends two writes, the low byte to the register and
    the high byte to the next one, which lies in the same block of sixteen
    registers and still fits a byte; nothing but the bus changes. *)
Theorem write16_guard (reg value : Z) (s : Sensor) :
  let r := to_uint8 reg in
  let v := to_uint32 value in
  (Z.land r 0x0F = 0x0F -> write16 reg value s = (tt, s)) /\
  (Z.land r 0x0F <> 0x0F ->
   tx (_i2c (snd (write16 reg value s)))
   = write8_events (_addr s) (r + 1) (highByte v)
     ++ write8_events (_addr s) r (lowByte v) ++ tx (_i2c s) /\
   config (snd (write16 reg value s)) = config s /\
   r + 1 < 256 /\ (r + 1) / 16 = r / 16).
Proof.
  cbv zeta. unfold write16. rewrite land_nibble.
  assert (Hr : 0 <= to_uint8 reg < 256)
    by (apply Z.mod_pos_bound; reflexivity).
  split.
  - intros Hnibble.
    replace (to_uint8 reg mod 16 <? 15) with false
      by (symmetry; apply Z.ltb_ge; lia).
    reflexivity.
  - intros Hnibble.
    replace (to_uint8 reg mod 16 <? 15) with true
      by (symmetry; apply Z.ltb_lt;
          pose proof (Z.mod_pos_bound (to_uint8 reg) 16); lia).
    generalize dependent (to_uint8 reg). intros r Hr Hnibble.
    destruct_sensor s. unfold write8_events. run.
    repeat split; Z.div_mod_to_equations; lia.
Qed.

Lemma write16_guard_witness :
  Z.land (to_uint8 0x82) 0x0F <> 0x0F /\
  tx (_i2c (snd (write16 0x82 3000
                   (Adafruit_TSL2561_Unified 0x39 1 true []))))
  = [EndTransmission; WireWrite 11; WireWrite 0x83; BeginTransmission 0x39;
     EndTransmission; WireWrite 184; WireWrite 0x82; BeginTransmission 0x39].
Proof.
  assert (H : Z.land (to_uint8 0x82) 0x0F <> 0x0F)
    by (vm_compute; discriminate).
  split; [exact H | ].
  pose proof (write16_guard 0x82 3000
                (Adafruit_TSL2561_Unified 0x39 1 true [])) as Hw.
  cbv zeta in Hw. destruct Hw as [_ Hw].
  destruct (Hw H) as [Hlog _]. rewrite Hlog. reflexivity.
Defined.

(** X3.  What [write16] sends comes back through [read16]: on a bus that
    delivers the two data bytes in the order they were sent, [read16]
    returns the value written, as 16 bits. *)
Theorem write16_read16_round_trip (reg value : Z) (s : Sensor) :
  rx (_i2c s) (rx_pos (_i2c s))
  = Z.land (to_uint32 (lowByte (to_uint32 value))) 0xFF ->
  rx (_i2c s) (S (rx_pos (_i2c s)))
  = Z.land (to_uint32 (highByte (to_uint32 value))) 0xFF ->
  fst (read16 reg s) = to_uint16 value.
Proof.
  intros Hlow Hhigh.
  pose proof (word_of_bytes (rx (_i2c s) (S (rx_pos (_i2c s))))
                (rx (_i2c s) (rx_pos (_i2c s)))) as H.
  rewrite <- (read16_value reg) in H.
  rewrite Hlow, Hhigh in H.
  unfold lowByte, highByte, to_uint32, to_uint8, to_uint16, wrap in *.
  rewrite !land_low_bits in H. rewrite Z.shiftr_div_pow2 in H by lia.
  rewrite H.
  - change (2 ^ 8) with 256. change (2 ^ 16) with 65536.
    change (2 ^ 32) with 4294967296. Z.div_mod_to_equations. lia.
  - apply Z.mod_pos_bound. lia.
  - apply Z.mod_pos_bound. lia.
Qed.

Lemma write16_read16_round_trip_witness :
  rx (_i2c (Adafruit_TSL2561_Unified 0x39 1 true [184; 11])) 0
  = Z.land (to_uint32 (lowByte (to_uint32 3000))) 0xFF /\
  rx (_i2c (Adafruit_TSL2561_Unified 0x39 1 true [184; 11])) 1
  = Z.land (to_uint32 (highByte (to_uint32 3000))) 0xFF /\
  fst (read16 0xA2 (Adafruit_TSL2561_Unified 0x39 1 true [184; 11]))
  = to_uint16 3000.
Proof.
  split; [reflexivity | split; [reflexivity | ]].
  apply (write16_read16_round_trip 0xA2 3000
           (Adafruit_TSL2561_Unified 0x39 1 true [184; 11]));
    reflexivity.
Defined.

(** ** Interrupts *)

(** X4.  The byte [setInterruptControl] writes holds the persist count in
    bits 0 to 3 and the control mode in bits 4 and 5, and nothing in bits 6
    and 7: a persist count is taken modulo 16, a mode modulo 4, and both
    can be read back from the byte. *)
Theorem interrupt_data_fields (intcontrol intpersist : Z) :
  0 <= interrupt_data intcontrol intpersist < 64 /\
  interrupt_data intcontrol intpersist mod 16 = intpersist mod 16 /\
  interrupt_data intcontrol intpersist / 16 = intcontrol mod 4.
Proof.
  unfold interrupt_data.
  change 3 with (Z.ones 2). change 15 with (Z.ones 4).
  rewrite !Z.land_ones by lia.
  rewrite lor_shiftl_low by (try lia; apply Z.mod_pos_bound; lia).
  unfold to_uint8, wrap.
  change (2 ^ 2) with 4. change (2 ^ 4) with 16. change (2 ^ 8) with 256.
  Z.div_mod_to_equations. lia.
Qed.

Section InterruptFacts.

Variable h : Header.
Variable src : SourceFile.
Variable ih : InterruptHeader.

(** X5.  [setInterruptControl] first initialises the object if need be,
    then powers the device on, writes the interrupt register, and, when the
    object may sleep, powers the device off again right away; it changes
    none of the settings and takes no reading. *)
Theorem setInterruptControl_sequence (intcontrol intpersist : Z)
    (s : Sensor) :
  let s' := snd (setInterruptControl h src ih intcontrol intpersist s) in
  tx (_i2c s')
  = (if _allowSleep s then disable_events h (_addr s) else [])
    ++ write8_events (_addr s)
         (to_uint8 (Z.lor (TSL2561_COMMAND_BIT h)
                          (TSL2561_REGISTER_INTERRUPT ih)))
         (interrupt_data intcontrol intpersist)
    ++ write8_events (_addr s)
         (Z.lor (TSL2561_COMMAND_BIT h) (TSL2561_REGISTER_CONTROL h))
         (TSL2561_CONTROL_POWERON h)
    ++ tx (_i2c (ready h src s)) /\
  settings s' = settings s /\
  acquisitions s' = acquisitions s.
Proof.
  destruct_sensor s.
  unfold setInterruptControl, setInterruptControl_with, ready,
    disable_events, write8_events.
  destruct initialised, sleep; run;
    try destruct (probe_fails src _); repeat split; reflexivity.
Qed.

(** X6.  [setInterruptThreshold] writes the low threshold and then the high
    one, each low byte first, and nothing else: no [begin], no power-on,
    no change to the object, initialised or not. *)
Theorem setInterruptThreshold_sequence (lowThreshold highThreshold : Z)
    (s : Sensor) :
  let low := to_uint8 (Z.lor (TSL2561_COMMAND_BIT h)
                             (TSL2561_REGISTER_THRESHHOLDL_LOW ih)) in
  let high := to_uint8 (Z.lor (TSL2561_COMMAND_BIT h)
                              (TSL2561_REGISTER_THRESHHOLDH_LOW ih)) in
  let s' := snd (setInterruptThreshold h ih lowThreshold highThreshold s) in
  Z.land low 0x0F <> 0x0F ->
  Z.land high 0x0F <> 0x0F ->
  tx (_i2c s')
  = write8_events (_addr s) (high + 1)
      (highByte (to_uint32 (to_uint16 highThreshold)))
    ++ write8_events (_addr s) high
         (lowByte (to_uint32 (to_uint16 highThreshold)))
    ++ write8_events (_addr s) (low + 1)
         (highByte (to_uint32 (to_uint16 lowThreshold)))
    ++ write8_events (_addr s) low
         (lowByte (to_uint32 (to_uint16 lowThreshold)))
    ++ tx (_i2c s) /\
  config s' = config s.
Proof.
  cbv zeta. intros Hlow Hhigh.
  unfold setInterruptThreshold, write16.
  replace (to_uint8 (to_uint8 (Z.lor (TSL2561_COMMAND_BIT h)
             (TSL2561_REGISTER_THRESHHOLDL_LOW ih))))
    with (to_uint8 (Z.lor (TSL2561_COMMAND_BIT h)
             (TSL2561_REGISTER_THRESHHOLDL_LOW ih)))
    by (unfold to_uint8, wrap; now rewrite Z.mod_mod).
  replace (to_uint8 (to_uint8 (Z.lor (TSL2561_COMMAND_BIT h)
             (TSL2561_REGISTER_THRESHHOLDH_LOW ih))))
    with (to_uint8 (Z.lor (TSL2561_COMMAND_BIT h)
             (TSL2561_REGISTER_THRESHHOLDH_LOW ih)))
    by (unfold to_uint8, wrap; now rewrite Z.mod_mod).
  assert (Hnibble : forall r, Z.land r 0x0F <> 0x0F ->
            (Z.land r 0x0F <? 0x0F) = true).
  { intros r Hr. apply Z.ltb_lt. rewrite land_nibble in *.
    pose proof (Z.mod_pos_bound r 16). lia. }
  rewrite (Hnibble _ Hlow), (Hnibble _ Hhigh).
  destruct_sensor s. unfold write8_events. run. split; reflexivity.
Qed.

End InterruptFacts.

Lemma setInterruptThreshold_sequence_witness :
  Z.land (to_uint8 (Z.lor (TSL2561_COMMAND_BIT published_header)
            (TSL2561_REGISTER_THRESHHOLDL_LOW published_interrupt_header)))
         0x0F <> 0x0F /\
  Z.land (to_uint8 (Z.lor (TSL2561_COMMAND_BIT published_header)
            (TSL2561_REGISTER_THRESHHOLDH_LOW published_interrupt_header)))
         0x0F <> 0x0F /\
  _tsl2561Initialised
    (snd (setInterruptThreshold published_header
            published_interrupt_header 0 3000
            (Adafruit_TSL2561_Unified 0x39 1 true []))) = false.
Proof.
  assert (Hlow : Z.land (to_uint8 (Z.lor
             (TSL2561_COMMAND_BIT published_header)
             (TSL2561_REGISTER_THRESHHOLDL_LOW published_interrupt_header)))
           0x0F <> 0x0F) by (vm_compute; discriminate).
  assert (Hhigh : Z.land (to_uint8 (Z.lor
             (TSL2561_COMMAND_BIT published_header)
             (TSL2561_REGISTER_THRESHHOLDH_LOW published_interrupt_header)))
           0x0F <> 0x0F) by (vm_compute; discriminate).
  split; [exact Hlow | split; [exact Hhigh | ]].
  pose proof (setInterruptThreshold_sequence published_header
                published_interrupt_header 0 3000
                (Adafruit_TSL2561_Unified 0x39 1 true [])) as H.
  cbv zeta in H. destruct (H Hlow Hhigh) as [_ Hconfig].
  transitivity (_tsl2561Initialised (Adafruit_TSL2561_Unified 0x39 1 true []));
    [ | reflexivity ].
  unfold config in Hconfig. congruence.
Defined.

(** ** What every path through the acquisition loop keeps *)

Section Invariants.

Variable h : Header.
Variable src : SourceFile.

(** [getLuminosity] ends in one of two ways: with the first reading, or
    with the reading that follows a change of the gain. *)
Lemma getLuminosity_ends (fuel : nat) (s : Sensor) :
  (2 <= fuel)%nat ->
  getLuminosity h src fuel s = accept (getData h src (ready h src s)) \/
  exists g : tsl2561Gain_t,
    g <> _tsl2561Gain s /\
    getLuminosity h src fuel s
    = accept (reading_after_adjustment h src g
                (snd (getData h src (ready h src s)))).
Proof.
  intros Hfuel. destruct fuel as [|[|fuel]]; try lia. clear Hfuel.
  destruct (_tsl2561AutoGain s) eqn:Hon.
  2: { left. now apply accept_off. }
  destruct ((fst (fst (getData h src (ready h src s)))
               <? agc_lo h (_tsl2561IntegrationTime s))
            && gain_eqb (_tsl2561Gain s) GAIN_1X) eqn:Hlo.
  { right. exists GAIN_16X. split.
    - apply andb_prop in Hlo. destruct Hlo as [_ Hg].
      apply gain_eqb_eq in Hg. rewrite Hg. discriminate.
    - now apply getLuminosity_raise. }
  destruct ((agc_hi h (_tsl2561IntegrationTime s)
               <? fst (fst (getData h src (ready h src s))))
            && gain_eqb (_tsl2561Gain s) GAIN_16X) eqn:Hhi.
  { right. exists GAIN_1X. split.
    - apply andb_prop in Hhi. destruct Hhi as [_ Hg].
      apply gain_eqb_eq in Hg. rewrite Hg. discriminate.
    - now apply getLuminosity_lower. }
  left. now apply getLuminosity_keep.
Qed.

(** What the guard, a reading and a change of the gain keep,
    [getLuminosity] keeps. *)
Lemma getLuminosity_keeps (P : Sensor -> Prop) :
  (forall s, P s -> P (ready h src s)) ->
  (forall s, P s -> P (snd (getData h src s))) ->
  (forall g s, P s -> P (snd (setGain h src g s))) ->
  forall (fuel : nat) (s : Sensor),
    (2 <= fuel)%nat -> P s -> P (snd (getLuminosity h src fuel s)).
Proof.
  intros Hready Hdata Hgain fuel s Hfuel Hs.
  destruct (getLuminosity_ends fuel s Hfuel) as [-> | (g & _ & ->)];
    rewrite snd_accept.
  - apply Hdata, Hready, Hs.
  - unfold reading_after_adjustment. cbv zeta.
    apply Hdata, Hdata, Hgain, Hdata, Hready, Hs.
Qed.

(** Runs a method on an object taken apart, for a property of the log. *)
Ltac run_protocol :=
  unfold protocol_kept; run;
  try match goal with
      | |- context [probe_fails ?f ?x] => destruct (probe_fails f x)
      end;
  cbn [bus_state requested bus_step Nat.leb andb];
  repeat match goal with
         | H : bus_state _ = _ |- _ => rewrite H
         end;
  cbn [bus_state requested bus_step Nat.leb andb].

Lemma protocol_kept_getData (offset : nat) (s : Sensor) :
  protocol_kept offset s -> protocol_kept offset (snd (getData h src s)).
Proof.
  destruct_sensor s. intros [Hbus Hread]. cbn in Hbus, Hread.
  destruct sleep; run_protocol; split; try reflexivity;
    change (Z.to_nat 2) with 2%nat; lia.
Qed.

Lemma protocol_kept_ready (offset : nat) (s : Sensor) :
  protocol_kept offset s -> protocol_kept offset (ready h src s).
Proof.
  destruct_sensor s. intros [Hbus Hread]. cbn in Hbus, Hread.
  unfold ready.
  destruct initialised, sleep; run_protocol; split; try reflexivity;
    try change (Z.to_nat 1) with 1%nat; lia.
Qed.

Lemma protocol_kept_begin (offset : nat) (s : Sensor) :
  protocol_kept offset s -> protocol_kept offset (snd (begin h src s)).
Proof.
  destruct_sensor s. intros [Hbus Hread]. cbn in Hbus, Hread.
  destruct sleep; run_protocol; split; try reflexivity;
    try change (Z.to_nat 1) with 1%nat; lia.
Qed.

Lemma protocol_kept_setGain (offset : nat) (g : tsl2561Gain_t)
    (s : Sensor) :
  protocol_kept offset s -> protocol_kept offset (snd (setGain h src g s)).
Proof.
  destruct_sensor s. intros [Hbus Hread]. cbn in Hbus, Hread.
  destruct initialised, sleep; run_protocol; split; try reflexivity;
    try change (Z.to_nat 1) with 1%nat; lia.
Qed.

Lemma protocol_kept_setIntegrationTime (offset : nat)
    (t : tsl2561IntegrationTime_t) (s : Sensor) :
  protocol_kept offset s ->
  protocol_kept offset (snd (setIntegrationTime h src t s)).
Proof.
  destruct_sensor s. intros [Hbus Hread]. cbn in Hbus, Hread.
  destruct initialised, sleep; run_protocol; split; try reflexivity;
    try change (Z.to_nat 1) with 1%nat; lia.
Qed.

Lemma protocol_kept_setInterruptControl (ih : InterruptHeader)
    (offset : nat) (intcontrol intpersist : Z) (s : Sensor) :
  protocol_kept offset s ->
  protocol_kept offset
    (snd (setInterruptControl h src ih intcontrol intpersist s)).
Proof.
  destruct_sensor s. intros [Hbus Hread]. cbn in Hbus, Hread.
  unfold setInterruptControl, setInterruptControl_with.
  destruct initialised, sleep; run_protocol; split; try reflexivity;
    try change (Z.to_nat 1) with 1%nat; lia.
Qed.

Lemma protocol_kept_write16 (offset : nat) (reg value : Z) (s : Sensor) :
  protocol_kept offset s -> protocol_kept offset (snd (write16 reg value s)).
Proof.
  destruct_sensor s. intros [Hbus Hread]. cbn in Hbus, Hread.
  unfold write16. cbv zeta. destruct (_ <? _).
  - run_protocol. split; [reflexivity | lia].
  - split; assumption.
Qed.

Lemma protocol_kept_clearLevelInterrupt (ih : InterruptHeader)
    (offset : nat) (s : Sensor) :
  protocol_kept offset s ->
  protocol_kept offset (snd (clearLevelInterrupt h ih s)).
Proof.
  destruct_sensor s. intros [Hbus Hread]. cbn in Hbus, Hread.
  unfold clearLevelInterrupt, writereg8. run_protocol.
  split; [reflexivity | lia].
Qed.

(** [getEvent] leaves the object as [getLuminosity] does. *)
Lemma getEvent_state (package : Package) (lib : SensorLibrary)
    (fuel : nat) (now : Z) (s : Sensor) :
  snd (getEvent h src package lib fuel now s)
  = snd (getLuminosity h src fuel s).
Proof.
  unfold getEvent. generalize (getLuminosity h src fuel).
  intros run. step. step. unfold this. step.
  destruct (fst (run s)) as [[broadband ir] | ]; [ | reflexivity ].
  destruct (calculateLux h package (snd (run s)) broadband ir);
    reflexivity.
Qed.

(** X7.  On the bus, every method of the driver keeps to the protocol:
    transmissions are never nested and carry one or two bytes, bytes are
    requested and waits are made only between transmissions, and exactly
    the bytes requested are read. *)
Theorem protocol_is_kept (ih : InterruptHeader) (package : Package)
    (lib : SensorLibrary) (offset : nat) (s : Sensor) :
  protocol_kept offset s ->
  protocol_kept offset (snd (begin h src s)) /\
  (forall t, protocol_kept offset (snd (setIntegrationTime h src t s))) /\
  (forall g, protocol_kept offset (snd (setGain h src g s))) /\
  (forall fuel, (2 <= fuel)%nat ->
     protocol_kept offset (snd (getLuminosity h src fuel s))) /\
  (forall fuel now, (2 <= fuel)%nat ->
     protocol_kept offset
       (snd (getEvent h src package lib fuel now s))) /\
  (forall c p,
     protocol_kept offset (snd (setInterruptControl h src ih c p s))) /\
  (forall low high,
     protocol_kept offset (snd (setInterruptThreshold h ih low high s))) /\
  protocol_kept offset (snd (clearLevelInterrupt h ih s)).
Proof.
  intros Hs.
  assert (Hloop : forall fuel, (2 <= fuel)%nat ->
            protocol_kept offset (snd (getLuminosity h src fuel s))).
  { intros fuel Hfuel.
    apply (getLuminosity_keeps (protocol_kept offset)); try assumption.
    - apply protocol_kept_ready.
    - apply protocol_kept_getData.
    - intros g s'. apply protocol_kept_setGain. }
  split; [apply protocol_kept_begin, Hs | ].
  split; [intros t; apply protocol_kept_setIntegrationTime, Hs | ].
  split; [intros g; apply protocol_kept_setGain, Hs | ].
  split; [exact Hloop | ].
  split; [intros fuel now Hfuel; rewrite getEvent_state; now apply Hloop | ].
  split; [intros c p; apply protocol_kept_setInterruptControl, Hs | ].
  split; [ | apply protocol_kept_clearLevelInterrupt, Hs ].
  intros low high. unfold setInterruptThreshold. rewrite run_bind. cbv beta.
  apply protocol_kept_write16, protocol_kept_write16, Hs.
Qed.

(** *** Initialisation happens once *)

Ltac run_begins :=
  unfold initialised_after, begins; run; cbn [filter is_begin length];
  split; reflexivity.

Lemma initialised_after_ready (n : nat) (s : Sensor) :
  initialised_after n s -> initialised_after n (ready h src s).
Proof.
  destruct_sensor s. intros [Hflag Hn]. cbn in Hflag. subst initialised.
  unfold begins in Hn. cbn in Hn. subst n. unfold ready. run_begins.
Qed.

Lemma initialised_after_getData (n : nat) (s : Sensor) :
  initialised_after n s -> initialised_after n (snd (getData h src s)).
Proof.
  destruct_sensor s. intros [Hflag Hn]. cbn in Hflag. subst initialised.
  unfold begins in Hn. cbn in Hn. subst n. destruct sleep; run_begins.
Qed.

Lemma initialised_after_setGain (n : nat) (g : tsl2561Gain_t) (s : Sensor) :
  initialised_after n s -> initialised_after n (snd (setGain h src g s)).
Proof.
  destruct_sensor s. intros [Hflag Hn]. cbn in Hflag. subst initialised.
  unfold begins in Hn. cbn in Hn. subst n. destruct sleep; run_begins.
Qed.

Lemma initialised_after_setIntegrationTime (n : nat)
    (t : tsl2561IntegrationTime_t) (s : Sensor) :
  initialised_after n s ->
  initialised_after n (snd (setIntegrationTime h src t s)).
Proof.
  destruct_sensor s. intros [Hflag Hn]. cbn in Hflag. subst initialised.
  unfold begins in Hn. cbn in Hn. subst n. destruct sleep; run_begins.
Qed.

Lemma initialised_after_setInterruptControl (ih : InterruptHeader)
    (n : nat) (c p : Z) (s : Sensor) :
  initialised_after n s ->
  initialised_after n (snd (setInterruptControl h src ih c p s)).
Proof.
  destruct_sensor s. intros [Hflag Hn]. cbn in Hflag. subst initialised.
  unfold begins in Hn. cbn in Hn. subst n.
  unfold setInterruptControl, setInterruptControl_with.
  destruct sleep; run_begins.
Qed.

(** X8.  Once the object is initialised, no method initialises it again:
    the setters, [setInterruptControl], [getLuminosity] and [getEvent] add
    no call of [begin] and leave the object initialised. *)
Theorem initialised_once (ih : InterruptHeader) (package : Package)
    (lib : SensorLibrary) (s : Sensor) :
  _tsl2561Initialised s = true ->
  (forall t, initialised_after (begins s)
               (snd (setIntegrationTime h src t s))) /\
  (forall g, initialised_after (begins s) (snd (setGain h src g s))) /\
  (forall c p, initialised_after (begins s)
                 (snd (setInterruptControl h src ih c p s))) /\
  (forall fuel, (2 <= fuel)%nat ->
     initialised_after (begins s) (snd (getLuminosity h src fuel s))) /\
  (forall fuel now, (2 <= fuel)%nat ->
     initialised_after (begins s)
       (snd (getEvent h src package lib fuel now s))).
Proof.
  intros Hflag.
  assert (Hs : initialised_after (begins s) s) by (split; trivial).
  assert (Hloop : forall fuel, (2 <= fuel)%nat ->
            initialised_after (begins s)
              (snd (getLuminosity h src fuel s))).
  { intros fuel Hfuel.
    apply (getLuminosity_keeps (initialised_after (begins s)));
      try assumption.
    - apply initialised_after_ready.
    - apply initialised_after_getData.
    - intros g s'. apply initialised_after_setGain. }
  split; [intros t; apply initialised_after_setIntegrationTime, Hs | ].
  split; [intros g; apply initialised_after_setGain, Hs | ].
  split; [intros c p; apply initialised_after_setInterruptControl, Hs | ].
  split; [exact Hloop | ].
  intros fuel now Hfuel. rewrite getEvent_state. now apply Hloop.
Qed.

(** *** What [getLuminosity] leaves of the settings *)

Lemma reading_after_adjustment_settings (g : tsl2561Gain_t) (s : Sensor) :
  settings (snd (reading_after_adjustment h src g s))
  = (_tsl2561AutoGain s, _tsl2561IntegrationTime s, g, _allowSleep s,
     _addr s).
Proof.
  unfold reading_after_adjustment. cbv zeta.
  rewrite !getData_settings. apply setGain_spec.
Qed.

(** X9.  [getLuminosity] changes nothing of the configuration but,
    possibly, the gain: the auto-gain flag, the integration time, the sleep
    policy and the address are as before; with auto-gain off the gain is as
    before too. *)
Theorem getLuminosity_keeps_configuration (fuel : nat) (s : Sensor) :
  (2 <= fuel)%nat ->
  let s' := snd (getLuminosity h src fuel s) in
  _tsl2561AutoGain s' = _tsl2561AutoGain s /\
  _tsl2561IntegrationTime s' = _tsl2561IntegrationTime s /\
  _allowSleep s' = _allowSleep s /\
  _addr s' = _addr s /\
  (_tsl2561AutoGain s = false -> _tsl2561Gain s' = _tsl2561Gain s).
Proof.
  intros Hfuel. cbv zeta.
  pose proof (ready_settings h src s) as Hready.
  pose proof (getData_settings h src (ready h src s)) as Hfirst.
  rewrite Hready in Hfirst.
  destruct (_tsl2561AutoGain s) eqn:Hon.
  - destruct (getLuminosity_ends fuel s Hfuel) as [Hrun | (g & _ & Hrun)];
      rewrite Hrun, snd_accept.
    + unfold settings in Hfirst. rewrite Hon in Hfirst.
      injection Hfirst as -> -> _ -> ->.
      repeat split; discriminate.
    + pose proof (reading_after_adjustment_settings g
                    (snd (getData h src (ready h src s)))) as Hthird.
      revert Hfirst Hthird.
      generalize (snd (getData h src (ready h src s))). intros x.
      generalize (snd (reading_after_adjustment h src g x)).
      intros y Hfirst Hthird.
      unfold settings in Hfirst, Hthird. rewrite Hon in Hfirst.
      injection Hfirst as H1 H2 _ H4 H5.
      rewrite H1, H2, H4, H5 in Hthird.
      injection Hthird as H6 H7 _ H8 H9.
      repeat split; try assumption; discriminate.
  - rewrite (accept_off h src fuel s Hon), snd_accept.
    unfold settings in Hfirst. rewrite Hon in Hfirst.
    injection Hfirst as -> -> -> -> ->.
    repeat split; reflexivity.
Qed.

(** *** Power *)

Lemma getData_last_events (s : Sensor) :
  exists earlier : list WireEvent,
    tx (_i2c (snd (getData h src s)))
    = (if _allowSleep s then disable_events h (_addr s) else [])
      ++ RequestFrom (_addr s) 2 :: earlier.
Proof.
  destruct_sensor s. unfold disable_events, write8_events.
  destruct sleep; run; eexists; reflexivity.
Qed.

(** X10.  Every [getLuminosity] ends on the bus with the read of channel
    1, followed, when the object may sleep, by the power-off write: with
    [allowSleep] the device is always left powered down, without it the
    device is never powered down. *)
Theorem getLuminosity_last_events (fuel : nat) (s : Sensor) :
  (2 <= fuel)%nat ->
  exists earlier : list WireEvent,
    tx (_i2c (snd (getLuminosity h src fuel s)))
    = (if _allowSleep s then disable_events h (_addr s) else [])
      ++ RequestFrom (_addr s) 2 :: earlier.
Proof.
  intros Hfuel.
  pose proof (ready_settings h src s) as Hready.
  destruct (getLuminosity_ends fuel s Hfuel) as [-> | (g & _ & ->)];
    rewrite snd_accept.
  - destruct (getData_last_events (ready h src s)) as [earlier Hlog].
    exists earlier. rewrite Hlog. unfold settings in Hready.
    replace (_allowSleep (ready h src s)) with (_allowSleep s)
      by congruence.
    replace (_addr (ready h src s)) with (_addr s) by congruence.
    reflexivity.
  - unfold reading_after_adjustment. cbv zeta.
    set (x := snd (getData h src
                (snd (setGain h src g
                        (snd (getData h src (ready h src s))))))).
    assert (Hx : settings x
                 = (_tsl2561AutoGain s, _tsl2561IntegrationTime s, g,
                    _allowSleep s, _addr s)).
    { subst x. rewrite getData_settings.
      destruct (setGain_spec h src g (snd (getData h src (ready h src s))))
        as [Hset _].
      rewrite Hset.
      pose proof (getData_settings h src (ready h src s)) as Hfirst.
      unfold settings in *. congruence. }
    destruct (getData_last_events x) as [earlier Hlog].
    exists earlier. rewrite Hlog. unfold settings in Hx.
    replace (_allowSleep x) with (_allowSleep s) by congruence.
    replace (_addr x) with (_addr s) by congruence.
    reflexivity.
Qed.

(** *** The readings *)

Lemma getData_range (s : Sensor) :
  0 <= fst (fst (getData h src s)) < 2 ^ 16 /\
  0 <= snd (fst (getData h src s)) < 2 ^ 16.
Proof.
  destruct_sensor s. destruct sleep; run; split; apply word_range.
Qed.

(** X11.  Whatever the bus delivers, the two values [getLuminosity]
    returns are 16-bit values: they can be handed to [calculateLux] as they
    are. *)
Theorem getLuminosity_reading_range (fuel : nat) (s : Sensor) :
  (2 <= fuel)%nat ->
  exists broadband ir : Z,
    fst (getLuminosity h src fuel s) = Some (broadband, ir) /\
    0 <= broadband < 2 ^ 16 /\ 0 <= ir < 2 ^ 16.
Proof.
  intros Hfuel.
  destruct (getLuminosity_ends fuel s Hfuel) as [-> | (g & _ & ->)];
    unfold accept; cbn [fst].
  - destruct (getData_range (ready h src s)) as [Hb Hir].
    destruct (fst (getData h src (ready h src s))) as [broadband ir].
    exists broadband, ir. auto.
  - destruct (getData_range
                (snd (getData h src
                   (snd (setGain h src g
                           (snd (getData h src (ready h src s))))))))
      as [Hb Hir].
    unfold reading_after_adjustment. cbv zeta.
    destruct (fst (getData h src _)) as [broadband ir].
    exists broadband, ir. auto.
Qed.

(** *** What [begin] reports *)

(** X12.  [begin] returns true only if it leaves the object initialised,
    and on an object not yet initialised it returns exactly the flag it
    leaves.  When it returns false it has done nothing but call
    [Wire.begin()] and read the identity register: no register is written
    and no field changes, so an object that was initialised stays marked
    as such. *)
Theorem begin_reports (s : Sensor) :
  let r := begin h src s in
  (fst r = true -> _tsl2561Initialised (snd r) = true) /\
  (_tsl2561Initialised s = false ->
   fst r = _tsl2561Initialised (snd r)) /\
  (fst r = false ->
   config (snd r) = config s /\
   tx (_i2c (snd r))
   = [RequestFrom (_addr s) 1; EndTransmission;
      WireWrite (to_uint8 (TSL2561_REGISTER_ID h));
      BeginTransmission (_addr s); WireBegin] ++ tx (_i2c s)).
Proof.
  destruct_sensor s. cbv zeta.
  destruct initialised, sleep; run; destruct (probe_fails src _);
    repeat split; intros; try reflexivity; try discriminate.
Qed.

End Invariants.

Lemma protocol_is_kept_witness :
  protocol_kept 0 dim_room /\
  protocol_kept 0
    (snd (getLuminosity published_header Adafruit_TSL2561_U_cpp 2
            dim_room)).
Proof.
  assert (H : protocol_kept 0 dim_room) by (split; reflexivity).
  split; [exact H | ].
  destruct (protocol_is_kept published_header Adafruit_TSL2561_U_cpp
              published_interrupt_header PACKAGE_T_FN_CL sample_library
              0 dim_room H) as (_ & _ & _ & Hloop & _).
  apply Hloop. lia.
Defined.

Lemma initialised_once_witness :
  _tsl2561Initialised started = true /\
  initialised_after 1
    (snd (getLuminosity published_header Adafruit_TSL2561_U_cpp 2
            started)).
Proof.
  split; [reflexivity | ].
  destruct (initialised_once published_header Adafruit_TSL2561_U_cpp
              published_interrupt_header PACKAGE_T_FN_CL sample_library
              started eq_refl) as (_ & _ & _ & Hloop & _).
  apply (Hloop 2%nat). lia.
Defined.

Lemma getLuminosity_keeps_configuration_witness :
  (2 <= 2)%nat /\
  _tsl2561IntegrationTime
    (snd (getLuminosity published_header Adafruit_TSL2561_U_cpp 2
            dim_room))
  = INTEGRATIONTIME_13MS.
Proof.
  split; [lia | ].
  pose proof (getLuminosity_keeps_configuration published_header
                Adafruit_TSL2561_U_cpp 2 dim_room (le_n 2)) as H.
  cbv zeta in H. destruct H as (_ & Htime & _). exact Htime.
Defined.

Lemma getLuminosity_last_events_witness :
  (2 <= 2)%nat /\
  exists earlier : list WireEvent,
    tx (_i2c (snd (getLuminosity published_header Adafruit_TSL2561_U_cpp
                     2 dim_room)))
    = disable_events published_header 0x39
      ++ RequestFrom 0x39 2 :: earlier.
Proof.
  split; [lia | ].
  exact (getLuminosity_last_events published_header Adafruit_TSL2561_U_cpp
           2 dim_room (le_n 2)).
Defined.

Lemma getLuminosity_reading_range_witness :
  (2 <= 2)%nat /\
  exists broadband ir : Z,
    fst (getLuminosity published_header Adafruit_TSL2561_U_cpp 2 dim_room)
    = Some (broadband, ir) /\
    0 <= broadband < 2 ^ 16 /\ 0 <= ir < 2 ^ 16.
Proof.
  split; [lia | ].
  exact (getLuminosity_reading_range published_header
           Adafruit_TSL2561_U_cpp 2 dim_room (le_n 2)).
Defined.

Lemma begin_reports_witness :
  fst (begin published_header Adafruit_TSL2561_U_cpp wrong_device) = false /\
  config (snd (begin published_header Adafruit_TSL2561_U_cpp wrong_device))
  = config wrong_device.
Proof.
  split; [reflexivity | ].
  pose proof (begin_reports published_header Adafruit_TSL2561_U_cpp
                wrong_device) as H.
  cbv zeta in H. destruct H as (_ & _ & Hfail).
  apply Hfail. reflexivity.
Defined.

(** *** When the subtraction of the lux formula is exact *)

Section LuxFacts.

Variable h : Header.

(** The rounded ratio, for a channel 0 other than 0. *)
Lemma lux_ratio_value (channel0 channel1 : Z) :
  0 <= TSL2561_LUX_RATIOSCALE h ->
  0 < channel0 ->
  0 <= channel1 ->
  channel1 * 2 ^ (TSL2561_LUX_RATIOSCALE h + 1) < 2 ^ 32 ->
  lux_ratio h channel0 channel1
  = (channel1 * 2 ^ (TSL2561_LUX_RATIOSCALE h + 1) / channel0 + 1) / 2.
Proof.
  intros Hscale H0 H1 Hfit. unfold lux_ratio, to_ulong, wrap. cbv zeta.
  destruct (Z.eqb_spec channel0 0) as [|_]; [lia | ]. cbn [negb].
  rewrite Z.shiftl_mul_pow2 by lia.
  assert (Hpow : 2 ^ (TSL2561_LUX_RATIOSCALE h + 1)
                 = 2 * 2 ^ TSL2561_LUX_RATIOSCALE h)
    by (rewrite Z.pow_add_r by lia; lia).
  assert (Hpos : 0 < 2 ^ TSL2561_LUX_RATIOSCALE h)
    by (apply Z.pow_pos_nonneg; lia).
  set (shifted := channel1 * 2 ^ (TSL2561_LUX_RATIOSCALE h + 1)) in *.
  assert (Hshifted : 0 <= shifted <= 2 ^ 32 - 2).
  { subst shifted. rewrite Hpow in *.
    change (2 ^ 32) with 4294967296 in *. nia. }
  rewrite (Z.mod_small shifted) by lia.
  assert (Hq : 0 <= shifted / channel0 <= shifted).
  { split; [apply Z.div_pos; lia | ].
    apply Z.div_le_upper_bound; nia. }
  rewrite Z.mod_small by lia.
  rewrite Z.shiftr_div_pow2 by lia. reflexivity.
Qed.

(** A ratio at or below a breakpoint [k] bounds channel 1 by channel 0. *)
Lemma ratio_below_breakpoint (channel0 channel1 k : Z) :
  0 <= TSL2561_LUX_RATIOSCALE h ->
  0 < channel0 ->
  0 <= channel1 ->
  channel1 * 2 ^ (TSL2561_LUX_RATIOSCALE h + 1) < 2 ^ 32 ->
  lux_ratio h channel0 channel1 <= k ->
  channel1 * 2 ^ (TSL2561_LUX_RATIOSCALE h + 1) < (2 * k + 1) * channel0.
Proof.
  intros Hscale H0 H1 Hfit. rewrite lux_ratio_value by assumption.
  generalize (channel1 * 2 ^ (TSL2561_LUX_RATIOSCALE h + 1)).
  intros shifted Hk.
  assert (Hq : shifted / channel0 <= 2 * k)
    by (revert Hk; Z.div_mod_to_equations; lia).
  assert (Hlt : shifted / channel0 < 2 * k + 1) by lia.
  pose proof (Z.mul_div_le shifted channel0 H0).
  pose proof (Z.mod_pos_bound shifted channel0 H0).
  pose proof (Z.div_mod shifted channel0). nia.
Qed.

(** Where the line of a bracket is not negative at the upper end of the
    bracket, it is not negative at the reading. *)
Lemma line_not_negative (scale channel0 channel1 k b m : Z) :
  0 < scale -> 0 <= m -> 0 < channel0 ->
  channel1 * scale < (2 * k + 1) * channel0 ->
  (2 * k + 1) * m <= scale * b ->
  channel1 * m <= channel0 * b.
Proof.
  intros Hscale Hm H0 Hratio Hslope.
  apply (Z.mul_le_mono_pos_l _ _ scale); [assumption | ].
  transitivity ((2 * k + 1) * channel0 * m); [nia | ].
  transitivity (channel0 * ((2 * k + 1) * m)); [lia | ].
  transitivity (channel0 * (scale * b)); [ | lia ].
  apply Z.mul_le_mono_nonneg_l; lia.
Qed.

(** The coefficients the scan selects, on a table whose lines are not
    negative over their brackets, for a channel 0 other than 0. *)
Lemma selected_line_not_negative (t : LuxTable)
    (channel0 channel1 b m : Z) :
  0 <= TSL2561_LUX_RATIOSCALE h ->
  table_ok t = true ->
  slopes_ok (TSL2561_LUX_RATIOSCALE h) t = true ->
  0 < channel0 ->
  0 <= channel1 ->
  channel1 * 2 ^ (TSL2561_LUX_RATIOSCALE h + 1) < 2 ^ 32 ->
  select_coefficients t (lux_ratio h channel0 channel1) = Some (b, m) ->
  0 <= b < 2 ^ 16 /\ 0 <= m < 2 ^ 16 /\ channel1 * m <= channel0 * b.
Proof.
  intros Hscale Hok Hslopes H0 H1 Hfit.
  pose proof (fun k => ratio_below_breakpoint channel0 channel1 k
                         Hscale H0 H1 Hfit) as Hbelow.
  assert (Hpow : 0 < 2 ^ (TSL2561_LUX_RATIOSCALE h + 1))
    by (apply Z.pow_pos_nonneg; lia).
  unfold slopes_ok in Hslopes.
  remember (2 ^ (TSL2561_LUX_RATIOSCALE h + 1)) as scale eqn:Escale.
  clear Escale. revert Hbelow.
  generalize (lux_ratio h channel0 channel1). intros ratio Hbelow.
  unfold table_ok in Hok.
  cbn [forallb] in Hok, Hslopes. bool_facts.
  unfold select_coefficients, to_ulong, to_uint, wrap.
  rewrite !Z.mod_small by lia.
  assert (Hline : forall k b m,
            0 <= m -> ratio <= k -> (2 * k + 1) * m <= scale * b ->
            channel1 * m <= channel0 * b).
  { intros k b' m' Hm Hk Hslope.
    apply (line_not_negative scale channel0 channel1 k); auto. }
  destruct (Z.leb_spec 0 ratio); cbn [andb];
    [ destruct (Z.leb_spec ratio (K1 t)) | ].
  { intros [= <- <-]. repeat split; try lia. apply (Hline (K1 t)); lia. }
  all: destruct (Z.leb_spec ratio (K2 t));
    [ intros [= <- <-]; repeat split; try lia;
      apply (Hline (K2 t)); lia | ].
  all: destruct (Z.leb_spec ratio (K3 t));
    [ intros [= <- <-]; repeat split; try lia;
      apply (Hline (K3 t)); lia | ].
  all: destruct (Z.leb_spec ratio (K4 t));
    [ intros [= <- <-]; repeat split; try lia;
      apply (Hline (K4 t)); lia | ].
  all: destruct (Z.leb_spec ratio (K5 t));
    [ intros [= <- <-]; repeat split; try lia;
      apply (Hline (K5 t)); lia | ].
  all: destruct (Z.leb_spec ratio (K6 t));
    [ intros [= <- <-]; repeat split; try lia;
      apply (Hline (K6 t)); lia | ].
  all: destruct (Z.leb_spec ratio (K7 t));
    [ intros [= <- <-]; repeat split; try lia;
      apply (Hline (K7 t)); lia | ].
  all: destruct (Z.ltb_spec (K8 t) ratio); [ | discriminate ].
  all: intros [= <- <-]; repeat split; try lia.
  all: replace (M8 t) with 0 by lia; nia.
Qed.

(** The subtraction in [unsigned long], where it does not go negative. *)
Lemma lux_temp_exact (channel0 channel1 b m : Z) :
  0 <= channel1 * m <= channel0 * b ->
  channel0 * b < 2 ^ 32 ->
  lux_temp channel0 channel1 b m = channel0 * b - channel1 * m.
Proof.
  intros Hle Hfit. unfold lux_temp, to_ulong, wrap.
  rewrite (Z.mod_small (channel0 * b)) by lia.
  rewrite (Z.mod_small (channel1 * m)) by lia.
  apply Z.mod_small. lia.
Qed.

Lemma scale_channel_nonneg (scale raw : Z) :
  0 <= TSL2561_LUX_CHSCALE h -> 0 <= scale_channel h scale raw.
Proof.
  intros Hscale. unfold scale_channel, to_ulong, wrap.
  apply Z.shiftr_nonneg, Z.mod_pos_bound. lia.
Qed.

(** X13.  On a table each of whose lines is not negative at the upper end
    of its own bracket, and for a reading that is not saturated and whose
    scaled channel 0 is not 0, the subtraction of [calculateLux] does not
    go below 0: the value rounded and returned is that of
    [channel0 * b - channel1 * m] itself. *)
Theorem calculateLux_subtraction_exact (package : Package) (s : Sensor)
    (broadband ir b m : Z) :
  let t := lux_table h package in
  let scale := chScale h (_tsl2561IntegrationTime s) (_tsl2561Gain s) in
  let channel0 := scale_channel h scale broadband in
  let channel1 := scale_channel h scale ir in
  0 <= TSL2561_LUX_RATIOSCALE h ->
  0 <= TSL2561_LUX_CHSCALE h ->
  table_ok t = true ->
  slopes_ok (TSL2561_LUX_RATIOSCALE h) t = true ->
  broadband <= clipThreshold h (_tsl2561IntegrationTime s) ->
  ir <= clipThreshold h (_tsl2561IntegrationTime s) ->
  0 < channel0 ->
  channel1 * 2 ^ (TSL2561_LUX_RATIOSCALE h + 1) < 2 ^ 32 ->
  select_coefficients t (lux_ratio h channel0 channel1) = Some (b, m) ->
  channel0 * b < 2 ^ 32 ->
  channel1 * m <= channel0 * b /\
  calculateLux h package s broadband ir
  = Some (lux_round h (channel0 * b - channel1 * m)).
Proof.
  intros t scale channel0 channel1 Hratio Hch Hok Hslopes Hb Hir H0 Hfit
         Hselect Hproduct.
  assert (H1 : 0 <= channel1) by now apply scale_channel_nonneg.
  destruct (selected_line_not_negative t channel0 channel1 b m)
    as (Hbr & Hmr & Hline); try assumption.
  split; [exact Hline | ].
  unfold calculateLux. cbv zeta.
  destruct (Z.ltb_spec (clipThreshold h (_tsl2561IntegrationTime s))
              broadband); [lia | ].
  destruct (Z.ltb_spec (clipThreshold h (_tsl2561IntegrationTime s)) ir);
    [lia | ].
  cbn [orb]. fold scale. fold channel0. fold channel1. fold t.
  rewrite Hselect, lux_temp_exact; [reflexivity | | assumption].
  split; [ | assumption]. apply Z.mul_nonneg_nonneg; lia.
Qed.

(** The rounding and the final shift, on a value that is not negative
    and leaves room for the rounding bias. *)
Lemma lux_round_exact (temp : Z) :
  1 <= TSL2561_LUX_LUXSCALE h ->
  0 <= temp ->
  temp + 2 ^ (TSL2561_LUX_LUXSCALE h - 1) < 2 ^ 32 ->
  lux_round h temp
  = (temp + 2 ^ (TSL2561_LUX_LUXSCALE h - 1))
    / 2 ^ TSL2561_LUX_LUXSCALE h.
Proof.
  intros Hscale Htemp Hfit. unfold lux_round, to_ulong, to_uint32, wrap.
  cbv zeta. destruct (Z.ltb_spec temp 0); [lia | ].
  rewrite Z.shiftl_mul_pow2, Z.mul_1_l by lia.
  assert (Hbias : 0 < 2 ^ (TSL2561_LUX_LUXSCALE h - 1))
    by (apply Z.pow_pos_nonneg; lia).
  assert (Hpow : 0 < 2 ^ TSL2561_LUX_LUXSCALE h)
    by (apply Z.pow_pos_nonneg; lia).
  rewrite (Z.mod_small (temp + _)) by lia.
  rewrite Z.shiftr_div_pow2 by lia.
  apply Z.mod_small. split; [apply Z.div_pos; lia | ].
  apply Z.div_lt_upper_bound; nia.
Qed.

Lemma lux_ratio_nonneg (channel0 channel1 : Z) :
  0 <= lux_ratio h channel0 channel1.
Proof.
  unfold lux_ratio, to_ulong, wrap. cbv zeta.
  apply Z.shiftr_nonneg, Z.mod_pos_bound. lia.
Qed.

End LuxFacts.

(** The lines of the published T, FN and CL table are not negative over
    their brackets; the seventh line of the CS table is. *)
Lemma published_slopes :
  slopes_ok (TSL2561_LUX_RATIOSCALE published_header) published_T = true /\
  slopes_ok (TSL2561_LUX_RATIOSCALE published_header) published_CS = false /\
  (2 * K7 published_CS + 1) * M7 published_CS
  > 2 ^ (TSL2561_LUX_RATIOSCALE published_header + 1) * B7 published_CS.
Proof. repeat split. Qed.

Lemma calculateLux_subtraction_exact_witness :
  0 < scale_channel published_header
        (chScale published_header INTEGRATIONTIME_402MS GAIN_16X) 1000 /\
  select_coefficients published_T
    (lux_ratio published_header 1000 200) = Some (0x0214, 0x02d1) /\
  200 * 0x02d1 <= 1000 * 0x0214 /\
  calculateLux published_header PACKAGE_T_FN_CL unscaled 1000 200
  = Some (lux_round published_header (1000 * 0x0214 - 200 * 0x02d1)).
Proof.
  split; [reflexivity | ]. split; [reflexivity | ].
  apply (calculateLux_subtraction_exact published_header PACKAGE_T_FN_CL
           unscaled 1000 200 0x0214 0x02d1);
    try reflexivity; vm_compute; discriminate.
Defined.

(** *** The published tables *)

(** On a table that is in order, the scan assigns [b] and [m] for every
    ratio from 0 upward. *)
Lemma select_coefficients_total (t : LuxTable) (ratio : Z) :
  table_ok t = true ->
  0 <= ratio ->
  exists b m : Z, select_coefficients t ratio = Some (b, m).
Proof.
  intros Hok Hratio. unfold table_ok in Hok. cbn [forallb] in Hok.
  bool_facts.
  unfold select_coefficients, to_ulong, to_uint, wrap.
  rewrite !Z.mod_small by lia.
  repeat match goal with
         | |- context [if ?c then _ else _] =>
             destruct c eqn:?; [eexists; eexists; reflexivity | ]
         end.
  rewrite Bool.andb_false_iff, !Z.leb_gt, Z.ltb_ge in *. lia.
Qed.

(** No intercept of the published T, FN and CL table is above 624. *)
Lemma published_T_intercepts (ratio b m : Z) :
  select_coefficients published_T ratio = Some (b, m) -> 0 <= b <= 624.
Proof.
  unfold select_coefficients.
  repeat match goal with
         | |- context [if ?c then _ else _] => destruct c
         end;
    intros [= <- _] || discriminate; vm_compute; split; discriminate.
Qed.

(** X14.  With the published constants and the table of the T, FN and CL
    packages, the subtraction of [calculateLux] goes below 0 on no reading
    that is not saturated and whose scaled channel 0 is not 0, at any
    integration time and gain: there the value returned is
    [(channel0 * b - channel1 * m + 2 ^ 13) / 2 ^ 14]. *)
Theorem published_T_subtraction_exact (s : Sensor) (broadband ir : Z) :
  let scale :=
    chScale published_header (_tsl2561IntegrationTime s) (_tsl2561Gain s) in
  let channel0 := scale_channel published_header scale broadband in
  let channel1 := scale_channel published_header scale ir in
  0 <= broadband <= clipThreshold published_header
                      (_tsl2561IntegrationTime s) ->
  0 <= ir <= clipThreshold published_header (_tsl2561IntegrationTime s) ->
  0 < channel0 ->
  exists b m : Z,
    select_coefficients published_T
      (lux_ratio published_header channel0 channel1) = Some (b, m) /\
    channel1 * m <= channel0 * b /\
    calculateLux published_header PACKAGE_T_FN_CL s broadband ir
    = Some ((channel0 * b - channel1 * m + 2 ^ 13) / 2 ^ 14).
Proof.
  intros scale channel0 channel1 Hb Hir H0.
  destruct (published_channels_fit (_tsl2561IntegrationTime s)
              (_tsl2561Gain s) broadband Hb) as [_ Hfit0].
  destruct (published_channels_fit (_tsl2561IntegrationTime s)
              (_tsl2561Gain s) ir Hir) as [H1 Hfit1].
  cbv zeta in Hfit0, Hfit1, H1.
  fold scale in Hfit0, Hfit1, H1.
  fold channel0 in Hfit0. fold channel1 in Hfit1, H1.
  destruct (select_coefficients_total published_T
              (lux_ratio published_header channel0 channel1))
    as (b & m & Hselect);
    [reflexivity | apply lux_ratio_nonneg | ].
  exists b, m. split; [exact Hselect | ].
  pose proof (published_T_intercepts _ _ _ Hselect) as Hintercept.
  destruct (selected_line_not_negative published_header published_T
              channel0 channel1 b m) as (_ & Hm & Hline);
    try assumption; try reflexivity; [discriminate | ].
  split; [exact Hline | ].
  change (TSL2561_LUX_RATIOSCALE published_header + 1) with 10 in *.
  change (2 ^ 10) with 1024 in *. change (2 ^ 32) with 4294967296 in *.
  assert (Hproduct : 0 <= channel1 * m <= channel0 * b)
    by (split; [apply Z.mul_nonneg_nonneg; lia | exact Hline]).
  assert (Hfit : channel0 * b < 4294967296 - 8192) by nia.
  unfold calculateLux. cbv zeta.
  destruct (Z.ltb_spec (clipThreshold published_header
                          (_tsl2561IntegrationTime s)) broadband);
    [lia | ].
  destruct (Z.ltb_spec (clipThreshold published_header
                          (_tsl2561IntegrationTime s)) ir); [lia | ].
  cbn [orb]. fold scale. fold channel0. fold channel1.
  change (lux_table published_header PACKAGE_T_FN_CL) with published_T.
  rewrite Hselect, lux_temp_exact by (change (2 ^ 32) with 4294967296; lia).
  rewrite lux_round_exact; [reflexivity | discriminate | lia | ].
  change (2 ^ (TSL2561_LUX_LUXSCALE published_header - 1)) with 8192.
  change (2 ^ 32) with 4294967296. lia.
Qed.

Lemma published_T_subtraction_exact_witness :
  calculateLux published_header PACKAGE_T_FN_CL dim_room 800 5
  = Some ((374687 * 498 - 2341 * 446 + 2 ^ 13) / 2 ^ 14).
Proof.
  destruct (published_T_subtraction_exact dim_room 800 5)
    as (b & m & Hselect & _ & Hlux);
    [vm_compute; split; discriminate .. | reflexivity | ].
  vm_compute in Hselect. injection Hselect as <- <-.
  rewrite Hlux. reflexivity.
Defined.

(** With the table of the CS package the subtraction does go below 0 in
    the seventh bracket: a reading of 20000 and 25800 at 402 ms and gain
    16x is not saturated, has the ratio 660 of the seventh bracket, and
    comes back as a value above the sentinel of saturation. *)
Lemma published_CS_wraps_in_light :
  lux_ratio published_header 20000 25800 = 660 /\
  select_coefficients published_CS 660 = Some (55, 43) /\
  20000 * 55 < 25800 * 43 /\
  exists lux : Z,
    calculateLux published_header PACKAGE_CS unscaled 20000 25800
    = Some lux /\
    65536 < lux.
Proof.
  split; [reflexivity | ]. split; [reflexivity | ]. split; [reflexivity | ].
  eexists. split; reflexivity.
Qed.

(** *** Whole numbers as [float] *)

Lemma digits2_pos_low (m : positive) :
  2 ^ (Z.pos (digits2_pos m) - 1) <= Z.pos m.
Proof.
  induction m as [m IH | m IH | ]; cbn [digits2_pos].
  - rewrite Pos2Z.inj_succ.
    replace (Z.succ (Z.pos (digits2_pos m)) - 1)
      with (Z.succ (Z.pos (digits2_pos m) - 1)) by lia.
    rewrite Z.pow_succ_r by lia. lia.
  - rewrite Pos2Z.inj_succ.
    replace (Z.succ (Z.pos (digits2_pos m)) - 1)
      with (Z.succ (Z.pos (digits2_pos m) - 1)) by lia.
    rewrite Z.pow_succ_r by lia. lia.
  - reflexivity.
Qed.

Lemma digits2_pos_iter (k m : positive) :
  digits2_pos (Pos.iter xO m k) = (digits2_pos m + k)%positive.
Proof.
  induction k as [|k IH] using Pos.peano_ind.
  - cbn. lia.
  - rewrite Pos.iter_succ. cbn [digits2_pos]. rewrite IH. lia.
Qed.

Lemma value_iter (k m : positive) :
  Z.pos (Pos.iter xO m k) = Z.pos m * 2 ^ Z.pos k.
Proof.
  induction k as [|k IH] using Pos.peano_ind.
  - cbn. lia.
  - rewrite Pos.iter_succ, Pos2Z.inj_succ, Z.pow_succ_r by lia.
    rewrite Pos2Z.inj_xO, IH. lia.
Qed.

(** A mantissa of 24 digits with an exponent in range is rounded to
    itself. *)
Lemma binary_round_aux_exact (m : positive) (e : Z) :
  digits2_pos m = 24%positive ->
  -149 <= e <= 104 ->
  binary_round_aux 24 128 false (Z.pos m) e loc_Exact
  = S754_finite false m e.
Proof.
  intros Hd He. unfold binary_round_aux, shr_fexp.
  cbn [Zdigits2]. rewrite Hd.
  replace (fexp 24 128 (24 + e) - e) with 0
    by (unfold fexp, emin; lia).
  cbn [shr shr_record_of_loc shr_m loc_of_shr_record round_nearest_even
       Zdigits2].
  rewrite Hd.
  replace (fexp 24 128 (24 + e) - e) with 0
    by (unfold fexp, emin; lia).
  cbn [shr shr_record_of_loc shr_m].
  replace (e <=? 128 - 24) with true; [reflexivity | ].
  symmetry. apply Z.leb_le. lia.
Qed.

(** A whole number below [2 ^ 24] is a [float]: the conversion keeps its
    value. *)
Lemma float_of_ulong_exact (p : positive) :
  Z.pos p < 2 ^ 24 ->
  exists (m : positive) (k : Z),
    0 <= k <= 23 /\
    float_of_ulong (Z.pos p) = S754_finite false m (- k) /\
    Z.pos m = Z.pos p * 2 ^ k.
Proof.
  intros Hp.
  pose proof (digits2_pos_low p) as Hlow.
  assert (Hd : Z.pos (digits2_pos p) <= 24).
  { destruct (Z.le_gt_cases (Z.pos (digits2_pos p)) 24) as [|Hgt]; auto.
    assert (2 ^ 24 <= 2 ^ (Z.pos (digits2_pos p) - 1))
      by (apply Z.pow_le_mono_r; lia).
    lia. }
  unfold float_of_ulong, binary_normalize, binary_round, shl_align.
  replace (fexp 24 128 (Z.pos (digits2_pos p) + 0) - 0)
    with (Z.pos (digits2_pos p) - 24) by (unfold fexp, emin; lia).
  destruct (Z.pos (digits2_pos p) - 24) as [|q|q] eqn:Hq; try lia.
  - exists p, 0. split; [lia | ]. split; [ | cbn; lia].
    replace (fexp 24 128 (Z.pos (digits2_pos p) + 0)) with 0
      by (unfold fexp, emin; lia).
    apply (binary_round_aux_exact p 0); lia.
  - exists (Pos.iter xO p q), (Z.pos q).
    split; [lia | ]. split; [ | apply value_iter].
    replace (fexp 24 128 (Z.pos (digits2_pos p) + 0)) with (- Z.pos q)
      by (unfold fexp, emin; lia).
    apply binary_round_aux_exact; [ | lia].
    rewrite digits2_pos_iter. lia.
Qed.

(** The test [event->light == 65536] succeeds on the [float] of 65536
    only. *)
Lemma feq_65536 (lux : Z) :
  0 <= lux < 2 ^ 24 ->
  feq (float_of_ulong lux) (float_of_ulong 65536) = (lux =? 65536).
Proof.
  intros Hlux. destruct (Z.eqb_spec lux 65536) as [-> | Hne];
    [reflexivity | ].
  destruct lux as [|p|p]; [reflexivity | | lia].
  destruct (float_of_ulong_exact p) as (m & k & Hk & -> & Hm); [lia | ].
  change (float_of_ulong 65536) with (S754_finite false 8388608 (-7)).
  unfold feq, fcompare, exponent_of, scaled_value. cbv zeta.
  destruct (Z.compare_spec
              (Z.pos m * 2 ^ (- k - Z.min (- k) (-7)))
              (Z.pos 8388608 * 2 ^ (-7 - Z.min (- k) (-7))))
    as [Heq | |]; try reflexivity.
  exfalso. apply Hne. rewrite Hm in Heq. clear Hm m. revert Heq.
  assert (Hcases : k = 0 \/ k = 1 \/ k = 2 \/ k = 3 \/ k = 4 \/ k = 5 \/
                   k = 6 \/ k = 7 \/ k = 8 \/ k = 9 \/ k = 10 \/ k = 11 \/
                   k = 12 \/ k = 13 \/ k = 14 \/ k = 15 \/ k = 16 \/
                   k = 17 \/ k = 18 \/ k = 19 \/ k = 20 \/ k = 21 \/
                   k = 22 \/ k = 23) by lia.
  repeat destruct Hcases as [-> | Hcases]; try subst k;
    repeat match goal with
           | |- context [2 ^ ?x] =>
               let v := eval vm_compute in (2 ^ x) in
               progress change (2 ^ x) with v
           end; lia.
Qed.

(** The test [if (event.light)] fails on the [float] of 0 only. *)
Lemma is_nonzero_float_of_ulong (lux : Z) :
  0 <= lux < 2 ^ 24 ->
  is_nonzero (float_of_ulong lux) = negb (lux =? 0).
Proof.
  intros Hlux. destruct lux as [|p|p]; [reflexivity | | lia].
  destruct (float_of_ulong_exact p) as (m & k & _ & -> & _); [lia | ].
  reflexivity.
Qed.

(** *** Events *)

Section EventFacts.

Variable h : Header.
Variable src : SourceFile.
Variable package : Package.
Variable lib : SensorLibrary.

(** What [calculateLux] returns fits the 24 digits of a [float]. *)
Lemma calculateLux_range (s : Sensor) (broadband ir : Z) :
  table_ok (lux_table h package) = true ->
  8 <= TSL2561_LUX_LUXSCALE h ->
  exists lux : Z,
    calculateLux h package s broadband ir = Some lux /\
    0 <= lux < 2 ^ 24 /\
    (clipThreshold h (_tsl2561IntegrationTime s) < broadband \/
     clipThreshold h (_tsl2561IntegrationTime s) < ir -> lux = 65536).
Proof.
  intros Hok Hscale. unfold calculateLux. cbv zeta.
  destruct (Z.ltb_spec (clipThreshold h (_tsl2561IntegrationTime s))
              broadband).
  { exists 65536. cbn [orb]. repeat split; auto; lia. }
  destruct (Z.ltb_spec (clipThreshold h (_tsl2561IntegrationTime s)) ir).
  { exists 65536. cbn [orb]. repeat split; auto; lia. }
  cbn [orb].
  match goal with
  | |- context [select_coefficients ?t ?r] =>
      destruct (select_coefficients_total t r) as (b & m & ->);
        [exact Hok | apply lux_ratio_nonneg | ]
  end.
  eexists. split; [reflexivity | ]. split; [ | lia].
  unfold lux_round, to_uint32, wrap. cbv zeta.
  match goal with
  | |- context [Z.shiftr (to_ulong ?x) _] =>
      pose proof (Z.mod_pos_bound x (2 ^ 32) eq_refl) as Hx;
      unfold to_ulong, wrap; generalize dependent (x mod 2 ^ 32)
  end.
  intros y Hy. rewrite Z.shiftr_div_pow2 by lia.
  assert (Hpow : 2 ^ 8 <= 2 ^ TSL2561_LUX_LUXSCALE h)
    by (apply Z.pow_le_mono_r; lia).
  change (2 ^ 8) with 256 in Hpow. change (2 ^ 32) with 4294967296 in *.
  change (2 ^ 24) with 16777216.
  assert (Hq : 0 <= y / 2 ^ TSL2561_LUX_LUXSCALE h < 16777216).
  { split; [apply Z.div_pos; lia | ].
    apply Z.div_lt_upper_bound; nia. }
  rewrite Z.mod_small by lia. exact Hq.
Qed.

(** [getEvent], from [getLuminosity] and [calculateLux]. *)
Lemma getEvent_unfold (fuel : nat) (now : Z) (s : Sensor) :
  fst (getEvent h src package lib fuel now s)
  = match fst (getLuminosity h src fuel s) with
    | None => None
    | Some (broadband, ir) =>
        match calculateLux h package (snd (getLuminosity h src fuel s))
                broadband ir with
        | None => None
        | Some lux =>
            Some (negb (feq (float_of_ulong lux) (float_of_ulong 65536)),
                  {| version := to_int32 (sizeof_sensors_event_t lib);
                     sensor_id := to_int32 (_tsl2561SensorID s);
                     type := to_int32 (SENSOR_TYPE_LIGHT lib);
                     timestamp := to_int32 now;
                     light := float_of_ulong lux |})
        end
    end.
Proof.
  unfold getEvent. generalize (getLuminosity h src fuel).
  intros run. step. step. unfold this. step.
  destruct (fst (run s)) as [[broadband ir] | ]; [ | reflexivity ].
  destruct (calculateLux h package (snd (run s)) broadband ir);
    reflexivity.
Qed.

Lemma getLuminosity_returns (fuel : nat) (s : Sensor) :
  (2 <= fuel)%nat ->
  exists reading : Z * Z, fst (getLuminosity h src fuel s) = Some reading.
Proof.
  intros Hfuel.
  destruct (getLuminosity_ends h src fuel s Hfuel) as [-> | (g & _ & ->)];
    eexists; reflexivity.
Qed.

(** [getEvent] returns, with the value of [calculateLux] on the reading
    of [getLuminosity]. *)
Lemma getEvent_value (fuel : nat) (now : Z) (s : Sensor) :
  (2 <= fuel)%nat ->
  table_ok (lux_table h package) = true ->
  8 <= TSL2561_LUX_LUXSCALE h ->
  let s' := snd (getLuminosity h src fuel s) in
  exists broadband ir lux : Z,
    fst (getLuminosity h src fuel s) = Some (broadband, ir) /\
    calculateLux h package s' broadband ir = Some lux /\
    0 <= lux < 2 ^ 24 /\
    (clipThreshold h (_tsl2561IntegrationTime s') < broadband \/
     clipThreshold h (_tsl2561IntegrationTime s') < ir -> lux = 65536) /\
    getEvent h src package lib fuel now s
    = (Some (negb (lux =? 65536),
             {| version := to_int32 (sizeof_sensors_event_t lib);
                sensor_id := to_int32 (_tsl2561SensorID s);
                type := to_int32 (SENSOR_TYPE_LIGHT lib);
                timestamp := to_int32 now;
                light := float_of_ulong lux |}), s').
Proof.
  intros Hfuel Hok Hscale s'.
  destruct (getLuminosity_returns fuel s Hfuel) as [[broadband ir] Hrun].
  destruct (calculateLux_range s' broadband ir Hok Hscale)
    as (lux & Hlux & Hrange & Hsat).
  exists broadband, ir, lux.
  split; [exact Hrun | ]. split; [exact Hlux | ].
  split; [exact Hrange | ]. split; [exact Hsat | ].
  rewrite (surjective_pairing (getEvent h src package lib fuel now s)).
  rewrite getEvent_state, getEvent_unfold, Hrun. fold s'.
  rewrite Hlux, feq_65536 by exact Hrange. reflexivity.
Qed.

(** X15.  [getEvent] returns, and what it returns is decided by the value
    of [calculateLux] on the reading of [getLuminosity], under the
    settings [getLuminosity] has left: the event carries that value as a
    [float] with nothing rounded away, the result is false exactly when
    the value is 65536, as it is on every saturated reading, and true
    for every other value, those above 65536 included. *)
Theorem getEvent_reports_saturation (fuel : nat) (now : Z) (s : Sensor) :
  (2 <= fuel)%nat ->
  table_ok (lux_table h package) = true ->
  8 <= TSL2561_LUX_LUXSCALE h ->
  let s' := snd (getLuminosity h src fuel s) in
  exists (broadband ir lux : Z) (event : sensors_event_t),
    fst (getLuminosity h src fuel s) = Some (broadband, ir) /\
    calculateLux h package s' broadband ir = Some lux /\
    (clipThreshold h (_tsl2561IntegrationTime s') < broadband \/
     clipThreshold h (_tsl2561IntegrationTime s') < ir -> lux = 65536) /\
    getEvent h src package lib fuel now s
    = (Some (negb (lux =? 65536), event), s') /\
    light event = float_of_ulong lux /\
    is_nonzero (light event) = negb (lux =? 0) /\
    sensor_id event = to_int32 (_tsl2561SensorID s).
Proof.
  intros Hfuel Hok Hscale s'.
  destruct (getEvent_value fuel now s Hfuel Hok Hscale)
    as (broadband & ir & lux & Hrun & Hlux & Hrange & Hsat & Hevent).
  exists broadband, ir, lux. eexists.
  split; [exact Hrun | ]. split; [exact Hlux | ]. split; [exact Hsat | ].
  split; [exact Hevent | ].
  cbn [light sensor_id]. split; [reflexivity | ].
  split; [ | reflexivity]. now apply is_nonzero_float_of_ulong.
Qed.

(** X16.  The sketch prints [Sensor overload] exactly when the value of
    [calculateLux] is 0, and the value and [lux] otherwise: on a saturated
    reading it prints 65536 as a measurement, and never the overload. *)
Theorem loop_reports (ih : InterruptHeader) (fuel : nat)
    (pin_is_low : bool) (now : Z) (tsl : Sensor) :
  (2 <= fuel)%nat ->
  table_ok (lux_table h package) = true ->
  8 <= TSL2561_LUX_LUXSCALE h ->
  let cleared :=
    if pin_is_low then snd (clearLevelInterrupt h ih tsl) else tsl in
  let tsl' := snd (getLuminosity h src fuel cleared) in
  exists broadband ir lux : Z,
    fst (getLuminosity h src fuel cleared) = Some (broadband, ir) /\
    calculateLux h package tsl' broadband ir = Some lux /\
    (clipThreshold h (_tsl2561IntegrationTime tsl') < broadband \/
     clipThreshold h (_tsl2561IntegrationTime tsl') < ir -> lux = 65536) /\
    loop h src ih package lib fuel pin_is_low now tsl
    = Some ((if pin_is_low
             then [Println
                     "TSL2561 reported interrupt thresholds exceeded!"%string]
             else [])
            ++ (if lux =? 0
                then [Println "Sensor overload"%string]
                else [PrintFloat (float_of_ulong lux);
                      Println " lux"%string]),
            snd (delay 250 tsl')).
Proof.
  intros Hfuel Hok Hscale cleared tsl'.
  destruct (getEvent_value fuel now cleared Hfuel Hok Hscale)
    as (broadband & ir & lux & Hrun & Hlux & Hrange & Hsat & Hevent).
  exists broadband, ir, lux.
  split; [exact Hrun | ]. split; [exact Hlux | ]. split; [exact Hsat | ].
  unfold loop. cbv zeta.
  replace (snd (if pin_is_low
                then ([Println
                   "TSL2561 reported interrupt thresholds exceeded!"%string],
                      snd (clearLevelInterrupt h ih tsl))
                else ([], tsl)))
    with cleared by (subst cleared; destruct pin_is_low; reflexivity).
  rewrite Hevent. cbn [light].
  rewrite is_nonzero_float_of_ulong by exact Hrange.
  fold tsl'. destruct pin_is_low, (lux =? 0); reflexivity.
Qed.

End EventFacts.

Lemma getEvent_reports_saturation_witness :
  (2 <= 2)%nat /\
  table_ok (lux_table published_header PACKAGE_T_FN_CL) = true /\
  8 <= TSL2561_LUX_LUXSCALE published_header /\
  exists (lux : Z) (event : sensors_event_t),
    fst (getEvent published_header Adafruit_TSL2561_U_cpp PACKAGE_T_FN_CL
           sample_library 2 1000 dim_room)
    = Some (negb (lux =? 65536), event) /\
    light event = float_of_ulong lux.
Proof.
  split; [lia | ]. split; [reflexivity | ].
  split; [vm_compute; discriminate | ].
  destruct (getEvent_reports_saturation published_header
              Adafruit_TSL2561_U_cpp PACKAGE_T_FN_CL sample_library
              2 1000 dim_room (le_n 2) eq_refl)
    as (broadband & ir & lux & event & _ & _ & _ & Hevent & Hlight & _);
    [vm_compute; discriminate | ].
  exists lux, event. rewrite Hevent. split; [reflexivity | exact Hlight].
Defined.

Lemma loop_reports_witness :
  (2 <= 2)%nat /\
  table_ok (lux_table published_header PACKAGE_T_FN_CL) = true /\
  8 <= TSL2561_LUX_LUXSCALE published_header /\
  exists (lux : Z) (tsl' : Sensor),
    loop published_header Adafruit_TSL2561_U_cpp published_interrupt_header
      PACKAGE_T_FN_CL sample_library 2 false 1000 bright_room
    = Some ([PrintFloat (float_of_ulong lux); Println " lux"%string], tsl')
    /\ lux = 65536.
Proof.
  split; [lia | ]. split; [reflexivity | ].
  split; [vm_compute; discriminate | ].
  destruct (loop_reports published_header Adafruit_TSL2561_U_cpp
              PACKAGE_T_FN_CL sample_library published_interrupt_header
              2 false 1000 bright_room (le_n 2) eq_refl)
    as (broadband & ir & lux & Hrun & _ & Hsat & Hloop);
    [vm_compute; discriminate | ].
  assert (Hlux : lux = 65536).
  { apply Hsat. vm_compute in Hrun. injection Hrun as <- <-.
    left. reflexivity. }
  exists lux. eexists. split; [ | exact Hlux].
  rewrite Hloop. cbv zeta. rewrite Hlux. reflexivity.
Defined.

(** *** The device in step with the object *)

Section Mirror.

Variable h : Header.
Variable src : SourceFile.
Variable ih : InterruptHeader.

Hypothesis Hapart : registers_apart h ih = true.

Lemma timing_is_not_control :
  (timing_register h =? control_register h) = false /\
  (control_register h =? timing_register h) = false.
Proof.
  unfold registers_apart in Hapart. cbv zeta in Hapart.
  apply andb_prop in Hapart. destruct Hapart as [H _].
  apply negb_true_iff in H. split; [exact H | ].
  rewrite Z.eqb_sym. exact H.
Qed.

(** Runs a method on an object taken apart, for the registers. *)
Ltac run_registers :=
  destruct timing_is_not_control as [Htc Hct];
  unfold in_step in *; run;
  try match goal with
      | |- context [probe_fails ?f ?x] => destruct (probe_fails f x)
      end;
  fold (timing_register h) in *; fold (control_register h) in *;
  cbn [last_written];
  rewrite ?Z.eqb_refl, ?Htc, ?Hct;
  cbn [last_written].

Lemma in_step_setGain (g : tsl2561Gain_t) (s : Sensor) :
  in_step h (snd (setGain h src g s)).
Proof.
  destruct_sensor s.
  destruct initialised, sleep; run_registers;
    split; try reflexivity; discriminate.
Qed.

Lemma in_step_setIntegrationTime (t : tsl2561IntegrationTime_t)
    (s : Sensor) :
  in_step h (snd (setIntegrationTime h src t s)).
Proof.
  destruct_sensor s.
  destruct initialised, sleep; run_registers;
    split; try reflexivity; discriminate.
Qed.

Lemma in_step_begin (s : Sensor) :
  in_step h s \/ fst (begin h src s) = true ->
  in_step h (snd (begin h src s)).
Proof.
  destruct_sensor s.
  destruct sleep; run_registers;
    try (intros _; split; try reflexivity; discriminate);
    intros [Hs | Hs]; try discriminate; exact Hs.
Qed.

Lemma in_step_ready (s : Sensor) : in_step h s -> in_step h (ready h src s).
Proof.
  destruct_sensor s. unfold ready.
  destruct initialised, sleep; run_registers;
    try (intros _; split; try reflexivity; discriminate);
    intros Hs; exact Hs.
Qed.

Lemma in_step_getData (s : Sensor) :
  in_step h s -> in_step h (snd (getData h src s)).
Proof.
  destruct_sensor s.
  destruct sleep; run_registers; intros [Htiming Hcontrol];
    (split; [exact Htiming | ]); [reflexivity | discriminate].
Qed.

(** A write to a register other than the two leaves them as they are. *)
Lemma in_step_write8 (reg value : Z) (s : Sensor) :
  (to_uint8 reg =? timing_register h) = false ->
  (to_uint8 reg =? control_register h) = false ->
  in_step h s -> in_step h (snd (write8 reg value s)).
Proof.
  intros Ht Hc. destruct_sensor s. unfold in_step. run.
  cbn [last_written]. rewrite Ht, Hc. cbn [last_written]. auto.
Qed.

Lemma apart_facts :
  let command reg := to_uint8 (Z.lor (TSL2561_COMMAND_BIT h) reg) in
  forall reg : Z,
    In reg [command (TSL2561_REGISTER_INTERRUPT ih);
            command (TSL2561_REGISTER_THRESHHOLDL_LOW ih);
            to_uint8 (command (TSL2561_REGISTER_THRESHHOLDL_LOW ih) + 1);
            command (TSL2561_REGISTER_THRESHHOLDH_LOW ih);
            to_uint8 (command (TSL2561_REGISTER_THRESHHOLDH_LOW ih) + 1)] ->
    (reg =? timing_register h) = false /\
    (reg =? control_register h) = false.
Proof.
  intros command reg Hin.
  unfold registers_apart in Hapart. cbv zeta in Hapart.
  apply andb_prop in Hapart. destruct Hapart as [_ Hall].
  rewrite forallb_forall in Hall. specialize (Hall reg Hin).
  apply andb_prop in Hall. destruct Hall as [Ht Hc].
  now rewrite negb_true_iff in Ht, Hc.
Qed.

Lemma to_uint8_idempotent (x : Z) : to_uint8 (to_uint8 x) = to_uint8 x.
Proof. unfold to_uint8, wrap. apply Z.mod_mod. lia. Qed.

Lemma in_step_setInterruptControl (c p : Z) (s : Sensor) :
  in_step h s -> in_step h (snd (setInterruptControl h src ih c p s)).
Proof.
  destruct (apart_facts
              (to_uint8 (Z.lor (TSL2561_COMMAND_BIT h)
                               (TSL2561_REGISTER_INTERRUPT ih))))
    as [Hit Hic]; [cbn; auto | ].
  destruct_sensor s.
  unfold setInterruptControl, setInterruptControl_with. cbv zeta.
  destruct initialised, sleep; run_registers;
    rewrite ?to_uint8_idempotent, ?Hit, ?Hic; cbn [last_written];
    rewrite ?Z.eqb_refl, ?Htc, ?Hct; cbn [last_written];
    try (intros _; split; try reflexivity; discriminate);
    intros [Htiming Hcontrol];
    (split; [exact Htiming | ]); try reflexivity; discriminate.
Qed.

Lemma in_step_setInterruptThreshold (low high : Z) (s : Sensor) :
  in_step h s -> in_step h (snd (setInterruptThreshold h ih low high s)).
Proof.
  intros Hs. unfold setInterruptThreshold, write16. cbv zeta.
  pose proof apart_facts as Hfacts. cbv zeta in Hfacts.
  assert (Hwrite : forall reg value s,
            In (to_uint8 reg)
               [to_uint8 (Z.lor (TSL2561_COMMAND_BIT h)
                                (TSL2561_REGISTER_THRESHHOLDL_LOW ih));
                to_uint8 (to_uint8 (Z.lor (TSL2561_COMMAND_BIT h)
                            (TSL2561_REGISTER_THRESHHOLDL_LOW ih)) + 1);
                to_uint8 (Z.lor (TSL2561_COMMAND_BIT h)
                                (TSL2561_REGISTER_THRESHHOLDH_LOW ih));
                to_uint8 (to_uint8 (Z.lor (TSL2561_COMMAND_BIT h)
                            (TSL2561_REGISTER_THRESHHOLDH_LOW ih)) + 1)] ->
            in_step h s -> in_step h (snd (write8 reg value s))).
  { intros reg value s0 Hin. destruct (Hfacts (to_uint8 reg)) as [Ht Hc].
    - cbn [In] in Hin |- *. tauto.
    - now apply in_step_write8. }
  rewrite run_bind. cbv beta.
  destruct (_ <? _), (_ <? _); cbn [fst snd ret];
    rewrite ?run_bind; cbv beta; unfold ret; cbn [fst snd];
    repeat (apply Hwrite;
            [rewrite ?to_uint8_idempotent; cbn [In]; tauto | ]);
    exact Hs.
Qed.

Lemma in_step_clearLevelInterrupt (s : Sensor) :
  in_step h s -> in_step h (snd (clearLevelInterrupt h ih s)).
Proof.
  destruct_sensor s. unfold clearLevelInterrupt, writereg8, in_step. run.
  cbn [last_written]. auto.
Qed.

(** X17.  The driver keeps the device in step with the object.  Where the
    registers it writes are distinct, each setter and each successful
    [begin] leaves the timing register of the device written with the
    integration time and the gain the object holds, and the control
    register with the power-off code when the object may sleep; and no
    other method, a failed [begin] included, brings the two out of
    step. *)
Theorem device_in_step (package : Package) (lib : SensorLibrary)
    (s : Sensor) :
  (forall t, in_step h (snd (setIntegrationTime h src t s))) /\
  (forall g, in_step h (snd (setGain h src g s))) /\
  (fst (begin h src s) = true -> in_step h (snd (begin h src s))) /\
  (in_step h s ->
   in_step h (snd (begin h src s)) /\
   in_step h (snd (enableAutoRange true s)) /\
   in_step h (snd (enableAutoRange false s)) /\
   (forall fuel, (2 <= fuel)%nat ->
      in_step h (snd (getLuminosity h src fuel s))) /\
   (forall fuel now, (2 <= fuel)%nat ->
      in_step h (snd (getEvent h src package lib fuel now s))) /\
   (forall c p, in_step h (snd (setInterruptControl h src ih c p s))) /\
   (forall low high,
      in_step h (snd (setInterruptThreshold h ih low high s))) /\
   in_step h (snd (clearLevelInterrupt h ih s))).
Proof.
  split; [intros t; apply in_step_setIntegrationTime | ].
  split; [intros g; apply in_step_setGain | ].
  split; [intros Hok; apply in_step_begin; now right | ].
  intros Hs.
  assert (Hloop : forall fuel, (2 <= fuel)%nat ->
            in_step h (snd (getLuminosity h src fuel s))).
  { intros fuel Hfuel.
    apply (getLuminosity_keeps h src (in_step h)); try assumption.
    - apply in_step_ready.
    - apply in_step_getData.
    - intros g s' _. apply in_step_setGain. }
  split; [apply in_step_begin; now left | ].
  split; [destruct s; exact Hs | ].
  split; [destruct s; exact Hs | ].
  split; [exact Hloop | ].
  split; [intros fuel now Hfuel; rewrite getEvent_state; now apply Hloop | ].
  split; [intros c p; now apply in_step_setInterruptControl | ].
  split; [intros low high; now apply in_step_setInterruptThreshold | ].
  now apply in_step_clearLevelInterrupt.
Qed.

End Mirror.

Lemma device_in_step_witness :
  registers_apart published_header published_interrupt_header = true /\
  in_step published_header started /\
  in_step published_header
    (snd (getLuminosity published_header Adafruit_TSL2561_U_cpp 2 started)).
Proof.
  split; [reflexivity | ].
  destruct (device_in_step published_header Adafruit_TSL2561_U_cpp
              published_interrupt_header eq_refl PACKAGE_T_FN_CL
              sample_library dim_room) as (_ & _ & Hbegin & _).
  assert (Hstarted : in_step published_header started)
    by (apply Hbegin; reflexivity).
  split; [exact Hstarted | ].
  destruct (device_in_step published_header Adafruit_TSL2561_U_cpp
              published_interrupt_header eq_refl PACKAGE_T_FN_CL
              sample_library started) as (_ & _ & _ & Hkept).
  destruct (Hkept Hstarted) as (_ & _ & _ & Hloop & _).
  apply Hloop. lia.
Defined.

(** *** More of the lux conversion *)

Section LuxEdges.

Variable h : Header.

(** X18.  Above the last breakpoint the conversion gives 0.  On a table
    in order whose last pair of coefficients is 0 and 0, a reading that is
    not saturated and whose ratio is above [K8] comes back as 0 lux. *)
Theorem ratio_above_last_breakpoint_gives_zero (package : Package)
    (s : Sensor) (broadband ir : Z) :
  let t := lux_table h package in
  let scale := chScale h (_tsl2561IntegrationTime s) (_tsl2561Gain s) in
  let channel0 := scale_channel h scale broadband in
  let channel1 := scale_channel h scale ir in
  table_ok t = true ->
  B8 t = 0 ->
  M8 t = 0 ->
  1 <= TSL2561_LUX_LUXSCALE h ->
  broadband <= clipThreshold h (_tsl2561IntegrationTime s) ->
  ir <= clipThreshold h (_tsl2561IntegrationTime s) ->
  K8 t < lux_ratio h channel0 channel1 ->
  calculateLux h package s broadband ir = Some 0.
Proof.
  intros t scale channel0 channel1 Hok HB HM Hscale Hb Hir Hratio.
  unfold calculateLux. cbv zeta.
  destruct (Z.ltb_spec (clipThreshold h (_tsl2561IntegrationTime s))
              broadband); [lia | ].
  destruct (Z.ltb_spec (clipThreshold h (_tsl2561IntegrationTime s)) ir);
    [lia | ].
  cbn [orb]. fold scale. fold channel0. fold channel1. fold t.
  revert Hratio. generalize (lux_ratio h channel0 channel1).
  intros ratio Hratio.
  assert (Hselect : select_coefficients t ratio = Some (0, 0)).
  { unfold table_ok in Hok. cbn [forallb] in Hok. bool_facts.
    unfold select_coefficients, to_ulong, to_uint, wrap.
    rewrite HB, HM. rewrite !Z.mod_small by lia.
    destruct (Z.leb_spec 0 ratio); [ | lia]. cbn [andb].
    repeat match goal with
           | |- context [ratio <=? ?k] =>
               destruct (Z.leb_spec ratio k); [lia | ]
           end.
    destruct (Z.ltb_spec (K8 t) ratio); [reflexivity | lia]. }
  rewrite Hselect. f_equal.
  unfold lux_temp, lux_round, to_ulong, to_uint32, wrap. cbv zeta.
  rewrite !Z.mul_0_r. change ((0 - 0) mod 2 ^ 32) with 0.
  change (0 <? 0) with false. cbv iota. rewrite Z.add_0_l.
  rewrite Z.shiftl_mul_pow2, Z.mul_1_l by lia.
  rewrite Z.shiftr_div_pow2 by lia.
  assert (Hbias : 0 < 2 ^ (TSL2561_LUX_LUXSCALE h - 1))
    by (apply Z.pow_pos_nonneg; lia).
  assert (Hpow : 2 ^ TSL2561_LUX_LUXSCALE h
                 = 2 * 2 ^ (TSL2561_LUX_LUXSCALE h - 1)).
  { rewrite <- Z.pow_succ_r by lia. f_equal. lia. }
  pose proof (Z.mod_pos_bound (2 ^ (TSL2561_LUX_LUXSCALE h - 1)) (2 ^ 32)
                eq_refl) as Hmod.
  pose proof (Z.mod_le (2 ^ (TSL2561_LUX_LUXSCALE h - 1)) (2 ^ 32)
                ltac:(lia) eq_refl) as Hle.
  rewrite Z.div_small by lia. reflexivity.
Qed.

(** X19.  402 ms and gain 16x are the reference of the scaling: there a
    channel is taken as it was read, and at 402 ms and gain 1x it is
    multiplied by 16. *)
Theorem reference_setting_is_unscaled (raw : Z) :
  0 <= TSL2561_LUX_CHSCALE h <= 27 ->
  0 <= raw ->
  raw * 2 ^ (TSL2561_LUX_CHSCALE h + 4) < 2 ^ 32 ->
  (gain_code h GAIN_16X <> 0 ->
   scale_channel h (chScale h INTEGRATIONTIME_402MS GAIN_16X) raw = raw) /\
  (gain_code h GAIN_1X = 0 ->
   scale_channel h (chScale h INTEGRATIONTIME_402MS GAIN_1X) raw
   = 16 * raw).
Proof.
  intros Hscale Hraw Hfit.
  set (n := TSL2561_LUX_CHSCALE h) in *.
  assert (Hpos : 0 < 2 ^ n) by (apply Z.pow_pos_nonneg; lia).
  assert (Hpow : 2 ^ (n + 4) = 16 * 2 ^ n)
    by (rewrite Z.pow_add_r by lia; lia).
  assert (Hmax : 2 ^ (n + 4) <= 2 ^ 31) by (apply Z.pow_le_mono_r; lia).
  change (2 ^ 31) with 2147483648 in Hmax.
  change (2 ^ 32) with 4294967296 in Hfit.
  unfold scale_channel, chScale, to_ulong, wrap. cbv beta iota zeta.
  fold n. rewrite (Z.shiftl_mul_pow2 1 n), Z.mul_1_l by lia.
  change (2 ^ 32) with 4294967296.
  rewrite (Z.mod_small (2 ^ n)) by lia.
  split; intros Hgain.
  - destruct (Z.eqb_spec (gain_code h GAIN_16X) 0); [contradiction | ].
    rewrite Z.mod_small by nia.
    rewrite Z.shiftr_div_pow2 by lia. apply Z.div_mul. lia.
  - rewrite Hgain. cbn [Z.eqb].
    rewrite Z.shiftl_mul_pow2 by lia. change (2 ^ 4) with 16.
    rewrite (Z.mod_small (2 ^ n * 16)) by lia.
    rewrite Z.mod_small by nia.
    rewrite Z.shiftr_div_pow2 by lia.
    replace (raw * (2 ^ n * 16)) with (16 * raw * 2 ^ n) by lia.
    apply Z.div_mul. lia.
Qed.

End LuxEdges.

Lemma ratio_above_last_breakpoint_gives_zero_witness :
  K8 published_T
  < lux_ratio published_header
      (scale_channel published_header
         (chScale published_header INTEGRATIONTIME_402MS GAIN_16X) 100)
      (scale_channel published_header
         (chScale published_header INTEGRATIONTIME_402MS GAIN_16X) 200) /\
  calculateLux published_header PACKAGE_T_FN_CL unscaled 100 200 = Some 0.
Proof.
  split; [reflexivity | ].
  apply (ratio_above_last_breakpoint_gives_zero published_header
           PACKAGE_T_FN_CL unscaled 100 200);
    try reflexivity; vm_compute; discriminate.
Defined.

Lemma reference_setting_is_unscaled_witness :
  0 <= TSL2561_LUX_CHSCALE published_header <= 27 /\
  scale_channel published_header
    (chScale published_header INTEGRATIONTIME_402MS GAIN_16X) 65000
  = 65000 /\
  scale_channel published_header
    (chScale published_header INTEGRATIONTIME_402MS GAIN_1X) 65000
  = 16 * 65000.
Proof.
  split; [vm_compute; split; discriminate | ].
  destruct (reference_setting_is_unscaled published_header 65000)
    as [H16 H1]; [vm_compute; split; discriminate | lia | reflexivity | ].
  split; [apply H16; discriminate | apply H1; reflexivity].
Defined.

(** *** The inverse approximation for the CS package *)

(** X20.  With the CS package [calculateRawCH0] computes no threshold: the
    divisor it works out is never used, and it returns 0xFFFF for a ratio
    above 1.30 and 0 for every other ratio, whatever the lux value
    asked for. *)
Theorem calculateRawCH0_CS_ignores_lux (h : Header) (fpu : FloatUnit)
    (s : Sensor) (lux : Z) (approxChRatio : spec_float) :
  chScale h (_tsl2561IntegrationTime s) (_tsl2561Gain s) <> 0 ->
  calculateRawCH0 h PACKAGE_CS fpu s lux approxChRatio
  = if fgt approxChRatio (literal fpu 130 2) then 0xFFFF else 0.
Proof.
  intros Hscale. unfold calculateRawCH0.
  destruct (fgt approxChRatio (literal fpu 130 2)); [reflexivity | ].
  cbv zeta. unfold scale_back. rewrite Z.div_0_l by exact Hscale.
  reflexivity.
Qed.

Lemma calculateRawCH0_CS_ignores_lux_witness :
  chScale published_header (_tsl2561IntegrationTime unscaled)
    (_tsl2561Gain unscaled) <> 0 /\
  calculateRawCH0 published_header PACKAGE_CS sample_fpu unscaled 400
    (float_of_ulong 1) = 0.
Proof.
  split; [vm_compute; discriminate | ].
  rewrite (calculateRawCH0_CS_ignores_lux published_header sample_fpu
             unscaled 400 (float_of_ulong 1));
    [reflexivity | vm_compute; discriminate].
Defined.
